(** * Health telemetry ingestion: a shallow embedding and its properties

    The development follows the two request handlers of the backend,
    [backend/app/apis/ingest/__init__.py] (the ingestion webhook) and
    [backend/app/apis/metrics/__init__.py] (the range query), together
    with the pieces of the Python runtime they call: exceptions, the
    dynamic values produced by [json.loads], binary64 floats, [datetime]
    and its two parsers.

    Layout: the runtime model ([Py], [Float], [Str], [Datetime]), the
    dynamic values ([pyval]), the request models and their validation,
    the storage model, the handlers, and then the theorems. *)

From Stdlib Require Import ZArith Lia Bool List Ascii String.
From Stdlib Require Import Floats.SpecFloat.
From stdpp Require Import base strings gmap list fin_maps sorting.
Import ListNotations.

Set Warnings "-register-all".

(** ** Exceptions and the result of a computation that may raise *)

Inductive exn : Type :=
| ValueError
| TypeError
| KeyError
| AttributeError
| OverflowError
| ZeroDivisionError
| ValidationError
| UnicodeDecodeError
| JSONDecodeError
| ConnectionFailure
| DataError
| PostgresError
| HTTPException (status_code : Z).

Inductive result (A : Type) : Type :=
| Ok (a : A)
| Raise (e : exn).
Arguments Ok {A} a.
Arguments Raise {A} e.

Definition bind {A B : Type} (r : result A) (k : A -> result B) : result B :=
  match r with
  | Ok a => k a
  | Raise e => Raise e
  end.

Notation "'let*' x ':=' r 'in' k" := (bind r (fun x => k))
  (at level 10, x name, r at level 100, k at level 200).

Definition of_option {A : Type} (e : exn) (o : option A) : result A :=
  match o with
  | Some a => Ok a
  | None => Raise e
  end.

Definition is_ok {A : Type} (r : result A) : bool :=
  match r with
  | Ok _ => true
  | Raise _ => false
  end.

Fixpoint mapM {A B : Type} (f : A -> result B) (l : list A) : result (list B) :=
  match l with
  | [] => Ok []
  | a :: l' => let* b := f a in let* bs := mapM f l' in Ok (b :: bs)
  end.

#[global] Instance exn_eq_dec : EqDecision exn.
Proof. solve_decision. Defined.

(** ** Binary64 floating point

    Python's [float] is the IEEE 754 binary64 format.  The operations
    are those of the standard library's executable specification,
    instantiated at 53 bits of precision. *)

Module Float.

Definition float : Type := spec_float.

Definition prec : Z := 53.
Definition emax : Z := 1024.

Definition add : float -> float -> float := SFadd prec emax.
Definition mul : float -> float -> float := SFmul prec emax.
Definition div : float -> float -> float := SFdiv prec emax.
Definition compare : float -> float -> option comparison := SFcompare.

Definition zero : float := S754_zero false.

(** The float nearest to an integer (ties to even); infinite when the
    integer is beyond the format. *)
Definition of_Z (z : Z) : float := binary_normalize prec emax z 0 false.

(** An integer as an unrounded operand, for the correctly rounded
    quotient of two integers. *)
Definition exact (z : Z) : float :=
  match z with
  | Z0 => S754_zero false
  | Zpos m => S754_finite false m 0
  | Zneg m => S754_finite true m 0
  end.

Definition is_zero (f : float) : bool :=
  match f with
  | S754_zero _ => true
  | _ => false
  end.

Definition is_inf (f : float) : bool :=
  match f with
  | S754_infinity _ => true
  | _ => false
  end.

(** [float(n)] for an [int] n: OverflowError when n is too large. *)
Definition of_int (z : Z) : result float :=
  let f := of_Z z in
  if is_inf f then Raise OverflowError else Ok f.

(** [int(x)]: truncation toward zero; OverflowError on an infinity,
    ValueError on a NaN. *)
Definition to_int (f : float) : result Z :=
  match f with
  | S754_zero _ => Ok 0%Z
  | S754_infinity _ => Raise OverflowError
  | S754_nan => Raise ValueError
  | S754_finite s m e =>
      let a := match e with
               | Zneg p => Z.shiftr (Zpos m) (Zpos p)
               | _ => Z.shiftl (Zpos m) e
               end in
      Ok (if s then Z.opp a else a)
  end.

(** [round(x)] with no digits argument: the nearest integer, ties to
    the even one. *)
Definition round (f : float) : result Z :=
  match f with
  | S754_zero _ => Ok 0%Z
  | S754_infinity _ => Raise OverflowError
  | S754_nan => Raise ValueError
  | S754_finite s m e =>
      let a := match e with
               | Zneg p =>
                   let q := Z.shiftr (Zpos m) (Zpos p) in
                   let r := Z.land (Zpos m) (Z.ones (Zpos p)) in
                   let half := Z.shiftl 1 (Zpos p - 1) in
                   match Z.compare r half with
                   | Lt => q
                   | Gt => (q + 1)%Z
                   | Eq => if Z.even q then q else (q + 1)%Z
                   end
               | _ => Z.shiftl (Zpos m) e
               end in
      Ok (if s then Z.opp a else a)
  end.

(** [x / y] on floats: ZeroDivisionError when y is a zero. *)
Definition truediv (x y : float) : result float :=
  if is_zero y then Raise ZeroDivisionError else Ok (div x y).

(** [a / b] on ints: the correctly rounded quotient; ZeroDivisionError
    when b is 0, OverflowError when the quotient is beyond the format. *)
Definition int_truediv (a b : Z) : result float :=
  if (b =? 0)%Z then Raise ZeroDivisionError
  else
    let q := div (exact a) (exact b) in
    if is_inf q then Raise OverflowError else Ok q.

(** [x > 0]; false on a NaN. *)
Definition gt_zero (f : float) : bool :=
  match compare f zero with
  | Some Gt => true
  | _ => false
  end.

End Float.

(** ** Characters and strings

    A Python [str] is modelled as a [string] whose characters are the
    code points below 256. *)

Module Str.

Definition chars (s : string) : list ascii := list_ascii_of_string s.
Definition of_chars (l : list ascii) : string := string_of_list_ascii l.

Definition code (c : ascii) : Z := Z.of_N (N_of_ascii c).

Definition is_digit (c : ascii) : bool := (48 <=? code c)%Z && (code c <=? 57)%Z.
Definition digit_val (c : ascii) : Z := (code c - 48)%Z.

(** The characters matched by [\s] in a [str] pattern. *)
Definition is_space (c : ascii) : bool :=
  let n := code c in
  ((9 <=? n) && (n <=? 13) || (28 <=? n) && (n <=? 32) || (n =? 133) || (n =? 160))%Z.

Definition lower (c : ascii) : ascii :=
  let n := code c in
  if ((65 <=? n) && (n <=? 90))%Z then ascii_of_N (N_of_ascii c + 32) else c.

Definition eqb_nocase (a b : ascii) : bool := Ascii.eqb (lower a) (lower b).

(** The value of a run of decimal digits, most significant first. *)
Definition digits_val (l : list ascii) : Z :=
  fold_left (fun acc c => (acc * 10 + digit_val c)%Z) l 0%Z.

(** [int(s)] on the strings this program hands to it: a non-empty run
    of decimal digits converts, anything else is a ValueError. *)
Definition int_of (l : list ascii) : result Z :=
  match l with
  | [] => Raise ValueError
  | _ => if forallb is_digit l then Ok (digits_val l) else Raise ValueError
  end.

(** [l[a:b]] for non-negative bounds. *)
Definition slice (a b : nat) (l : list ascii) : list ascii := firstn (b - a) (skipn a l).

Fixpoint is_prefix (p l : list ascii) : bool :=
  match p, l with
  | [], _ => true
  | a :: p', b :: l' => Ascii.eqb a b && is_prefix p' l'
  | _ :: _, [] => false
  end.

(** [needle in hay] on two strings. *)
Fixpoint contains (needle hay : list ascii) : bool :=
  is_prefix needle hay ||
  match hay with
  | [] => false
  | _ :: hay' => contains needle hay'
  end.

(** [s.replace(old, new)] for a non-empty [old]: every non-overlapping
    occurrence, scanning from the left.  [skip] counts the characters of
    an occurrence that are still to be dropped. *)
Fixpoint replace_from (old new : list ascii) (skip : nat) (l : list ascii) : list ascii :=
  match l with
  | [] => []
  | c :: l' =>
      match skip with
      | S k => replace_from old new k l'
      | O =>
          if is_prefix old l
          then new ++ replace_from old new (length old - 1) l'
          else c :: replace_from old new O l'
      end
  end.

(** With an empty [old], [new] is inserted before every character and
    at the end. *)
Definition replace (old new s : string) : string :=
  match chars old with
  | [] => of_chars (flat_map (fun c => chars new ++ [c]) (chars s) ++ chars new)
  | o => of_chars (replace_from o (chars new) O (chars s))
  end.

(** The replacement the specification describes: only a [Z] that ends
    the string is rewritten. *)
Definition replace_trailing_Z (new s : string) : string :=
  match rev (chars s) with
  | c :: r => if Ascii.eqb c "Z"%char then of_chars (rev r ++ chars new) else s
  | [] => s
  end.

End Str.

(** ** Pattern matching with backtracking

    [datetime.strptime] turns its format into a regular expression and
    takes the first match the backtracking matcher finds.  A pattern is
    modelled by the list of its matches at the head of the input, in the
    matcher's order of preference. *)

Module Re.

Definition t (A : Type) : Type := list ascii -> list (A * list ascii).

Definition ret {A : Type} (a : A) : t A := fun s => [(a, s)].

Definition seq {A B : Type} (p : t A) (k : A -> t B) : t B :=
  fun s => flat_map (fun r => k (fst r) (snd r)) (p s).

Definition alt {A : Type} (p q : t A) : t A := fun s => p s ++ q s.

Definition sat (f : ascii -> bool) : t (list ascii) :=
  fun s =>
    match s with
    | c :: s' => if f c then [([c], s')] else []
    | [] => []
    end.

Definition cat (p q : t (list ascii)) : t (list ascii) :=
  seq p (fun a => seq q (fun b => ret (a ++ b))).

(** [p?], greedy. *)
Definition opt (p : t (list ascii)) : t (list ascii) := alt p (ret []).

Definition lit (c : ascii) : t (list ascii) := sat (Ascii.eqb c).
Definition lit_nocase (c : ascii) : t (list ascii) := sat (Str.eqb_nocase c).
Definition rng (lo hi : ascii) : t (list ascii) :=
  sat (fun c => (Str.code lo <=? Str.code c)%Z && (Str.code c <=? Str.code hi)%Z).
Definition digit : t (list ascii) := sat Str.is_digit.

(** [\s+], greedy: the longest run first. *)
Fixpoint spaces (s : list ascii) : list (list ascii * list ascii) :=
  match s with
  | c :: s' =>
      if Str.is_space c
      then map (fun r => (c :: fst r, snd r)) (spaces s') ++ [([c], s')]
      else []
  | [] => []
  end.

(** [\d{1,n}], greedy. *)
Fixpoint digits_upto (n : nat) (s : list ascii) : list (list ascii * list ascii) :=
  match n, s with
  | S n', c :: s' =>
      if Str.is_digit c
      then map (fun r => (c :: fst r, snd r)) (digits_upto n' s') ++ [([c], s')]
      else []
  | _, _ => []
  end.

End Re.

(** ** Dates and times

    A [datetime] with its fields as the constructor stores them;
    [tzinfo] is [None] for a naive value and the UTC offset of a fixed
    [timezone], in microseconds, for an aware one.  A [timedelta] is its
    total number of microseconds. *)

Module Datetime.

Local Open Scope Z_scope.

Record t : Type := mk {
  year : Z; month : Z; day : Z;
  hour : Z; minute : Z; second : Z; microsecond : Z;
  tzinfo : option Z }.

Definition timedelta : Type := Z.

Definition MINYEAR : Z := 1.
Definition MAXYEAR : Z := 9999.

Definition is_leap (y : Z) : bool :=
  (y mod 4 =? 0) && (negb (y mod 100 =? 0) || (y mod 400 =? 0)).

Definition days_before_year (y : Z) : Z :=
  let y' := y - 1 in y' * 365 + y' / 4 - y' / 100 + y' / 400.

Definition DAYS_IN_MONTH : list Z := [-1; 31; 28; 31; 30; 31; 30; 31; 31; 30; 31; 30; 31].
Definition DAYS_BEFORE_MONTH : list Z := [-1; 0; 31; 59; 90; 120; 151; 181; 212; 243; 273; 304; 334].

Definition days_in_month (y m : Z) : Z :=
  if (m =? 2) && is_leap y then 29 else List.nth (Z.to_nat m) DAYS_IN_MONTH 0.

Definition days_before_month (y m : Z) : Z :=
  List.nth (Z.to_nat m) DAYS_BEFORE_MONTH 0 + (if (2 <? m) && is_leap y then 1 else 0).

Definition ymd2ord (y m d : Z) : Z := days_before_year y + days_before_month y m + d.

(** [timezone(timedelta(microseconds=off))]: the offset must lie
    strictly between minus and plus 24 hours. *)
Definition timezone (off : Z) : result Z :=
  if (-86400000000 <? off) && (off <? 86400000000) then Ok off else Raise ValueError.

(** [datetime(year, month, day, hour, minute, second, microsecond, tzinfo)] *)
Definition new (y m d H M S us : Z) (tz : option Z) : result t :=
  if (MINYEAR <=? y) && (y <=? MAXYEAR)
     && (1 <=? m) && (m <=? 12)
     && (1 <=? d) && (d <=? days_in_month y m)
     && (0 <=? H) && (H <=? 23)
     && (0 <=? M) && (M <=? 59)
     && (0 <=? S) && (S <=? 59)
     && (0 <=? us) && (us <=? 999999)
  then Ok (mk y m d H M S us tz)
  else Raise ValueError.

(** Microseconds of the wall-clock reading since the start of day 0. *)
Definition wall_micros (d : t) : Z :=
  (((ymd2ord (year d) (month d) (day d) * 24 + hour d) * 60 + minute d) * 60 + second d)
  * 1000000 + microsecond d.

(** The instant denoted, with a naive value read as UTC. *)
Definition utc_micros (d : t) : Z :=
  wall_micros d - match tzinfo d with Some off => off | None => 0 end.

(** [a - b]: TypeError when one is naive and the other aware. *)
Definition sub (a b : t) : result timedelta :=
  match tzinfo a, tzinfo b with
  | None, None => Ok (wall_micros a - wall_micros b)
  | Some oa, Some ob => Ok ((wall_micros a - oa) - (wall_micros b - ob))
  | _, _ => Raise TypeError
  end.

(** [td.total_seconds()] *)
Definition total_seconds (td : timedelta) : result Float.float :=
  Float.int_truediv td 1000000.

(** The three-way comparison behind [<], [<=], [>] and [>=]. *)
Definition cmp (a b : t) : result comparison :=
  let* d := sub a b in Ok (Z.compare d 0).

Definition ge (a b : t) : result bool :=
  let* c := cmp a b in Ok (match c with Lt => false | _ => true end).

Definition lt (a b : t) : result bool :=
  let* c := cmp a b in Ok (match c with Lt => true | _ => false end).

(** [a == b]: a naive and an aware value are never equal. *)
Definition eqb (a b : t) : bool :=
  match sub a b with
  | Ok d => d =? 0
  | Raise _ => false
  end.

(** *** [strptime] *)

Inductive item : Type :=
| Dir (c : ascii)
| Lit (c : ascii)
| Ws.

(** The format is cut into directives, literal characters and runs of
    white space; a [%] with nothing after it is an error. *)
Fixpoint compile (fmt : list ascii) : option (list item) :=
  match fmt with
  | [] => Some []
  | c :: rest =>
      if Ascii.eqb c "%"%char then
        match rest with
        | [] => None
        | k :: rest' =>
            items ← compile rest';
            Some ((if Ascii.eqb k "%"%char then Lit "%"%char else Dir k) :: items)
        end
      else
        items ← compile rest;
        Some (if Str.is_space c
              then match items with
                   | Ws :: _ => items
                   | _ => Ws :: items
                   end
              else Lit c :: items)
  end.

(** The pattern of each directive the model supports. *)
Definition directive (k : ascii) : option (Re.t (list ascii)) :=
  let d := Re.digit in
  let alts := fold_right Re.alt (fun _ => []) in
  if Ascii.eqb k "Y"%char then Some (Re.cat d (Re.cat d (Re.cat d d)))
  else if Ascii.eqb k "m"%char then
    Some (alts [Re.cat (Re.lit "1"%char) (Re.rng "0"%char "2"%char);
                Re.cat (Re.lit "0"%char) (Re.rng "1"%char "9"%char);
                Re.rng "1"%char "9"%char])
  else if Ascii.eqb k "d"%char then
    Some (alts [Re.cat (Re.lit "3"%char) (Re.rng "0"%char "1"%char);
                Re.cat (Re.rng "1"%char "2"%char) d;
                Re.cat (Re.lit "0"%char) (Re.rng "1"%char "9"%char);
                Re.rng "1"%char "9"%char;
                Re.cat (Re.lit " "%char) (Re.rng "1"%char "9"%char)])
  else if Ascii.eqb k "H"%char then
    Some (alts [Re.cat (Re.lit "2"%char) (Re.rng "0"%char "3"%char);
                Re.cat (Re.rng "0"%char "1"%char) d;
                d])
  else if Ascii.eqb k "M"%char then
    Some (alts [Re.cat (Re.rng "0"%char "5"%char) d; d])
  else if Ascii.eqb k "S"%char then
    Some (alts [Re.cat (Re.lit "6"%char) (Re.rng "0"%char "1"%char);
                Re.cat (Re.rng "0"%char "5"%char) d;
                d])
  else if Ascii.eqb k "z"%char then
    let colon := Re.opt (Re.lit ":"%char) in
    let sixty := Re.cat (Re.rng "0"%char "5"%char) d in
    let frac := Re.cat (Re.lit "."%char) (Re.digits_upto 6) in
    let secs := Re.cat colon (Re.cat sixty (Re.opt frac)) in
    Some (alts [Re.cat (Re.alt (Re.lit "+"%char) (Re.lit "-"%char))
                  (Re.cat d (Re.cat d (Re.cat colon (Re.cat sixty (Re.opt secs)))));
                Re.lit "Z"%char])
  else None.

(** The groups found, keyed by directive letter. *)
Definition groups : Type := list (ascii * list ascii).

Fixpoint match_items (items : list item) : option (Re.t groups) :=
  match items with
  | [] => Some (Re.ret [])
  | it :: items' =>
      rest ← match_items items';
      match it with
      | Dir k =>
          p ← directive k;
          Some (Re.seq p (fun txt => Re.seq rest (fun g => Re.ret ((k, txt) :: g))))
      | Lit c => Some (Re.seq (Re.lit_nocase c) (fun _ => rest))
      | Ws => Some (Re.seq Re.spaces (fun _ => rest))
      end
  end.

Definition group (k : ascii) (g : groups) : option (list ascii) :=
  snd <$> find (fun kv => Ascii.eqb (fst kv) k) g.

(** The value of a numeric group; the day pattern admits a leading
    blank, which [int] ignores. *)
Definition group_int (k : ascii) (default : Z) (g : groups) : result Z :=
  match group k g with
  | None => Ok default
  | Some txt => Str.int_of (filter (fun c => negb (Ascii.eqb c " "%char)) txt)
  end.

(** The offset of a signed [%z] group, in microseconds. *)
Definition signed_gmtoff (z : list ascii) : result Z :=
  let* z1 :=
    (if Ascii.eqb (List.nth 3 z " "%char) ":"%char then
       let z' := Str.slice 0 3 z ++ skipn 4 z in
       if (5 <? length z')%nat then
         if Ascii.eqb (List.nth 5 z' " "%char) ":"%char
         then Ok (Str.slice 0 5 z' ++ skipn 6 z')
         else Raise ValueError
       else Ok z'
     else Ok z) in
  let* hours := Str.int_of (Str.slice 1 3 z1) in
  let* minutes := Str.int_of (Str.slice 3 5 z1) in
  let* seconds :=
    (match Str.slice 5 7 z1 with
     | [] => Ok 0
     | s => Str.int_of s
     end) in
  let remainder := skipn 8 z1 in
  let* fraction := Str.int_of (remainder ++ repeat "0"%char (6 - length remainder)) in
  let off := (hours * 3600 + minutes * 60 + seconds) * 1000000 + fraction in
  Ok (if Ascii.eqb (List.nth 0 z1 " "%char) "-"%char then - off else off).

(** The offset of a [%z] group: [Z] is UTC. *)
Definition gmtoff (z : list ascii) : result Z :=
  if String.eqb (Str.of_chars z) "Z" then Ok 0 else signed_gmtoff z.

(** [datetime.strptime(data_string, format)]; every failure is a
    ValueError. *)
Definition strptime (data_string format : string) : result t :=
  match compile (Str.chars format) ≫= match_items with
  | None => Raise ValueError
  | Some re =>
      match re (Str.chars data_string) with
      | [] => Raise ValueError
      | (_, _ :: _) :: _ => Raise ValueError
      | (g, []) :: _ =>
          let* y := group_int "Y"%char 1900 g in
          let* m := group_int "m"%char 1 g in
          let* d := group_int "d"%char 1 g in
          let* hh := group_int "H"%char 0 g in
          let* mi := group_int "M"%char 0 g in
          let* ss := group_int "S"%char 0 g in
          let* tz :=
            (match group "z"%char g with
             | None => Ok None
             | Some z => let* off := gmtoff z in let* o := timezone off in Ok (Some o)
             end) in
          new y m d hh mi ss 0 tz
      end
  end.

(** *** [fromisoformat]

    The documented format
    [YYYY-MM-DD[*HH[:MM[:SS[.fff[fff]]]][+HH:MM[:SS[.ffffff]]]]], where
    [*] is any one character. *)

Fixpoint parse_hh_mm_ss (n : nat) (l : list ascii) : result (list Z * list ascii) :=
  match n with
  | O => Ok ([], l)
  | S n' =>
      match l with
      | a :: b :: rest =>
          let* v := Str.int_of [a; b] in
          match rest, n' with
          | [], _ => Ok ([v], [])
          | _ :: _, O => Ok ([v], rest)
          | c :: rest', S _ =>
              if Ascii.eqb c ":"%char then
                let* r := parse_hh_mm_ss n' rest' in Ok (v :: fst r, snd r)
              else Raise ValueError
          end
      | _ => Raise ValueError
      end
  end.

Definition parse_hh_mm_ss_ff (l : list ascii) : result (Z * Z * Z * Z) :=
  let* r := parse_hh_mm_ss 3 l in
  let comps := fst r in
  let* us :=
    (match snd r with
     | [] => Ok 0
     | c :: frac =>
         if Ascii.eqb c "."%char then
           match length frac with
           | 3%nat => let* v := Str.int_of frac in Ok (v * 1000)
           | 6%nat => Str.int_of frac
           | _ => Raise ValueError
           end
         else Raise ValueError
     end) in
  Ok (List.nth 0 comps 0, List.nth 1 comps 0, List.nth 2 comps 0, us).

Definition parse_isoformat_date (l : list ascii) : result (Z * Z * Z) :=
  let* y := Str.int_of (Str.slice 0 4 l) in
  let* m := Str.int_of (Str.slice 5 7 l) in
  let* d := Str.int_of (Str.slice 8 10 l) in
  if Ascii.eqb (List.nth 4 l " "%char) "-"%char && Ascii.eqb (List.nth 7 l " "%char) "-"%char
  then Ok (y, m, d) else Raise ValueError.

(** The time part is cut at its first sign character. *)
Fixpoint split_sign (l : list ascii) : list ascii * option (ascii * list ascii) :=
  match l with
  | [] => ([], None)
  | c :: l' =>
      if Ascii.eqb c "+"%char || Ascii.eqb c "-"%char then ([], Some (c, l'))
      else let r := split_sign l' in (c :: fst r, snd r)
  end.

Definition parse_isoformat_tz (sign : ascii) (l : list ascii) : result Z :=
  match length l with
  | 5%nat | 8%nat | 15%nat =>
      let* c := parse_hh_mm_ss_ff l in
      let '(h, m, s, us) := c in
      let off := ((h * 60 + m) * 60 + s) * 1000000 + us in
      timezone (if Ascii.eqb sign "-"%char then - off else off)
  | _ => Raise ValueError
  end.

Definition fromisoformat (date_string : string) : result t :=
  let l := Str.chars date_string in
  if (length l <? 10)%nat then Raise ValueError
  else
    let* ymd := parse_isoformat_date (firstn 10 l) in
    let '(y, m, d) := ymd in
    match skipn 10 l with
    | [] => new y m d 0 0 0 0 None
    | _ :: tstr =>
        let parts := split_sign tstr in
        let* c := parse_hh_mm_ss_ff (fst parts) in
        let '(hh, mi, ss, us) := c in
        let* tz :=
          (match snd parts with
           | None => Ok None
           | Some (sign, tzstr) => let* off := parse_isoformat_tz sign tzstr in Ok (Some off)
           end) in
        new y m d hh mi ss us tz
    end.

End Datetime.

(** ** Dynamic values

    The values [json.loads] produces, plus [datetime] instances, which
    the field validators create. A [dict] is the list of its items in
    insertion order; keys are distinct and lookup takes the first
    binding. *)

Inductive pyval : Type :=
| PNone
| PBool (b : bool)
| PInt (z : Z)
| PFloat (f : Float.float)
| PStr (s : string)
| PList (l : list pyval)
| PDict (d : list (string * pyval))
| PDatetime (d : Datetime.t).

Definition dict : Type := list (string * pyval).

(** [d.get(k)] as an option. *)
Definition dict_get (k : string) (d : dict) : option pyval :=
  snd <$> find (fun kv => String.eqb (fst kv) k) d.

(** [k in d] *)
Definition dict_has (k : string) (d : dict) : bool :=
  match dict_get k d with
  | Some _ => true
  | None => false
  end.

(** [d[k] = v] *)
Fixpoint dict_set (k : string) (v : pyval) (d : dict) : dict :=
  match d with
  | [] => [(k, v)]
  | (k', v') :: d' => if String.eqb k' k then (k, v) :: d' else (k', v') :: dict_set k v d'
  end.

(** [bool(v)] *)
Definition truthy (v : pyval) : bool :=
  match v with
  | PNone => false
  | PBool b => b
  | PInt z => negb (z =? 0)%Z
  | PFloat f => negb (Float.is_zero f)
  | PStr s => negb (String.eqb s "")
  | PList l => match l with [] => false | _ => true end
  | PDict d => match d with [] => false | _ => true end
  | PDatetime _ => true
  end.

Definition int_of_bool (b : bool) : Z := if b then 1%Z else 0%Z.

(** [a + b] *)
Definition py_add (a b : pyval) : result pyval :=
  let num v :=
    match v with
    | PBool b => Some (inl (int_of_bool b))
    | PInt z => Some (inl z)
    | PFloat f => Some (inr f)
    | _ => None
    end in
  match num a, num b with
  | Some (inl x), Some (inl y) => Ok (PInt (x + y))
  | Some (inl x), Some (inr g) => let* f := Float.of_int x in Ok (PFloat (Float.add f g))
  | Some (inr f), Some (inl y) => let* g := Float.of_int y in Ok (PFloat (Float.add f g))
  | Some (inr f), Some (inr g) => Ok (PFloat (Float.add f g))
  | _, _ =>
      match a, b with
      | PStr x, PStr y => Ok (PStr (x +:+ y))
      | PList x, PList y => Ok (PList (x ++ y))
      | _, _ => Raise TypeError
      end
  end.

(** [v > 0] *)
Definition py_gt_zero (v : pyval) : result bool :=
  match v with
  | PBool b => Ok b
  | PInt z => Ok (0 <? z)%Z
  | PFloat f => Ok (Float.gt_zero f)
  | _ => Raise TypeError
  end.

(** [k in v] for a string [k] *)
Definition py_contains (k : string) (v : pyval) : result bool :=
  match v with
  | PDict d => Ok (dict_has k d)
  | PList l =>
      Ok (existsb (fun x => match x with PStr s => String.eqb s k | _ => false end) l)
  | PStr s => Ok (Str.contains (Str.chars k) (Str.chars s))
  | _ => Raise TypeError
  end.

(** [v[k]] for a string [k] *)
Definition py_getitem (v : pyval) (k : string) : result pyval :=
  match v with
  | PDict d => of_option KeyError (dict_get k d)
  | _ => Raise TypeError
  end.

(** The elements a [for] loop over [v] visits. *)
Definition py_iter (v : pyval) : result (list pyval) :=
  match v with
  | PDict d => Ok (map (fun kv => PStr (fst kv)) d)
  | PList l => Ok l
  | PStr s => Ok (map (fun c => PStr (String c EmptyString)) (Str.chars s))
  | _ => Raise TypeError
  end.

(** ** What the handlers take from their platform

    The coercions the validation library applies to a field of type
    [float] and [datetime] (the latter to the value its before-validator
    returns), the timestamp the storage engine keeps for a [datetime],
    the engine's value of [duration_total_minutes / 60.0], and which
    rows the storage driver does not take.

    The tables are declared outside the handlers, so what [conn.execute]
    refuses is the platform's: an argument the driver cannot encode for
    its column (a timestamp whose UTC reading leaves the calendar, a
    number beyond the column's type), which the driver reports as its
    [DataError], or values the server refuses, a [PostgresError].  A
    refusal depends on the arguments of the insert and on nothing else;
    a connection that breaks in the middle of a request is not
    modelled. *)

Inductive refusal : Type := InvalidArgument | ServerRefusal.

Definition refusal_exn (r : refusal) : exn :=
  match r with
  | InvalidArgument => DataError
  | ServerRefusal => PostgresError
  end.

Class Platform : Type := {
  float_field : pyval -> option Float.float;
  datetime_field : pyval -> option Datetime.t;
  timestamptz : Datetime.t -> Z;
  minutes_to_hours : Z -> Float.float;
  (** user_id, metric_name, metric_unit, timestamp, value *)
  health_refusal : string -> string -> string -> Datetime.t -> pyval -> option refusal;
  (** user_id, start_time, end_time, the six durations, efficiency *)
  sleep_refusal :
    string -> Datetime.t -> Datetime.t -> Z -> Z -> Z -> Z -> Z -> Z -> pyval -> option refusal }.

(** The driver encodes a timestamp from its UTC reading, which has to
    be a date of the calendar ([0001-01-01] to [9999-12-31]); a text
    holds no zero byte; a [double precision] value is a float or a
    number that converts to one; an [integer] lies in 32 bits. *)
Definition timestamp_encodes (d : Datetime.t) : bool :=
  (Datetime.wall_micros (Datetime.mk 1 1 1 0 0 0 0 None) <=? Datetime.utc_micros d)%Z
  && (Datetime.utc_micros d <=? Datetime.wall_micros (Datetime.mk 9999 12 31 23 59 59 999999 None))%Z.

Definition text_encodes (s : string) : bool :=
  negb (existsb (fun c => (Str.code c =? 0)%Z) (Str.chars s)).

Definition double_encodes (v : pyval) : bool :=
  match v with
  | PFloat _ | PBool _ => true
  | PInt z => is_ok (Float.of_int z)
  | _ => false
  end.

Definition integer_encodes (z : Z) : bool := (- 2 ^ 31 <=? z)%Z && (z <? 2 ^ 31)%Z.

(** A platform to run the handlers on: numbers and booleans coerce to
    [float], only a [datetime] is a [datetime], timestamps are
    microseconds of UTC, the quotient is the correctly rounded one, and
    a row is refused when one of its arguments does not encode. *)
Definition reference_platform : Platform := {|
  health_refusal := fun user_id metric_name metric_unit timestamp value =>
    if negb (text_encodes user_id && text_encodes metric_name && text_encodes metric_unit)
    then Some ServerRefusal
    else if timestamp_encodes timestamp && double_encodes value then None
    else Some InvalidArgument;
  sleep_refusal := fun user_id start_time end_time total in_bed awake light deep rem eff =>
    if negb (text_encodes user_id) then Some ServerRefusal
    else if timestamp_encodes start_time && timestamp_encodes end_time
            && forallb integer_encodes [total; in_bed; awake; light; deep; rem]
            && double_encodes eff
    then None
    else Some InvalidArgument;
  float_field := fun v =>
    match v with
    | PFloat f => Some f
    | PInt z => match Float.of_int z with Ok f => Some f | Raise _ => None end
    | PBool b => Some (Float.of_Z (int_of_bool b))
    | _ => None
    end;
  datetime_field := fun v => match v with PDatetime d => Some d | _ => None end;
  timestamptz := Datetime.utc_micros;
  minutes_to_hours := fun m => Float.div (Float.of_Z m) (Float.of_Z 60) |}.

(** ** Request models of the ingestion webhook *)

Definition SWIFT_FORMAT : string := "%Y-%m-%d %H:%M:%S %z".

(** The before-validator every timestamp field shares. *)
Definition parse_swift_datetime (v : pyval) : result pyval :=
  match v with
  | PStr s =>
      match Datetime.strptime s SWIFT_FORMAT with
      | Ok d => Ok (PDatetime d)
      | Raise ValueError =>
          let* d := Datetime.fromisoformat (Str.replace "Z" "+00:00" s) in
          Ok (PDatetime d)
      | Raise e => Raise e
      end
  | _ => Ok v
  end.

(** Normalisation as the specification words it: only a trailing
    [Z] is rewritten before the ISO attempt. *)
Definition spec_normalize (v : pyval) : result pyval :=
  match v with
  | PStr s =>
      match Datetime.strptime s SWIFT_FORMAT with
      | Ok d => Ok (PDatetime d)
      | Raise _ =>
          let* d := Datetime.fromisoformat (Str.replace_trailing_Z "+00:00" s) in
          Ok (PDatetime d)
      end
  | _ => Ok v
  end.

Module CommonPoint.
Record t : Type := mk { date : Datetime.t; qty : Float.float }.
End CommonPoint.

Module SleepEntry.
Record t : Type := mk {
  date : Datetime.t;
  asleep : Float.float;
  awake : Float.float;
  core : Float.float;
  deep : Float.float;
  rem : Float.float;
  sleepStart : Datetime.t;
  sleepEnd : Datetime.t;
  source : string;
  totalSleep : Float.float }.
End SleepEntry.

Module CommonMetric.
Record t : Type := mk { name : string; units : string; data : list CommonPoint.t }.
End CommonMetric.

(** The [name] of a [SleepMetric] has the one-value type
    [Literal["sleep_analysis"]]. *)
Module SleepMetric.
Record t : Type := mk { units : string; data : list SleepEntry.t }.
Definition name (_ : t) : string := "sleep_analysis".
End SleepMetric.

Module HAEWorkout.
Record t : Type := mk {
  start : option Datetime.t;
  end_ : option Datetime.t;
  duration : option Float.float;
  workoutType : option string;
  location : option string;
  activeEnergyBurned : option dict;
  activeEnergy : option (list dict);
  heartRateRecovery : option (list dict);
  heartRateData : option (list dict);
  intensity : option dict;
  metadata : option dict;
  source : option string }.
End HAEWorkout.

Inductive MetricUnion : Type :=
| Common (m : CommonMetric.t)
| Sleep (m : SleepMetric.t).

Definition metric_name (m : MetricUnion) : string :=
  match m with
  | Common c => CommonMetric.name c
  | Sleep s => SleepMetric.name s
  end.

Module DataNode.
Record t : Type := mk { metrics : list MetricUnion; workouts : list HAEWorkout.t }.
End DataNode.

Module HealthAutoExportPayload.
Record t : Type := mk { data : DataNode.t; request_id : option string }.
End HealthAutoExportPayload.

(** The discriminator of the metric union. *)
Definition metric_discriminator (v : pyval) : string :=
  match v with
  | PDict d =>
      match dict_get "name" d with
      | Some (PStr name) => if String.eqb name "sleep_analysis" then "sleep" else "common"
      | _ => "common"
      end
  | _ => "common"
  end.

(** ** Validation of a request against the models *)

Section Validation.
Context `{Platform}.

Definition required (k : string) (d : dict) : result pyval :=
  of_option ValidationError (dict_get k d).

Definition as_float (v : pyval) : result Float.float := of_option ValidationError (float_field v).

(** A field of type [str] takes a [str] and nothing else that a JSON
    body can hold. *)
Definition as_str (v : pyval) : result string :=
  match v with
  | PStr s => Ok s
  | _ => Raise ValidationError
  end.

(** A ValueError of a validator is a validation error; any other
    exception leaves the validation as it is. *)
Definition as_datetime (v : pyval) : result Datetime.t :=
  match parse_swift_datetime v with
  | Ok v' => of_option ValidationError (datetime_field v')
  | Raise ValueError => Raise ValidationError
  | Raise e => Raise e
  end.

Definition as_dict (v : pyval) : result dict :=
  match v with
  | PDict d => Ok d
  | _ => Raise ValidationError
  end.

Definition as_list {A : Type} (f : pyval -> result A) (v : pyval) : result (list A) :=
  match v with
  | PList l => mapM f l
  | _ => Raise ValidationError
  end.

(** A field of type [Optional[T]] with default [None]. *)
Definition optional {A : Type} (f : pyval -> result A) (k : string) (d : dict)
  : result (option A) :=
  match dict_get k d with
  | None | Some PNone => Ok None
  | Some v => let* a := f v in Ok (Some a)
  end.

(** [Optional[datetime]] behind the before-validator, which hands a
    [None] through. *)
Definition optional_datetime (k : string) (d : dict) : result (option Datetime.t) :=
  match dict_get k d with
  | None | Some PNone => Ok None
  | Some v => let* a := as_datetime v in Ok (Some a)
  end.

Definition validate_CommonPoint (v : pyval) : result CommonPoint.t :=
  let* d := as_dict v in
  let* date := required "date" d in
  let* date := as_datetime date in
  let* qty := required "qty" d in
  let* qty := as_float qty in
  Ok (CommonPoint.mk date qty).

Definition validate_SleepEntry (v : pyval) : result SleepEntry.t :=
  let* d := as_dict v in
  let flt k := let* x := required k d in as_float x in
  let dt k := let* x := required k d in as_datetime x in
  let* date := dt "date" in
  let* asleep := flt "asleep" in
  let* awake := flt "awake" in
  let* core := flt "core" in
  let* deep := flt "deep" in
  let* rem := flt "rem" in
  let* sleepStart := dt "sleepStart" in
  let* sleepEnd := dt "sleepEnd" in
  let* source := required "source" d in
  let* source := as_str source in
  let* totalSleep := flt "totalSleep" in
  Ok (SleepEntry.mk date asleep awake core deep rem sleepStart sleepEnd source totalSleep).

Definition validate_CommonMetric (v : pyval) : result CommonMetric.t :=
  let* d := as_dict v in
  let* name := required "name" d in
  let* name := as_str name in
  let* units := required "units" d in
  let* units := as_str units in
  let* data := required "data" d in
  let* data := as_list validate_CommonPoint data in
  Ok (CommonMetric.mk name units data).

Definition validate_SleepMetric (v : pyval) : result SleepMetric.t :=
  let* d := as_dict v in
  let* name := required "name" d in
  let* _ := (match name with
             | PStr name => if String.eqb name "sleep_analysis" then Ok tt
                            else Raise ValidationError
             | _ => Raise ValidationError
             end) in
  let* units := required "units" d in
  let* units := as_str units in
  let* data := required "data" d in
  let* data := as_list validate_SleepEntry data in
  Ok (SleepMetric.mk units data).

Definition validate_HAEWorkout (v : pyval) : result HAEWorkout.t :=
  let* d := as_dict v in
  let* start := optional_datetime "start" d in
  let* end_ := optional_datetime "end" d in
  let* duration := optional as_float "duration" d in
  let* workoutType := optional as_str "workoutType" d in
  let* location := optional as_str "location" d in
  let* activeEnergyBurned := optional as_dict "activeEnergyBurned" d in
  let* activeEnergy := optional (as_list as_dict) "activeEnergy" d in
  let* heartRateRecovery := optional (as_list as_dict) "heartRateRecovery" d in
  let* heartRateData := optional (as_list as_dict) "heartRateData" d in
  let* intensity := optional as_dict "intensity" d in
  let* metadata := optional as_dict "metadata" d in
  let* source := optional as_str "source" d in
  Ok (HAEWorkout.mk start end_ duration workoutType location activeEnergyBurned
        activeEnergy heartRateRecovery heartRateData intensity metadata source).

(** The union is decided by the discriminator alone; the block is then
    validated against the model of its tag. *)
Definition validate_MetricUnion (v : pyval) : result MetricUnion :=
  if String.eqb (metric_discriminator v) "sleep"
  then let* m := validate_SleepMetric v in Ok (Sleep m)
  else let* m := validate_CommonMetric v in Ok (Common m).

(** A list field whose default is the empty list. *)
Definition list_or_empty {A : Type} (f : pyval -> result A) (k : string) (d : dict)
  : result (list A) :=
  match dict_get k d with
  | None => Ok []
  | Some v => as_list f v
  end.

Definition validate_DataNode (v : pyval) : result DataNode.t :=
  let* d := as_dict v in
  let* metrics := list_or_empty validate_MetricUnion "metrics" d in
  let* workouts := list_or_empty validate_HAEWorkout "workouts" d in
  Ok (DataNode.mk metrics workouts).

(** The payload model built from the keys of [raw_payload]: a
    TypeError when the body is not a JSON object. *)
Definition validate_HealthAutoExportPayload (raw_payload : pyval)
  : result HealthAutoExportPayload.t :=
  match raw_payload with
  | PDict d =>
      let* data := required "data" d in
      let* data := validate_DataNode data in
      let* request_id := optional as_str "request_id" d in
      Ok (HealthAutoExportPayload.mk data request_id)
  | _ => Raise TypeError
  end.

End Validation.

(** ** Storage

    The two tables, each keyed by the columns of its uniqueness
    constraint. *)

Module HealthRow.
Record t : Type := mk { metric_unit : string; value : pyval }.
End HealthRow.

Module SleepRow.
Record t : Type := mk {
  end_time : Z;
  duration_total_minutes : Z;
  duration_in_bed_minutes : Z;
  duration_awake_minutes : Z;
  duration_light_minutes : Z;
  duration_deep_minutes : Z;
  duration_rem_minutes : Z;
  efficiency : pyval }.
End SleepRow.

(** [health_metrics] is unique on (user_id, metric_name, timestamp),
    [sleep_metrics] on (user_id, start_time). *)
Record Database : Type := mkDatabase {
  health_metrics : gmap (string * string * Z) HealthRow.t;
  sleep_metrics : gmap (string * Z) SleepRow.t }.

(** [INSERT ... ON CONFLICT (key) DO NOTHING] *)
Definition insert_or_ignore {K V : Type} `{Countable K} (k : K) (v : V) (m : gmap K V)
  : gmap K V :=
  match m !! k with
  | Some _ => m
  | None => <[k := v]> m
  end.

Inductive Mode : Type := PROD | DEV.

(** The error lines the webhook prints. *)
Inductive event : Type :=
| HealthMetricError (metric_name user_id : string) (e : exn)
| SleepError (user_id : string) (e : exn)
| WorkoutError (user_id : string) (e : exn)
| MetricError (metric_name : string) (e : exn)
| WorkoutsError (e : exn)
| PydanticValidationError (e : exn)
| GlobalWebhookError (e : exn).

(** What a request finds outside itself: the deployment mode, the
    secrets, the databases that answer at a URL, and the lines printed
    so far. *)
Record World : Type := mkWorld {
  mode : Mode;
  secrets : gmap string string;
  servers : gmap string Database;
  printed : list event }.

(** An open connection: the URL it was opened at and the tables as
    the connection sees them. *)
Record Connection : Type := mkConnection { url : string; tables : Database }.

Definition get_db_connection (w : World) : result Connection :=
  let database_url :=
    match mode w with
    | PROD => secrets w !! "DATABASE_URL_PROD"
    | DEV => secrets w !! "DATABASE_URL_DEV"
    end in
  match database_url with
  | None | Some "" => Raise (HTTPException 500)
  | Some u =>
      match servers w !! u with
      | Some db => Ok (mkConnection u db)
      | None => Raise ConnectionFailure
      end
  end.

(** [conn.close()], after which the writes are what the server holds. *)
Definition close (conn : Connection) (w : World) : World :=
  mkWorld (mode w) (secrets w) (<[url conn := tables conn]> (servers w)) (printed w).

Definition print (ev : event) (w : World) : World :=
  mkWorld (mode w) (secrets w) (servers w) (printed w ++ [ev]).

(** ** The ingestion webhook *)

Module ingest.

Record Processed : Type := mkProcessed { metrics : nat; sleep : nat; workouts : nat }.

Inductive message : Type :=
| Successfully_processed (user_id : string)
| Failed_to_process (e : exn).

Module WebhookResponse.
Record t : Type := mk {
  success : bool;
  message_ : message;
  processed : Processed;
  request_hash : string }.
End WebhookResponse.

Section Handlers.
Context `{Platform}.

(** The state a loop threads: the connection and the lines printed. *)
Definition state : Type := Connection * list event.

(** [conn.execute] of the insert into [health_metrics]: it raises
    when the driver does not take the row, and otherwise inserts or
    ignores. *)
Definition execute_insert_health (conn : Connection) (user_id metric_name metric_unit : string)
  (timestamp : Datetime.t) (value : pyval) : result Connection :=
  let db := tables conn in
  match health_refusal user_id metric_name metric_unit timestamp value with
  | Some r => Raise (refusal_exn r)
  | None =>
      Ok (mkConnection (url conn)
            (mkDatabase
               (insert_or_ignore (user_id, metric_name, timestamptz timestamp)
                  (HealthRow.mk metric_unit value) (health_metrics db))
               (sleep_metrics db)))
  end.

(** [conn.execute] of the insert into [sleep_metrics]. *)
Definition execute_insert_sleep (conn : Connection) (user_id : string)
  (start_time end_time : Datetime.t) (total in_bed awake light deep rem : Z)
  (efficiency : pyval) : result Connection :=
  let db := tables conn in
  match sleep_refusal user_id start_time end_time total in_bed awake light deep rem
          efficiency with
  | Some r => Raise (refusal_exn r)
  | None =>
      Ok (mkConnection (url conn)
            (mkDatabase
               (health_metrics db)
               (insert_or_ignore (user_id, timestamptz start_time)
                  (SleepRow.mk (timestamptz end_time) total in_bed awake light deep rem
                     efficiency)
                  (sleep_metrics db))))
  end.

Definition insert_health_point (user_id : string) (metric : CommonMetric.t)
  (acc : nat * state) (data_point : CommonPoint.t) : nat * state :=
  let '(inserted_count, (conn, out)) := acc in
  match execute_insert_health conn user_id (CommonMetric.name metric)
          (CommonMetric.units metric) (CommonPoint.date data_point)
          (PFloat (CommonPoint.qty data_point)) with
  | Ok conn' => (S inserted_count, (conn', out))
  | Raise e =>
      (inserted_count, (conn, out ++ [HealthMetricError (CommonMetric.name metric) user_id e]))
  end.

Definition insert_health_metrics (conn : state) (user_id : string)
  (metrics : list CommonMetric.t) : nat * state :=
  fold_left
    (fun acc metric => fold_left (insert_health_point user_id metric) (CommonMetric.data metric) acc)
    metrics (O, conn).

(** [int(hours * 60)] *)
Definition minutes_of_hours (hours : Float.float) : result Z :=
  Float.to_int (Float.mul hours (Float.of_Z 60)).

(** [int((sleepEnd - sleepStart).total_seconds() / 60)] *)
Definition total_time_in_bed (sleep_entry : SleepEntry.t) : result Z :=
  let* td := Datetime.sub (SleepEntry.sleepEnd sleep_entry) (SleepEntry.sleepStart sleep_entry) in
  let* seconds := Datetime.total_seconds td in
  let* minutes := Float.truediv seconds (Float.of_Z 60) in
  Float.to_int minutes.

(** [(total / in_bed * 100) if in_bed > 0 else 0] *)
Definition efficiency (total_sleep_minutes time_in_bed : Z) : result pyval :=
  if (0 <? time_in_bed)%Z then
    let* q := Float.int_truediv total_sleep_minutes time_in_bed in
    Ok (PFloat (Float.mul q (Float.of_Z 100)))
  else Ok (PInt 0).

(** The body of the [try] for one sleep entry. *)
Definition insert_sleep_entry (conn : Connection) (user_id : string)
  (sleep_entry : SleepEntry.t) : result Connection :=
  let* total_sleep_minutes := minutes_of_hours (SleepEntry.totalSleep sleep_entry) in
  let* awake_minutes := minutes_of_hours (SleepEntry.awake sleep_entry) in
  let* core_minutes := minutes_of_hours (SleepEntry.core sleep_entry) in
  let* deep_minutes := minutes_of_hours (SleepEntry.deep sleep_entry) in
  let* rem_minutes := minutes_of_hours (SleepEntry.rem sleep_entry) in
  let* in_bed := total_time_in_bed sleep_entry in
  let* eff := efficiency total_sleep_minutes in_bed in
  execute_insert_sleep conn user_id
    (SleepEntry.sleepStart sleep_entry) (SleepEntry.sleepEnd sleep_entry)
    total_sleep_minutes in_bed awake_minutes core_minutes deep_minutes rem_minutes eff.

Definition insert_sleep_step (user_id : string) (acc : nat * state)
  (sleep_entry : SleepEntry.t) : nat * state :=
  let '(inserted_count, (conn, out)) := acc in
  match insert_sleep_entry conn user_id sleep_entry with
  | Ok conn' => (S inserted_count, (conn', out))
  | Raise e => (inserted_count, (conn, out ++ [SleepError user_id e]))
  end.

Definition insert_sleep_metrics_from_analysis (conn : state) (user_id : string)
  (sleep_metric : SleepMetric.t) : nat * state :=
  fold_left (insert_sleep_step user_id) (SleepMetric.data sleep_metric) (O, conn).

(** Calories of a workout: the [qty] of [activeEnergyBurned] when
    that dict is truthy, else the sum over a truthy [activeEnergy] of
    the [qty] of the points that have one, else the initial 0. *)
Definition total_calories (workout : HAEWorkout.t) : result pyval :=
  match HAEWorkout.activeEnergyBurned workout with
  | Some ((_ :: _) as burned) =>
      Ok (match dict_get "qty" burned with Some q => q | None => PInt 0 end)
  | _ =>
      match HAEWorkout.activeEnergy workout with
      | Some ((_ :: _) as series) =>
          fold_left
            (fun acc energy_point =>
               let* total := acc in
               match dict_get "qty" energy_point with
               | Some q => py_add total q
               | None => Ok total
               end)
            series (Ok (PInt 0))
      | _ => Ok (PInt 0)
      end
  end.

Definition duration_minutes (workout : HAEWorkout.t) : result pyval :=
  match HAEWorkout.start workout, HAEWorkout.end_ workout with
  | Some s, Some e =>
      let* td := Datetime.sub e s in
      let* seconds := Datetime.total_seconds td in
      let* minutes := Float.truediv seconds (Float.of_Z 60) in
      Ok (PFloat minutes)
  | _, _ =>
      match HAEWorkout.duration workout with
      | Some d => Ok (if truthy (PFloat d) then PFloat d else PInt 0)
      | None => Ok (PInt 0)
      end
  end.

(** The body of the [try] for one workout; [None] when the calories
    are not above 0 and nothing is written. *)
Definition insert_workout (conn : Connection) (user_id : string) (now : Datetime.t)
  (workout : HAEWorkout.t) : result (option Connection) :=
  let* calories := total_calories workout in
  let* _ := duration_minutes workout in
  let workout_timestamp :=
    match HAEWorkout.start workout with
    | Some s => s
    | None => now
    end in
  let* positive := py_gt_zero calories in
  if positive then
    let* conn' := execute_insert_health conn user_id "workout" "cal" workout_timestamp calories in
    Ok (Some conn')
  else Ok None.

Definition insert_workout_step (user_id : string) (now : Datetime.t) (acc : nat * state)
  (workout : HAEWorkout.t) : nat * state :=
  let '(inserted_count, (conn, out)) := acc in
  match insert_workout conn user_id now workout with
  | Ok (Some conn') => (S inserted_count, (conn', out))
  | Ok None => (inserted_count, (conn, out))
  | Raise e => (inserted_count, (conn, out ++ [WorkoutError user_id e]))
  end.

Definition insert_workout_metrics (conn : state) (user_id : string) (now : Datetime.t)
  (workouts : list HAEWorkout.t) : nat * state :=
  fold_left (insert_workout_step user_id now) workouts (O, conn).

(** The inspection of a rejected body, for its exceptions only: it
    prints and may raise where it indexes or iterates a value of the
    wrong type. *)
Definition inspect_rejected (raw_payload : pyval) : result unit :=
  let* has_data := py_contains "data" raw_payload in
  if has_data then
    let* data_node := py_getitem raw_payload "data" in
    let* has_workouts := py_contains "workouts" data_node in
    if has_workouts then
      let* ws := py_getitem data_node "workouts" in
      if truthy ws then
        let* ws := py_iter ws in
        let* _ :=
          mapM (fun workout =>
                  let* has := py_contains "data" workout in
                  if has then
                    let* points := py_getitem workout "data" in
                    let* _ := py_iter points in Ok tt
                  else Ok tt) ws in
        Ok tt
      else Ok tt
    else Ok tt
  else Ok tt.

(** A metric handed to the sleep path that is not a [SleepMetric] has
    entries without the sleep attributes, and the other way round;
    validation excludes both. *)
Definition attribute_errors {A : Type} (ev : exn -> event) (entries : list A) (conn : state)
  : nat * state :=
  (O, (fst conn, snd conn ++ map (fun _ => ev AttributeError) entries)).

Definition process_metric (user_id : string) (acc : Processed * state) (metric : MetricUnion)
  : Processed * state :=
  let '(counts, conn) := acc in
  if String.eqb (metric_name metric) "sleep_analysis" then
    let '(sleep_inserted, conn') :=
      match metric with
      | Sleep sm => insert_sleep_metrics_from_analysis conn user_id sm
      | Common cm => attribute_errors (SleepError user_id) (CommonMetric.data cm) conn
      end in
    (mkProcessed (metrics counts) (sleep counts + sleep_inserted) (workouts counts), conn')
  else
    let '(metrics_inserted, conn') :=
      match metric with
      | Common cm => insert_health_metrics conn user_id [cm]
      | Sleep sm =>
          attribute_errors (HealthMetricError (SleepMetric.name sm) user_id)
            (SleepMetric.data sm) conn
      end in
    (mkProcessed (metrics counts + metrics_inserted) (sleep counts) (workouts counts), conn').

(** The part of the handler that runs on an open connection. *)
Definition process_payload (user_id : string) (now : Datetime.t)
  (payload : HealthAutoExportPayload.t) (conn : state) : Processed * state :=
  let data := HealthAutoExportPayload.data payload in
  let '(counts, conn1) :=
    fold_left (process_metric user_id) (DataNode.metrics data) (mkProcessed 0 0 0, conn) in
  match DataNode.workouts data with
  | [] => (counts, conn1)
  | ws =>
      let '(workouts_inserted, conn2) := insert_workout_metrics conn1 user_id now ws in
      (mkProcessed (metrics counts) (sleep counts) workouts_inserted, conn2)
  end.

(** The handler from the parsed body on; [now] is the clock reading
    a workout without a start time takes (the code reads the clock for
    each such workout, one reading stands for them here).  Everything
    runs inside the outer [try], so a response is always returned. *)
Definition health_auto_export_webhook (user_id : string) (raw_payload : pyval)
  (now : Datetime.t) (w : World) : WebhookResponse.t * World :=
  let attempt : result (Processed * World) * World :=
    match validate_HealthAutoExportPayload raw_payload with
    | Raise validation_error =>
        let w1 := print (PydanticValidationError validation_error) w in
        match inspect_rejected raw_payload with
        | Ok _ => (Raise (HTTPException 422), w1)
        | Raise e => (Raise e, w1)
        end
    | Ok payload =>
        match get_db_connection w with
        | Raise e => (Raise e, w)
        | Ok conn =>
            let '(counts, (conn', out)) :=
              process_payload user_id now payload (conn, printed w) in
            (Ok (counts, close conn' (mkWorld (mode w) (secrets w) (servers w) out)), w)
        end
    end in
  match attempt with
  | (Ok (counts, w'), _) =>
      (WebhookResponse.mk true (Successfully_processed user_id) counts "success", w')
  | (Raise global_error, w1) =>
      (WebhookResponse.mk false (Failed_to_process global_error) (mkProcessed 0 0 0) "error",
       print (GlobalWebhookError global_error) w1)
  end.

(** The handler from its first line: the outer [try] begins by
    decoding the request body for a printed line and parsing it with
    [json.loads]; [body] is what the parser returned, or what the
    decoding or the parsing raised. *)
Definition health_auto_export_request (user_id : string) (body : result pyval)
  (now : Datetime.t) (w : World) : WebhookResponse.t * World :=
  match body with
  | Ok raw_payload => health_auto_export_webhook user_id raw_payload now w
  | Raise global_error =>
      (WebhookResponse.mk false (Failed_to_process global_error) (mkProcessed 0 0 0) "error",
       print (GlobalWebhookError global_error) w)
  end.

(** *** The rows a request asks the storage to take

    Which rows are offered, and in what order, depends on the request
    and not on what the tables hold; the statements about re-delivery
    rest on this. *)

Definition insert_all {K V : Type} `{Countable K} (rows : list (K * V)) (m : gmap K V)
  : gmap K V :=
  fold_left (fun m kr => insert_or_ignore (fst kr) (snd kr) m) rows m.

Definition oks {A : Type} (l : list (result A)) : list A :=
  omap (fun r => match r with Ok a => Some a | Raise _ => None end) l.

Definition raised {A : Type} (ev : exn -> event) (l : list (result A)) : list event :=
  omap (fun r => match r with Ok _ => None | Raise e => Some (ev e) end) l.

(** The row of a data point, or what its insert raises. *)
Definition health_row (user_id : string) (metric : CommonMetric.t) (p : CommonPoint.t)
  : result (string * string * Z * HealthRow.t) :=
  match health_refusal user_id (CommonMetric.name metric) (CommonMetric.units metric)
          (CommonPoint.date p) (PFloat (CommonPoint.qty p)) with
  | Some r => Raise (refusal_exn r)
  | None =>
      Ok ((user_id, CommonMetric.name metric, timestamptz (CommonPoint.date p)),
          HealthRow.mk (CommonMetric.units metric) (PFloat (CommonPoint.qty p)))
  end.

Definition health_rows (user_id : string) (metric : CommonMetric.t)
  : list (string * string * Z * HealthRow.t) :=
  oks (map (health_row user_id metric) (CommonMetric.data metric)).

Definition health_events (user_id : string) (metric : CommonMetric.t) : list event :=
  raised (HealthMetricError (CommonMetric.name metric) user_id)
    (map (health_row user_id metric) (CommonMetric.data metric)).

Definition sleep_row (user_id : string) (sleep_entry : SleepEntry.t)
  : result (string * Z * SleepRow.t) :=
  let* total_sleep_minutes := minutes_of_hours (SleepEntry.totalSleep sleep_entry) in
  let* awake_minutes := minutes_of_hours (SleepEntry.awake sleep_entry) in
  let* core_minutes := minutes_of_hours (SleepEntry.core sleep_entry) in
  let* deep_minutes := minutes_of_hours (SleepEntry.deep sleep_entry) in
  let* rem_minutes := minutes_of_hours (SleepEntry.rem sleep_entry) in
  let* in_bed := total_time_in_bed sleep_entry in
  let* eff := efficiency total_sleep_minutes in_bed in
  match sleep_refusal user_id (SleepEntry.sleepStart sleep_entry)
          (SleepEntry.sleepEnd sleep_entry) total_sleep_minutes in_bed awake_minutes
          core_minutes deep_minutes rem_minutes eff with
  | Some r => Raise (refusal_exn r)
  | None =>
      Ok ((user_id, timestamptz (SleepEntry.sleepStart sleep_entry)),
          SleepRow.mk (timestamptz (SleepEntry.sleepEnd sleep_entry)) total_sleep_minutes
            in_bed awake_minutes core_minutes deep_minutes rem_minutes eff)
  end.

Definition workout_row (user_id : string) (now : Datetime.t) (workout : HAEWorkout.t)
  : result (option (string * string * Z * HealthRow.t)) :=
  let* calories := total_calories workout in
  let* _ := duration_minutes workout in
  let workout_timestamp :=
    match HAEWorkout.start workout with Some s => s | None => now end in
  let* positive := py_gt_zero calories in
  if positive then
    match health_refusal user_id "workout" "cal" workout_timestamp calories with
    | Some r => Raise (refusal_exn r)
    | None =>
        Ok (Some ((user_id, "workout", timestamptz workout_timestamp),
                  HealthRow.mk "cal" calories))
    end
  else Ok None.

(** Rows offered to [health_metrics], rows offered to
    [sleep_metrics], lines printed and rows counted for one metric
    block. *)
Definition metric_health_rows (user_id : string) (metric : MetricUnion)
  : list (string * string * Z * HealthRow.t) :=
  match metric with
  | Common cm =>
      if String.eqb (CommonMetric.name cm) "sleep_analysis" then [] else health_rows user_id cm
  | Sleep _ => []
  end.

Definition metric_sleep_rows (user_id : string) (metric : MetricUnion)
  : list (string * Z * SleepRow.t) :=
  match metric with
  | Sleep sm => oks (map (sleep_row user_id) (SleepMetric.data sm))
  | Common _ => []
  end.

Definition metric_events (user_id : string) (metric : MetricUnion) : list event :=
  match metric with
  | Sleep sm => raised (SleepError user_id) (map (sleep_row user_id) (SleepMetric.data sm))
  | Common cm =>
      if String.eqb (CommonMetric.name cm) "sleep_analysis"
      then map (fun _ => SleepError user_id AttributeError) (CommonMetric.data cm)
      else health_events user_id cm
  end.

Definition workout_rows (user_id : string) (now : Datetime.t) (ws : list HAEWorkout.t)
  : list (string * string * Z * HealthRow.t) :=
  omap id (oks (map (workout_row user_id now) ws)).

(** The records of a payload whose insert returns on a connection,
    and so are counted: data points of the common blocks, entries of the
    sleep blocks, workouts. *)
Definition point_taken (conn : Connection) (user_id : string) (metric : CommonMetric.t)
  (p : CommonPoint.t) : bool :=
  is_ok (execute_insert_health conn user_id (CommonMetric.name metric)
           (CommonMetric.units metric) (CommonPoint.date p) (PFloat (CommonPoint.qty p))).

Definition entry_taken (conn : Connection) (user_id : string) (e : SleepEntry.t) : bool :=
  is_ok (insert_sleep_entry conn user_id e).

Definition workout_taken (conn : Connection) (user_id : string) (now : Datetime.t)
  (workout : HAEWorkout.t) : bool :=
  match insert_workout conn user_id now workout with
  | Ok (Some _) => true
  | _ => false
  end.

Definition taken_points (conn : Connection) (user_id : string) (ms : list MetricUnion)
  : list CommonPoint.t :=
  flat_map (fun m => match m with
                     | Common cm => List.filter (point_taken conn user_id cm) (CommonMetric.data cm)
                     | Sleep _ => []
                     end) ms.

Definition taken_entries (conn : Connection) (user_id : string) (ms : list MetricUnion)
  : list SleepEntry.t :=
  flat_map (fun m => match m with
                     | Sleep sm => List.filter (entry_taken conn user_id) (SleepMetric.data sm)
                     | Common _ => []
                     end) ms.

(** *** The specification's wording, for comparison *)

(** Calories as the specification words them: the aggregate decides
    whenever it is present as an object. *)
Definition spec_total_calories (workout : HAEWorkout.t) : result pyval :=
  match HAEWorkout.activeEnergyBurned workout with
  | Some burned => Ok (match dict_get "qty" burned with Some q => q | None => PInt 0 end)
  | None =>
      match HAEWorkout.activeEnergy workout with
      | Some series =>
          fold_left
            (fun acc energy_point =>
               let* total := acc in
               match dict_get "qty" energy_point with
               | Some q => py_add total q
               | None => Ok total
               end)
            series (Ok (PInt 0))
      | None => Ok (PInt 0)
      end
  end.

(** The sum of the [qty] of the points of a series that have one. *)
Fixpoint sum_qty (total : pyval) (series : list dict) : result pyval :=
  match series with
  | [] => Ok total
  | energy_point :: rest =>
      match dict_get "qty" energy_point with
      | Some q => let* t := py_add total q in sum_qty t rest
      | None => sum_qty total rest
      end
  end.

(** In-bed minutes as the specification words them: rounded. *)
Definition spec_time_in_bed (sleep_entry : SleepEntry.t) : result Z :=
  let* td := Datetime.sub (SleepEntry.sleepEnd sleep_entry) (SleepEntry.sleepStart sleep_entry) in
  let* seconds := Datetime.total_seconds td in
  let* minutes := Float.truediv seconds (Float.of_Z 60) in
  Float.round minutes.

End Handlers.

End ingest.

(** ** The range query *)

Module metrics.

Inductive MetricType : Type := heart_rate_variability | workout | sleep.

Module MetricDataPoint.
Record t : Type := mk { timestamp : Z; value : Float.float }.
End MetricDataPoint.

Module MetricsResponse.
Record t : Type := mk { data : list MetricDataPoint.t; total_count : nat }.
End MetricsResponse.

(** The authorized user, of which the handler reads the subject. *)
Record AuthorizedUser : Type := mkUser { sub : string }.

Section Handlers.
Context `{Platform}.

(** [float(v)] on the values a row holds. *)
Definition py_float (v : pyval) : result Float.float :=
  match v with
  | PFloat f => Ok f
  | PInt z => Float.of_int z
  | PBool b => Ok (Float.of_Z (int_of_bool b))
  | _ => Raise TypeError
  end.

(** The [WHERE] clause on the time column: each bound applies when it
    is given. *)
Definition in_range (from_date to_date : option Datetime.t) (ts : Z) : bool :=
  match from_date with
  | Some f => (timestamptz f <=? ts)%Z
  | None => true
  end &&
  match to_date with
  | Some t => (ts <=? timestamptz t)%Z
  | None => true
  end.

(** [ORDER BY ... ASC] on the time column. *)
Definition order_by_time {A : Type} (rows : list (Z * A)) : list (Z * A) :=
  @merge_sort _ (fun a b => (fst a <= fst b)%Z)
    (fun a b => decide (fst a <= fst b)%Z) rows.

(** [LIMIT n], appended when [n] is truthy; the engine refuses a
    negative one. *)
Definition apply_limit {A : Type} (limit : Z) (rows : list A) : result (list A) :=
  if (limit =? 0)%Z then Ok rows
  else if (limit <? 0)%Z then Raise PostgresError
  else Ok (firstn (Z.to_nat limit) rows).

Definition select_health (conn : Connection) (user_id metric_name : string)
  (from_date to_date : option Datetime.t) : list (Z * pyval) :=
  omap (fun kv =>
          let '((u, n, ts), row) := kv in
          if String.eqb u user_id && String.eqb n metric_name && in_range from_date to_date ts
          then Some (ts, HealthRow.value row) else None)
       (map_to_list (health_metrics (tables conn))).

Definition select_sleep (conn : Connection) (user_id : string)
  (from_date to_date : option Datetime.t) : list (Z * Float.float) :=
  omap (fun kv =>
          let '((u, ts), row) := kv in
          if String.eqb u user_id && in_range from_date to_date ts
          then Some (ts, minutes_to_hours (SleepRow.duration_total_minutes row)) else None)
       (map_to_list (sleep_metrics (tables conn))).

Definition query_sleep_metrics (conn : Connection) (user_id : string)
  (from_date to_date : option Datetime.t) (limit : Z) : result (list MetricDataPoint.t) :=
  let* rows := apply_limit limit (order_by_time (select_sleep conn user_id from_date to_date)) in
  Ok (map (fun r => MetricDataPoint.mk (fst r) (snd r)) rows).

Definition query_health_metrics (conn : Connection) (user_id metric_name : string)
  (from_date to_date : option Datetime.t) (limit : Z) : result (list MetricDataPoint.t) :=
  let* rows :=
    apply_limit limit (order_by_time (select_health conn user_id metric_name from_date to_date)) in
  mapM (fun r => let* v := py_float (snd r) in Ok (MetricDataPoint.mk (fst r) v)) rows.

Definition query_workout_metrics (conn : Connection) (user_id : string)
  (from_date to_date : option Datetime.t) (limit : Z) : result (list MetricDataPoint.t) :=
  query_health_metrics conn user_id "workout" from_date to_date limit.

Definition get_total_count (conn : Connection) (user_id : string) (metric : MetricType)
  (from_date to_date : option Datetime.t) : nat :=
  match metric with
  | sleep => length (select_sleep conn user_id from_date to_date)
  | heart_rate_variability =>
      length (select_health conn user_id "heart_rate_variability" from_date to_date)
  | workout => length (select_health conn user_id "workout" from_date to_date)
  end.

(** The querying stage: the body of the handler's [try], any
    exception of which becomes a 500. *)
Definition run_queries (metric : MetricType) (user_id : string)
  (from_date to_date : option Datetime.t) (limit : Z) (w : World)
  : result MetricsResponse.t :=
  let body :=
    let* conn := get_db_connection w in
    let total_count := get_total_count conn user_id metric from_date to_date in
    let* data_points :=
      (match metric with
       | sleep => query_sleep_metrics conn user_id from_date to_date limit
       | heart_rate_variability =>
           query_health_metrics conn user_id "heart_rate_variability" from_date to_date limit
       | workout => query_workout_metrics conn user_id from_date to_date limit
       end) in
    Ok (MetricsResponse.mk data_points total_count) in
  match body with
  | Ok r => Ok r
  | Raise _ => Raise (HTTPException 500)
  end.

Definition get_metrics (metric : MetricType) (user : option AuthorizedUser)
  (from_date to_date : option Datetime.t) (limit : Z) (w : World)
  : result MetricsResponse.t :=
  match user with
  | None => Raise (HTTPException 401)
  | Some u =>
      let user_id := sub u in
      let* reversed :=
        (match from_date, to_date with
         | Some f, Some t => Datetime.ge f t
         | _, _ => Ok false
         end) in
      if reversed then Raise (HTTPException 400)
      else run_queries metric user_id from_date to_date limit w
  end.

End Handlers.

End metrics.

(** ** The optional API key check of the ingestion module *)

Definition validate_api_key (x_api_key : option string) (w : World) : bool :=
  match x_api_key with
  | None | Some "" => false
  | Some key =>
      match secrets w !! "HEALTH_AUTO_EXPORT_API_KEY" with
      | None | Some "" => false
      | Some expected_key => String.eqb key expected_key
      end
  end.

(** ** The period comparison of the insights module *)

Module insights.

Definition fsub : Float.float -> Float.float -> Float.float := SFsub Float.prec Float.emax.

(** [((current - previous) / previous * 100) if previous > 0 else 0] *)
Definition hrv_change (current_avg previous_avg : Float.float) : result pyval :=
  if Float.gt_zero previous_avg then
    let* q := Float.truediv (fsub current_avg previous_avg) previous_avg in
    Ok (PFloat (Float.mul q (Float.of_Z 100)))
  else Ok (PInt 0).

End insights.

(** ** In-bed minutes of a whole number of seconds *)

(** [int(timedelta(seconds=s).total_seconds() / 60)] *)
Definition minutes_of_seconds (s : Z) : result Z :=
  let* seconds := Datetime.total_seconds (s * 1000000)%Z in
  let* minutes := Float.truediv seconds (Float.of_Z 60) in
  Float.to_int minutes.

Definition whole_minutes_at (s : Z) : bool :=
  match minutes_of_seconds s with
  | Ok z => (z =? s / 60)%Z
  | Raise _ => false
  end.

(** [whole_minutes_at] on all of [lo, lo + 2^k). *)
Fixpoint whole_minutes_from (k : nat) (lo : Z) : bool :=
  match k with
  | O => whole_minutes_at lo
  | S k' => whole_minutes_from k' lo && whole_minutes_from k' (lo + 2 ^ Z.of_nat k')%Z
  end.

(** ** Notions the statements use *)

Section Derived.
Context `{Platform}.

(** A connection after rows were offered to one of its tables. *)
Definition offer_health (rows : list (string * string * Z * HealthRow.t)) (conn : Connection)
  : Connection :=
  mkConnection (url conn)
    (mkDatabase (ingest.insert_all rows (health_metrics (tables conn)))
       (sleep_metrics (tables conn))).

Definition offer_sleep (rows : list (string * Z * SleepRow.t)) (conn : Connection)
  : Connection :=
  mkConnection (url conn)
    (mkDatabase (health_metrics (tables conn))
       (ingest.insert_all rows (sleep_metrics (tables conn)))).

(** The rows, counts and lines of a whole payload. *)
Definition payload_health_rows (user_id : string) (now : Datetime.t)
  (payload : HealthAutoExportPayload.t) : list (string * string * Z * HealthRow.t) :=
  flat_map (ingest.metric_health_rows user_id)
    (DataNode.metrics (HealthAutoExportPayload.data payload))
  ++ ingest.workout_rows user_id now (DataNode.workouts (HealthAutoExportPayload.data payload)).

Definition payload_sleep_rows (user_id : string) (payload : HealthAutoExportPayload.t)
  : list (string * Z * SleepRow.t) :=
  flat_map (ingest.metric_sleep_rows user_id)
    (DataNode.metrics (HealthAutoExportPayload.data payload)).

Definition payload_events (user_id : string) (now : Datetime.t)
  (payload : HealthAutoExportPayload.t) : list event :=
  flat_map (ingest.metric_events user_id)
    (DataNode.metrics (HealthAutoExportPayload.data payload))
  ++ ingest.raised (WorkoutError user_id)
       (map (ingest.workout_row user_id now)
          (DataNode.workouts (HealthAutoExportPayload.data payload))).

Definition payload_counts (user_id : string) (now : Datetime.t)
  (payload : HealthAutoExportPayload.t) : ingest.Processed :=
  let data := HealthAutoExportPayload.data payload in
  ingest.mkProcessed
    (length (flat_map (ingest.metric_health_rows user_id) (DataNode.metrics data)))
    (length (payload_sleep_rows user_id payload))
    (length (ingest.workout_rows user_id now (DataNode.workouts data))).

(** What validation guarantees of the metric blocks: a block of the
    common model is not named [sleep_analysis]. *)
Definition validated (ms : list MetricUnion) : Prop :=
  Forall (fun m => match m with
                   | Common cm => CommonMetric.name cm <> "sleep_analysis"
                   | Sleep _ => True
                   end) ms.

End Derived.

(** The step of the sum over a series of energy points. *)
Definition add_qty (acc : result pyval) (energy_point : dict) : result pyval :=
  let* total := acc in
  match dict_get "qty" energy_point with
  | Some q => py_add total q
  | None => Ok total
  end.

(** A computation that raises nothing but ValueError, and one that
    does not raise ZeroDivisionError. *)
Definition only_ValueError {A : Type} (r : result A) : Prop :=
  forall e, r = Raise e -> e = ValueError.



(** A computation that raises nothing but one given exception. *)
Definition raises_only {A : Type} (x : exn) (r : result A) : Prop :=
  forall e, r = Raise e -> e = x.

(** ** Sample requests *)

Definition sample_url : string := "postgres://dev/health".

Definition sample_world : World :=
  mkWorld DEV {["DATABASE_URL_DEV" := sample_url]} {[sample_url := mkDatabase ∅ ∅]} [].

Definition sample_now : Datetime.t := Datetime.mk 2025 7 1 12 0 0 0 (Some 0%Z).

Definition point (date : string) (qty : Z) : pyval :=
  PDict [("date", PStr date); ("qty", PInt qty)].

Definition hrv_block (points : list pyval) : pyval :=
  PDict [("name", PStr "heart_rate_variability"); ("units", PStr "ms"); ("data", PList points)].

Definition body (metrics workouts : list pyval) : pyval :=
  PDict [("data", PDict [("metrics", PList metrics); ("workouts", PList workouts)])].

Definition two_points : pyval :=
  body [hrv_block [point "2025-06-25 00:00:00 +0200" 40; point "2025-06-25 00:05:00 +0200" 42]] [].

(** Ten points, the fourth of which has no [qty]. *)
Definition ten_points : list pyval :=
  [point "2025-06-25 00:00:00 +0200" 40; point "2025-06-25 00:05:00 +0200" 41;
   point "2025-06-25 00:10:00 +0200" 42;
   PDict [("date", PStr "2025-06-25 00:15:00 +0200")];
   point "2025-06-25 00:20:00 +0200" 44; point "2025-06-25 00:25:00 +0200" 45;
   point "2025-06-25 00:30:00 +0200" 46; point "2025-06-25 00:35:00 +0200" 47;
   point "2025-06-25 00:40:00 +0200" 48; point "2025-06-25 00:45:00 +0200" 49].

Definition one_malformed : pyval := body [hrv_block ten_points] [].

Definition sleep_point (sleepStart sleepEnd : string) : pyval :=
  PDict [("date", PStr sleepEnd); ("asleep", PInt 7); ("awake", PInt 1); ("core", PInt 4);
         ("deep", PInt 2); ("rem", PInt 1); ("sleepStart", PStr sleepStart);
         ("sleepEnd", PStr sleepEnd); ("source", PStr "watch"); ("totalSleep", PInt 7)].

Definition sleep_block (units : string) : pyval :=
  PDict [("name", PStr "sleep_analysis"); ("units", PStr units);
         ("data", PList [sleep_point "2025-06-24 22:00:00 +0200" "2025-06-25 06:00:59 +0200"])].

Definition night : SleepEntry.t :=
  SleepEntry.mk (Datetime.mk 2025 6 25 6 0 59 0 (Some 7200000000%Z))
    (Float.of_Z 7) (Float.of_Z 1) (Float.of_Z 4) (Float.of_Z 2) (Float.of_Z 1)
    (Datetime.mk 2025 6 24 22 0 0 0 (Some 7200000000%Z))
    (Datetime.mk 2025 6 25 6 0 59 0 (Some 7200000000%Z))
    "watch" (Float.of_Z 7).

Definition sample_connection : Connection := mkConnection sample_url (mkDatabase ∅ ∅).

Definition workout_of (start end_ : option Datetime.t) (activeEnergyBurned : option dict)
  (activeEnergy : option (list dict)) : HAEWorkout.t :=
  HAEWorkout.mk start end_ None None None activeEnergyBurned activeEnergy None None None None
    None.

Definition morning : Datetime.t := Datetime.mk 2025 7 1 6 5 54 0 (Some 7200000000%Z).

(** A series of 100 and 50 and no aggregate. *)
Definition series_workout : HAEWorkout.t :=
  workout_of (Some morning) None None (Some [[("qty", PInt 100)]; [("qty", PInt 50)]]).

(** An empty aggregate object beside a series of 100. *)
Definition empty_aggregate_workout : HAEWorkout.t :=
  workout_of (Some morning) None (Some []) (Some [[("qty", PInt 100)]]).

(** An aggregate of 0 and no series. *)
Definition zero_workout : HAEWorkout.t :=
  workout_of (Some morning) None (Some [("qty", PInt 0)]) None.

(** An aggregate of 0, an aware start and a naive end. *)
Definition zero_workout_mixed : HAEWorkout.t :=
  workout_of (Some morning) (Some (Datetime.mk 2025 7 1 7 0 0 0 None))
    (Some [("qty", PInt 0)]) None.

Definition series_workout_body : pyval :=
  body [] [PDict [("start", PStr "2025-07-01 06:05:54 +0200");
                  ("activeEnergy", PList [PDict [("qty", PInt 100)]; PDict [("qty", PInt 50)]])]].

Definition zero_workout_body : pyval :=
  body [] [PDict [("start", PStr "2025-07-01 06:05:54 +0200");
                  ("activeEnergyBurned", PDict [("qty", PInt 0)])]].

Definition hrv_point_1 : CommonPoint.t :=
  CommonPoint.mk (Datetime.mk 2025 6 25 0 0 0 0 (Some 7200000000%Z)) (Float.of_Z 40).

Definition hrv_point_2 : CommonPoint.t :=
  CommonPoint.mk (Datetime.mk 2025 6 25 0 5 0 0 (Some 7200000000%Z)) (Float.of_Z 42).

Definition hrv_metric : CommonMetric.t :=
  CommonMetric.mk "heart_rate_variability" "ms" [hrv_point_1; hrv_point_2].

(** [two_points] as validated. *)
Definition two_points_payload : HealthAutoExportPayload.t :=
  HealthAutoExportPayload.mk (DataNode.mk [Common hrv_metric] []) None.

(** [night] with a total sleep that is not a number. *)
Definition night_nan : SleepEntry.t :=
  SleepEntry.mk (SleepEntry.date night) (SleepEntry.asleep night) (SleepEntry.awake night)
    (SleepEntry.core night) (SleepEntry.deep night) (SleepEntry.rem night)
    (SleepEntry.sleepStart night) (SleepEntry.sleepEnd night) "watch" S754_nan.

(** A series of 100 and no start time. *)
Definition startless_workout : HAEWorkout.t :=
  workout_of None None None (Some [[("qty", PInt 100)]]).

(** The world after [two_points] has been delivered for user "u1", and
    what its server then holds. *)
Definition stored_world : World :=
  snd (@ingest.health_auto_export_webhook reference_platform "u1" two_points sample_now
         sample_world).

Definition stored_database : Database :=
  default (mkDatabase ∅ ∅) (servers stored_world !! sample_url).

(** The connection after [night] has been written for user "u1". *)
Definition night_connection : Connection :=
  match @ingest.insert_sleep_entry reference_platform sample_connection "u1" night with
  | Ok conn => conn
  | Raise _ => sample_connection
  end.

Definition night_row : SleepRow.t :=
  default (SleepRow.mk 0 0 0 0 0 0 0 (PInt 0))
    (sleep_metrics (tables night_connection)
     !! ("u1", @timestamptz reference_platform (SleepEntry.sleepStart night))).

(** The answer to a query for one HRV point of [stored_world]. *)
Definition first_point_response : metrics.MetricsResponse.t :=
  match @metrics.run_queries reference_platform metrics.heart_rate_variability "u1" None None 1
          stored_world with
  | Ok resp => resp
  | Raise _ => metrics.MetricsResponse.mk [] 0
  end.

(** The answer to a query for all HRV points of [stored_world]. *)
Definition all_points_response : metrics.MetricsResponse.t :=
  match @metrics.get_metrics reference_platform metrics.heart_rate_variability
          (Some (metrics.mkUser "u1")) None None 1000 stored_world with
  | Ok resp => resp
  | Raise _ => metrics.MetricsResponse.mk [] 0
  end.

(** [two_points] with other quantities at the same timestamps. *)
Definition two_points_changed : pyval :=
  body [hrv_block [point "2025-06-25 00:00:00 +0200" 99; point "2025-06-25 00:05:00 +0200" 98]] [].

(** A body with a point the reference platform takes and one it
    refuses: read in UTC, the second timestamp falls before the first
    day of the calendar. *)
Definition early_point_body : pyval :=
  body [hrv_block [point "2025-06-25 00:00:00 +0200" 40; point "0001-01-01 00:00:00 +0200" 41]] [].

Definition early_point : CommonPoint.t :=
  CommonPoint.mk (Datetime.mk 1 1 1 0 0 0 0 (Some 7200000000%Z)) (Float.of_Z 41).

Definition early_metric : CommonMetric.t :=
  CommonMetric.mk "heart_rate_variability" "ms" [hrv_point_1; early_point].

(** [early_point_body] as validated. *)
Definition early_point_payload : HealthAutoExportPayload.t :=
  HealthAutoExportPayload.mk (DataNode.mk [Common early_metric] []) None.

(** A body whose one workout has a series of 100 and no start time,
    and the body as validated. *)
Definition startless_body : pyval :=
  body [] [PDict [("activeEnergy", PList [PDict [("qty", PInt 100)]])]].

Definition startless_payload : HealthAutoExportPayload.t :=
  HealthAutoExportPayload.mk (DataNode.mk [] [startless_workout]) None.

(** Two bounds of a range, the first without a UTC offset. *)
Definition june_first_naive : Datetime.t := Datetime.mk 2025 6 1 0 0 0 0 None.

Definition june_tenth_utc : Datetime.t := Datetime.mk 2025 6 10 0 0 0 0 (Some 0%Z).

(** A body with the two points of [early_point_body], the night of
    [sleep_block] and the workout of [series_workout_body], and the body
    as validated. *)
Definition counted_body : pyval :=
  body [hrv_block [point "2025-06-25 00:00:00 +0200" 40; point "0001-01-01 00:00:00 +0200" 41];
        sleep_block "hr"]
       [PDict [("start", PStr "2025-07-01 06:05:54 +0200");
               ("activeEnergy", PList [PDict [("qty", PInt 100)]; PDict [("qty", PInt 50)]])]].

Definition counted_payload : HealthAutoExportPayload.t :=
  HealthAutoExportPayload.mk
    (DataNode.mk [Common early_metric; Sleep (SleepMetric.mk "hr" [night])] [series_workout])
    None.
(** * Properties *)

(** ** Insert-or-ignore *)

Section InsertOrIgnore.
Context {K V : Type} `{Countable K}.
Implicit Types (m : gmap K V) (k : K) (v : V) (rows : list (K * V)).

Lemma insert_or_ignore_present m k v :
  is_Some (m !! k) -> insert_or_ignore k v m = m.
Proof. intros [x Hx]. unfold insert_or_ignore. by rewrite Hx. Qed.

Lemma insert_or_ignore_lookup_self m k v : is_Some (insert_or_ignore k v m !! k).
Proof.
  unfold insert_or_ignore. destruct (m !! k) eqn:E.
  - rewrite E. eauto.
  - rewrite lookup_insert_eq. eauto.
Qed.

Lemma insert_or_ignore_keeps m k v k' x :
  m !! k' = Some x -> insert_or_ignore k v m !! k' = Some x.
Proof.
  intros Hk'. unfold insert_or_ignore. destruct (m !! k) eqn:E; [done|].
  rewrite lookup_insert_ne; [done|]. intros ->. congruence.
Qed.

Lemma insert_or_ignore_fresh m k v :
  m !! k = None -> insert_or_ignore k v m !! k = Some v.
Proof. intros E. unfold insert_or_ignore. rewrite E. apply lookup_insert_eq. Qed.

Lemma insert_all_app rows1 rows2 m :
  ingest.insert_all (rows1 ++ rows2) m = ingest.insert_all rows2 (ingest.insert_all rows1 m).
Proof. unfold ingest.insert_all. apply fold_left_app. Qed.

Lemma insert_all_keeps rows m k x :
  m !! k = Some x -> ingest.insert_all rows m !! k = Some x.
Proof.
  revert m. induction rows as [|[k0 v0] rows IH]; intros m Hk; [done|].
  cbn. apply IH. by apply insert_or_ignore_keeps.
Qed.

Lemma insert_all_covers rows m kr :
  In kr rows -> is_Some (ingest.insert_all rows m !! fst kr).
Proof.
  revert m. induction rows as [|[k0 v0] rows IH]; intros m Hin; [destruct Hin|].
  destruct Hin as [<-|Hin]; cbn.
  - destruct (insert_or_ignore_lookup_self m k0 v0) as [x Hx].
    exists x. by apply insert_all_keeps.
  - by apply IH.
Qed.

Lemma insert_all_absorbed rows m :
  (forall kr, In kr rows -> is_Some (m !! fst kr)) -> ingest.insert_all rows m = m.
Proof.
  revert m. induction rows as [|[k0 v0] rows IH]; intros m Hall; [done|].
  cbn. rewrite insert_or_ignore_present by (apply (Hall (k0, v0)); by left).
  apply IH. intros kr Hin. apply Hall. by right.
Qed.

(** Offering the same rows again changes nothing, whatever was
    offered in between. *)
Lemma insert_all_again rows rows' m :
  ingest.insert_all rows (ingest.insert_all rows' (ingest.insert_all rows m))
  = ingest.insert_all rows' (ingest.insert_all rows m).
Proof.
  apply insert_all_absorbed. intros kr Hin.
  destruct (insert_all_covers rows m kr Hin) as [x Hx].
  exists x. by apply insert_all_keeps.
Qed.

Lemma insert_all_idempotent rows m :
  ingest.insert_all rows (ingest.insert_all rows m) = ingest.insert_all rows m.
Proof. apply (insert_all_again rows [] m). Qed.

End InsertOrIgnore.

(** ** The runtime model on sample inputs *)

Example int_truncates_and_round_rounds :
  Float.to_int (Float.div (Float.of_Z 59) (Float.of_Z 60)) = Ok 0%Z
  /\ Float.round (Float.div (Float.of_Z 59) (Float.of_Z 60)) = Ok 1%Z
  /\ Float.to_int (Float.div (Float.of_Z (-119)) (Float.of_Z 60)) = Ok (-1)%Z
  /\ Float.round (Float.div (Float.of_Z 150) (Float.of_Z 60)) = Ok 2%Z
  /\ Float.int_truediv 1 0 = Raise ZeroDivisionError
  /\ Float.int_truediv 90000000 1000000 = Ok (Float.of_Z 90)
  /\ Float.int_truediv 0 (-5) = Ok (S754_zero true).
Proof. repeat split; vm_compute; reflexivity. Qed.

Example strptime_on_samples :
  Datetime.strptime "2025-06-25 00:00:00 +0200" SWIFT_FORMAT
  = Ok (Datetime.mk 2025 6 25 0 0 0 0 (Some 7200000000%Z))
  /\ Datetime.strptime "2025-06-24T22:00:00Z" SWIFT_FORMAT = Raise ValueError
  /\ Datetime.strptime "2025-6-5 1:2:3 +02:00" SWIFT_FORMAT
     = Ok (Datetime.mk 2025 6 5 1 2 3 0 (Some 7200000000%Z))
  /\ Datetime.strptime "2025-06-25 00:00:00 Z" SWIFT_FORMAT
     = Ok (Datetime.mk 2025 6 25 0 0 0 0 (Some 0%Z))
  /\ Datetime.strptime "2025-02-30 00:00:00 +0200" SWIFT_FORMAT = Raise ValueError
  /\ Datetime.strptime "2025-06-25 00:00:00 +0200:30" SWIFT_FORMAT = Raise ValueError
  /\ Datetime.strptime "2025-06-25 00:00:00 +02:0030" SWIFT_FORMAT = Raise ValueError
  /\ Datetime.strptime "2025-06-25 00:00:00 -02:00:30.5" SWIFT_FORMAT
     = Ok (Datetime.mk 2025 6 25 0 0 0 0 (Some (-7230500000)%Z))
  /\ Datetime.strptime "2025-06-25 00:00:60 +0200" SWIFT_FORMAT = Raise ValueError
  /\ Datetime.strptime "2025-06-25 00:00:00 +0200 " SWIFT_FORMAT = Raise ValueError.
Proof. repeat split; vm_compute; reflexivity. Qed.

Example fromisoformat_on_samples :
  Datetime.fromisoformat "2025-06-24T22:00:00+00:00"
  = Ok (Datetime.mk 2025 6 24 22 0 0 0 (Some 0%Z))
  /\ Datetime.fromisoformat "2025-06-24" = Ok (Datetime.mk 2025 6 24 0 0 0 0 None)
  /\ Datetime.fromisoformat "2025-06-24 22:00:00.250-05:30"
     = Ok (Datetime.mk 2025 6 24 22 0 0 250000 (Some (-19800000000)%Z))
  /\ Datetime.fromisoformat "2025-06-24T22:00:00Z" = Raise ValueError
  /\ Datetime.fromisoformat "2025-06-24T" = Raise ValueError
  /\ Datetime.fromisoformat "2025-06-24T22:00:00+0200" = Raise ValueError
  /\ Datetime.ymd2ord 2025 6 25 = 739427%Z
  /\ Datetime.ymd2ord 1 1 1 = 1%Z.
Proof. repeat split; vm_compute; reflexivity. Qed.

(** What the reference platform refuses: a timestamp whose UTC
    reading falls before the calendar, a number beyond binary64, a
    duration beyond 32 bits. *)
Example refusals_on_samples :
  @ingest.execute_insert_health reference_platform sample_connection "u1"
    "heart_rate_variability" "ms" (Datetime.mk 1 1 1 0 0 0 0 (Some 7200000000%Z))
    (PFloat (Float.of_Z 41)) = Raise DataError
  /\ is_ok (@ingest.execute_insert_health reference_platform sample_connection "u1"
              "heart_rate_variability" "ms" (Datetime.mk 1 1 1 2 0 0 0 (Some 7200000000%Z))
              (PFloat (Float.of_Z 41))) = true
  /\ @ingest.execute_insert_health reference_platform sample_connection "u1" "workout" "cal"
       morning (PInt (10 ^ 400)) = Raise DataError
  /\ @ingest.insert_sleep_entry reference_platform sample_connection "u1"
       (SleepEntry.mk (SleepEntry.date night) (SleepEntry.asleep night) (SleepEntry.awake night)
          (SleepEntry.core night) (SleepEntry.deep night) (SleepEntry.rem night)
          (SleepEntry.sleepStart night) (SleepEntry.sleepEnd night) "watch"
          (Float.of_Z 1000000000)) = Raise DataError
  /\ is_ok (@ingest.insert_sleep_entry reference_platform sample_connection "u1" night) = true.
Proof. repeat split; vm_compute; reflexivity. Qed.

(** ** What each insert function does to the tables *)

Section Rows.
Context `{Platform}.

Lemma offer_health_nil conn : offer_health [] conn = conn.
Proof. by destruct conn as [u [h s]]. Qed.

Lemma offer_sleep_nil conn : offer_sleep [] conn = conn.
Proof. by destruct conn as [u [h s]]. Qed.

Lemma offer_health_app rows1 rows2 conn :
  offer_health (rows1 ++ rows2) conn = offer_health rows2 (offer_health rows1 conn).
Proof. unfold offer_health. cbn. by rewrite insert_all_app. Qed.

Lemma offer_sleep_app rows1 rows2 conn :
  offer_sleep (rows1 ++ rows2) conn = offer_sleep rows2 (offer_sleep rows1 conn).
Proof. unfold offer_sleep. cbn. by rewrite insert_all_app. Qed.

Lemma offer_sleep_health rows1 rows2 conn :
  offer_sleep rows1 (offer_health rows2 conn) = offer_health rows2 (offer_sleep rows1 conn).
Proof. done. Qed.

Lemma oks_ok {A : Type} (a : A) l : ingest.oks (Ok a :: l) = a :: ingest.oks l.
Proof. reflexivity. Qed.

Lemma oks_raise {A : Type} e (l : list (result A)) : ingest.oks (Raise e :: l) = ingest.oks l.
Proof. reflexivity. Qed.

Lemma raised_ok {A : Type} ev (a : A) l : ingest.raised ev (Ok a :: l) = ingest.raised ev l.
Proof. reflexivity. Qed.

Lemma raised_raise {A : Type} ev e (l : list (result A)) :
  ingest.raised ev (Raise e :: l) = ev e :: ingest.raised ev l.
Proof. reflexivity. Qed.

Lemma offer_sleep_cons kr rows conn :
  offer_sleep (kr :: rows) conn = offer_sleep rows (offer_sleep [kr] conn).
Proof. reflexivity. Qed.

Lemma offer_health_cons kr rows conn :
  offer_health (kr :: rows) conn = offer_health rows (offer_health [kr] conn).
Proof. reflexivity. Qed.

Lemma insert_health_point_row user_id metric n conn out p :
  ingest.insert_health_point user_id metric (n, (conn, out)) p
  = match ingest.health_row user_id metric p with
    | Ok kr => (S n, (offer_health [kr] conn, out))
    | Raise e => (n, (conn, out ++ [HealthMetricError (CommonMetric.name metric) user_id e]))
    end.
Proof.
  unfold ingest.insert_health_point, ingest.execute_insert_health, ingest.health_row.
  by destruct (health_refusal _ _ _ _ _).
Qed.

Lemma insert_health_points_rows user_id metric points n conn out :
  fold_left (ingest.insert_health_point user_id metric) points (n, (conn, out))
  = ((n + length (ingest.oks (map (ingest.health_row user_id metric) points)))%nat,
     (offer_health (ingest.oks (map (ingest.health_row user_id metric) points)) conn,
      out ++ ingest.raised (HealthMetricError (CommonMetric.name metric) user_id)
               (map (ingest.health_row user_id metric) points))).
Proof.
  revert n conn out. induction points as [|p points IH]; intros n conn out.
  - cbn. by rewrite Nat.add_0_r, offer_health_nil, app_nil_r.
  - cbn [fold_left map]. rewrite insert_health_point_row.
    destruct (ingest.health_row user_id metric p) as [kr|err]; rewrite IH.
    + rewrite oks_ok, raised_ok, (offer_health_cons kr). cbn [length]. f_equal. lia.
    + rewrite oks_raise, raised_raise, <- app_assoc. reflexivity.
Qed.

Lemma insert_health_metrics_fold user_id metrics n conn out :
  fold_left
    (fun acc metric =>
       fold_left (ingest.insert_health_point user_id metric) (CommonMetric.data metric) acc)
    metrics (n, (conn, out))
  = ((n + length (flat_map (ingest.health_rows user_id) metrics))%nat,
     (offer_health (flat_map (ingest.health_rows user_id) metrics) conn,
      out ++ flat_map (ingest.health_events user_id) metrics)).
Proof.
  revert conn n out. induction metrics as [|metric metrics IH]; intros conn n out.
  - cbn. by rewrite Nat.add_0_r, offer_health_nil, app_nil_r.
  - cbn [fold_left flat_map]. rewrite insert_health_points_rows, IH.
    fold (ingest.health_rows user_id metric). fold (ingest.health_events user_id metric).
    rewrite length_app, offer_health_app, <- app_assoc. f_equal. lia.
Qed.

Lemma insert_health_metrics_rows user_id metrics conn out :
  ingest.insert_health_metrics (conn, out) user_id metrics
  = (length (flat_map (ingest.health_rows user_id) metrics),
     (offer_health (flat_map (ingest.health_rows user_id) metrics) conn,
      out ++ flat_map (ingest.health_events user_id) metrics)).
Proof. unfold ingest.insert_health_metrics. by rewrite insert_health_metrics_fold. Qed.

Lemma insert_sleep_entry_row conn user_id sleep_entry :
  ingest.insert_sleep_entry conn user_id sleep_entry
  = let* kr := ingest.sleep_row user_id sleep_entry in Ok (offer_sleep [kr] conn).
Proof.
  unfold ingest.insert_sleep_entry, ingest.sleep_row, ingest.execute_insert_sleep.
  repeat match goal with
         | |- context [sleep_refusal ?u ?s ?e ?a ?b ?c ?d ?f ?g ?h] =>
             destruct (sleep_refusal u s e a b c d f g h); cbn [bind]; try reflexivity
         | |- context [bind ?r _] => destruct r; cbn [bind]; try reflexivity
         end.
Qed.

Lemma insert_sleep_steps_rows user_id entries n conn out :
  fold_left (ingest.insert_sleep_step user_id) entries (n, (conn, out))
  = ((n + length (ingest.oks (map (ingest.sleep_row user_id) entries)))%nat,
     (offer_sleep (ingest.oks (map (ingest.sleep_row user_id) entries)) conn,
      out ++ ingest.raised (SleepError user_id) (map (ingest.sleep_row user_id) entries))).
Proof.
  revert n conn out. induction entries as [|e entries IH]; intros n conn out.
  - cbn. by rewrite Nat.add_0_r, offer_sleep_nil, app_nil_r.
  - cbn [fold_left map]. unfold ingest.insert_sleep_step at 2.
    rewrite insert_sleep_entry_row.
    destruct (ingest.sleep_row user_id e) as [kr|err]; cbn [bind]; rewrite IH.
    + rewrite oks_ok, raised_ok, (offer_sleep_cons kr). cbn [length].
      f_equal. lia.
    + rewrite oks_raise, raised_raise, <- app_assoc. reflexivity.
Qed.

Lemma insert_sleep_metrics_rows user_id sm conn out :
  ingest.insert_sleep_metrics_from_analysis (conn, out) user_id sm
  = (length (ingest.metric_sleep_rows user_id (Sleep sm)),
     (offer_sleep (ingest.metric_sleep_rows user_id (Sleep sm)) conn,
      out ++ ingest.metric_events user_id (Sleep sm))).
Proof. unfold ingest.insert_sleep_metrics_from_analysis. by rewrite insert_sleep_steps_rows. Qed.

Lemma insert_workout_row conn user_id now workout :
  ingest.insert_workout conn user_id now workout
  = let* o := ingest.workout_row user_id now workout in
    Ok (match o with
        | Some kr => Some (offer_health [kr] conn)
        | None => None
        end).
Proof.
  unfold ingest.insert_workout, ingest.workout_row, ingest.execute_insert_health.
  destruct (ingest.total_calories workout) as [calories|]; [cbn [bind]|reflexivity].
  destruct (ingest.duration_minutes workout) as [minutes|]; [cbn [bind]|reflexivity].
  destruct (py_gt_zero calories) as [[]|]; cbn [bind]; try reflexivity.
  by destruct (health_refusal _ _ _ _ _).
Qed.

Lemma insert_workout_steps_rows user_id now ws n conn out :
  fold_left (ingest.insert_workout_step user_id now) ws (n, (conn, out))
  = ((n + length (ingest.workout_rows user_id now ws))%nat,
     (offer_health (ingest.workout_rows user_id now ws) conn,
      out ++ ingest.raised (WorkoutError user_id) (map (ingest.workout_row user_id now) ws))).
Proof.
  unfold ingest.workout_rows.
  revert conn out n. induction ws as [|w ws IH]; intros conn out n.
  - cbn. by rewrite Nat.add_0_r, offer_health_nil, app_nil_r.
  - cbn [fold_left map]. unfold ingest.insert_workout_step at 2.
    rewrite insert_workout_row.
    destruct (ingest.workout_row user_id now w) as [[kr|]|err]; cbn [bind]; rewrite IH.
    + rewrite oks_ok, raised_ok.
      change (omap id (Some kr :: ?l)) with (kr :: omap id l).
      rewrite (offer_health_cons kr). cbn [length]. f_equal. lia.
    + rewrite oks_ok, raised_ok. reflexivity.
    + rewrite oks_raise, raised_raise, <- app_assoc. reflexivity.
Qed.

Lemma insert_workout_metrics_rows user_id now ws conn out :
  ingest.insert_workout_metrics (conn, out) user_id now ws
  = (length (ingest.workout_rows user_id now ws),
     (offer_health (ingest.workout_rows user_id now ws) conn,
      out ++ ingest.raised (WorkoutError user_id) (map (ingest.workout_row user_id now) ws))).
Proof. unfold ingest.insert_workout_metrics. by rewrite insert_workout_steps_rows. Qed.

End Rows.

(** ** What the webhook does to the tables *)

Ltac tidy_rows :=
  rewrite ?Nat.add_0_r, ?offer_sleep_nil, ?offer_health_nil, ?app_nil_r; try reflexivity.

Section Webhook.
Context `{Platform}.

Lemma process_metric_rows user_id counts conn out metric :
  ingest.process_metric user_id (counts, (conn, out)) metric
  = (ingest.mkProcessed
       (ingest.metrics counts + length (ingest.metric_health_rows user_id metric))
       (ingest.sleep counts + length (ingest.metric_sleep_rows user_id metric))
       (ingest.workouts counts),
     (offer_sleep (ingest.metric_sleep_rows user_id metric)
        (offer_health (ingest.metric_health_rows user_id metric) conn),
      out ++ ingest.metric_events user_id metric)).
Proof.
  unfold ingest.process_metric. destruct metric as [cm|sm].
  - cbn [metric_name ingest.metric_health_rows ingest.metric_sleep_rows ingest.metric_events].
    destruct (String.eqb (CommonMetric.name cm) "sleep_analysis").
    + unfold ingest.attribute_errors. cbn [fst snd length]. tidy_rows.
    + rewrite insert_health_metrics_rows. cbn [flat_map length]. tidy_rows.
  - change (String.eqb (metric_name (Sleep sm)) "sleep_analysis") with true. cbv iota.
    rewrite insert_sleep_metrics_rows.
    cbn [ingest.metric_health_rows length]. tidy_rows.
Qed.

Lemma process_metrics_rows user_id ms counts conn out :
  fold_left (ingest.process_metric user_id) ms (counts, (conn, out))
  = (ingest.mkProcessed
       (ingest.metrics counts + length (flat_map (ingest.metric_health_rows user_id) ms))
       (ingest.sleep counts + length (flat_map (ingest.metric_sleep_rows user_id) ms))
       (ingest.workouts counts),
     (offer_sleep (flat_map (ingest.metric_sleep_rows user_id) ms)
        (offer_health (flat_map (ingest.metric_health_rows user_id) ms) conn),
      out ++ flat_map (ingest.metric_events user_id) ms)).
Proof.
  revert counts conn out. induction ms as [|m ms IH]; intros counts conn out.
  - cbn. rewrite !Nat.add_0_r, app_nil_r, offer_sleep_nil, offer_health_nil.
    by destruct counts.
  - cbn [fold_left flat_map]. rewrite process_metric_rows, IH.
    cbn [ingest.metrics ingest.sleep ingest.workouts].
    rewrite !length_app, !offer_sleep_app, !offer_health_app, <- !app_assoc.
    rewrite !Nat.add_assoc. reflexivity.
Qed.

Lemma process_payload_rows user_id now payload conn out :
  ingest.process_payload user_id now payload (conn, out)
  = (payload_counts user_id now payload,
     (offer_sleep (payload_sleep_rows user_id payload)
        (offer_health (payload_health_rows user_id now payload) conn),
      out ++ payload_events user_id now payload)).
Proof.
  unfold ingest.process_payload, payload_counts, payload_sleep_rows, payload_health_rows,
    payload_events.
  destruct payload as [[ms ws] rid].
  cbn [HealthAutoExportPayload.data DataNode.metrics DataNode.workouts].
  rewrite process_metrics_rows. cbn [ingest.metrics ingest.sleep ingest.workouts].
  destruct ws as [|w ws].
  - cbn. by rewrite !app_nil_r.
  - rewrite insert_workout_metrics_rows.
    rewrite offer_health_app, app_assoc. reflexivity.
Qed.

Lemma health_rows_taken conn user_id cm points :
  length (ingest.oks (map (ingest.health_row user_id cm) points))
  = length (List.filter (ingest.point_taken conn user_id cm) points).
Proof.
  induction points as [|p points IH]; [done|].
  cbn [map List.filter].
  unfold ingest.health_row at 1, ingest.point_taken at 1, ingest.execute_insert_health.
  destruct (health_refusal _ _ _ _ _); cbn [is_ok];
    [rewrite oks_raise|rewrite oks_ok; cbn [length]]; by rewrite IH.
Qed.

Lemma health_rows_count conn user_id ms :
  validated ms ->
  length (flat_map (ingest.metric_health_rows user_id) ms)
  = length (ingest.taken_points conn user_id ms).
Proof.
  unfold ingest.taken_points.
  induction 1 as [|m ms Hm Hms IH]; [done|].
  cbn [flat_map]. rewrite !length_app, IH. f_equal.
  destruct m as [cm|sm]; [|done]. cbn [ingest.metric_health_rows].
  apply String.eqb_neq in Hm. rewrite Hm.
  apply health_rows_taken.
Qed.

Lemma sleep_rows_taken conn user_id entries :
  length (ingest.oks (map (ingest.sleep_row user_id) entries))
  = length (List.filter (ingest.entry_taken conn user_id) entries).
Proof.
  induction entries as [|e entries IH]; [done|].
  cbn [map List.filter]. unfold ingest.entry_taken at 1. rewrite insert_sleep_entry_row.
  destruct (ingest.sleep_row user_id e); cbn [bind is_ok];
    [rewrite oks_ok; cbn [length]|rewrite oks_raise]; by rewrite IH.
Qed.

Lemma sleep_rows_count conn user_id ms :
  length (flat_map (ingest.metric_sleep_rows user_id) ms)
  = length (ingest.taken_entries conn user_id ms).
Proof.
  unfold ingest.taken_entries.
  induction ms as [|m ms IH]; [done|].
  cbn [flat_map]. rewrite !length_app, IH. f_equal.
  destruct m as [cm|sm]; [done|]. cbn [ingest.metric_sleep_rows].
  apply sleep_rows_taken.
Qed.

Lemma workout_rows_count conn user_id now ws :
  length (ingest.workout_rows user_id now ws)
  = length (List.filter (ingest.workout_taken conn user_id now) ws).
Proof.
  unfold ingest.workout_rows.
  induction ws as [|w ws IH]; [done|].
  cbn [map List.filter]. unfold ingest.workout_taken at 1. rewrite insert_workout_row.
  destruct (ingest.workout_row user_id now w) as [[kr|]|err]; cbn [bind];
    rewrite ?oks_ok, ?oks_raise;
    change (omap id (Some ?a :: ?l)) with (a :: omap id l);
    change (omap id (@None ?A :: ?l)) with (omap id l);
    cbn [length]; by rewrite IH.
Qed.

Lemma get_db_connection_lookup w conn :
  get_db_connection w = Ok conn -> servers w !! url conn = Some (tables conn).
Proof.
  unfold get_db_connection. intros Hc.
  destruct (match mode w with PROD => _ | DEV => _ end) as [u|]; [|done].
  destruct u as [|a u]; [done|].
  destruct (servers w !! String a u) as [db|] eqn:E; [|done].
  injection Hc as <-. exact E.
Qed.

Lemma get_db_connection_reopen w conn db out :
  get_db_connection w = Ok conn ->
  get_db_connection (mkWorld (mode w) (secrets w) (<[url conn := db]> (servers w)) out)
  = Ok (mkConnection (url conn) db).
Proof.
  unfold get_db_connection. cbn [mode secrets servers]. intros Hc.
  destruct (match mode w with PROD => _ | DEV => _ end) as [u|]; [|done].
  destruct u as [|a u]; [done|].
  destruct (servers w !! String a u) as [db0|] eqn:E; [|done].
  injection Hc as <-. cbn [url]. by rewrite lookup_insert_eq.
Qed.

(** The response and the world after a request whose body validates
    and whose connection opens. *)
Lemma webhook_accepted user_id raw now w payload conn :
  validate_HealthAutoExportPayload raw = Ok payload ->
  get_db_connection w = Ok conn ->
  ingest.health_auto_export_webhook user_id raw now w
  = (ingest.WebhookResponse.mk true (ingest.Successfully_processed user_id)
       (payload_counts user_id now payload) "success",
     mkWorld (mode w) (secrets w)
       (<[url conn :=
            tables (offer_sleep (payload_sleep_rows user_id payload)
                      (offer_health (payload_health_rows user_id now payload) conn))]>
          (servers w))
       (printed w ++ payload_events user_id now payload)).
Proof.
  intros Hv Hc. unfold ingest.health_auto_export_webhook.
  rewrite Hv, Hc, process_payload_rows. reflexivity.
Qed.

(** The response and the world after a request whose body is
    rejected: nothing is written. *)
Lemma webhook_rejected user_id raw now w e :
  validate_HealthAutoExportPayload raw = Raise e ->
  exists e',
    ingest.health_auto_export_webhook user_id raw now w
    = (ingest.WebhookResponse.mk false (ingest.Failed_to_process e')
         (ingest.mkProcessed 0 0 0) "error",
       mkWorld (mode w) (secrets w) (servers w)
         (printed w ++ [PydanticValidationError e; GlobalWebhookError e'])).
Proof.
  intros Hv. unfold ingest.health_auto_export_webhook. rewrite Hv.
  destruct (ingest.inspect_rejected raw) as [[]|e'];
    eexists; unfold print; cbn [mode secrets servers printed]; rewrite <- app_assoc;
    reflexivity.
Qed.

Lemma get_db_connection_print ev w : get_db_connection (print ev w) = get_db_connection w.
Proof. reflexivity. Qed.

(** The response and the world after a request whose connection does
    not open. *)
Lemma webhook_unreachable user_id raw now w payload e :
  validate_HealthAutoExportPayload raw = Ok payload ->
  get_db_connection w = Raise e ->
  ingest.health_auto_export_webhook user_id raw now w
  = (ingest.WebhookResponse.mk false (ingest.Failed_to_process e)
       (ingest.mkProcessed 0 0 0) "error",
     print (GlobalWebhookError e) w).
Proof.
  intros Hv Hc. unfold ingest.health_auto_export_webhook. by rewrite Hv, Hc.
Qed.

End Webhook.

(** ** Re-delivery of a request *)

Section Redelivery.
Context `{Platform}.

Lemma workout_row_started user_id now1 now2 workout :
  is_Some (HAEWorkout.start workout) ->
  ingest.workout_row user_id now1 workout = ingest.workout_row user_id now2 workout.
Proof. intros [s Hs]. unfold ingest.workout_row. by rewrite Hs. Qed.

Lemma workout_rows_started user_id now1 now2 ws :
  Forall (fun w => is_Some (HAEWorkout.start w)) ws ->
  ingest.workout_rows user_id now1 ws = ingest.workout_rows user_id now2 ws.
Proof.
  unfold ingest.workout_rows. induction 1 as [|w ws Hw Hws IH]; [done|].
  cbn [map]. rewrite (workout_row_started user_id now1 now2 w Hw).
  destruct (ingest.workout_row user_id now2 w) as [[kr|]|e];
    rewrite ?oks_ok, ?oks_raise;
    change (omap id (Some ?a :: ?l)) with (a :: omap id l);
    change (omap id (@None ?A :: ?l)) with (omap id l);
    congruence.
Qed.

Lemma payload_counts_started user_id now1 now2 payload :
  Forall (fun w => is_Some (HAEWorkout.start w))
    (DataNode.workouts (HealthAutoExportPayload.data payload)) ->
  payload_counts user_id now1 payload = payload_counts user_id now2 payload.
Proof.
  intros Hstart. unfold payload_counts. f_equal.
  by rewrite (workout_rows_started user_id now1 now2 _ Hstart).
Qed.

(** A second delivery of a body that validates, the workouts of the
    body all having a start time: the response carries the same counts
    and the servers hold what they held after the first delivery. *)
Lemma webhook_redelivered user_id raw now1 now2 w payload conn :
  validate_HealthAutoExportPayload raw = Ok payload ->
  get_db_connection w = Ok conn ->
  Forall (fun w => is_Some (HAEWorkout.start w))
    (DataNode.workouts (HealthAutoExportPayload.data payload)) ->
  let first := ingest.health_auto_export_webhook user_id raw now1 w in
  let second := ingest.health_auto_export_webhook user_id raw now2 (snd first) in
  ingest.WebhookResponse.processed (fst second) = ingest.WebhookResponse.processed (fst first)
  /\ ingest.WebhookResponse.processed (fst first) = payload_counts user_id now1 payload
  /\ servers (snd second) = servers (snd first).
Proof.
  intros Hv Hc Hstart first second. subst first second.
  rewrite (webhook_accepted user_id raw now1 w payload conn Hv Hc). cbn [fst snd].
  erewrite webhook_accepted; [|exact Hv|by apply get_db_connection_reopen].
  cbn [fst snd ingest.WebhookResponse.processed servers url].
  split; [by apply payload_counts_started|]. split; [done|].
  rewrite insert_insert_eq. f_equal.
  unfold payload_health_rows.
  rewrite (workout_rows_started user_id now2 now1 _ Hstart).
  unfold offer_sleep, offer_health. cbn [tables url health_metrics sleep_metrics].
  by rewrite !insert_all_idempotent.
Qed.

Lemma webhook_keeps_rows user_id raw now w u db :
  servers w !! u = Some db ->
  exists db',
    servers (snd (ingest.health_auto_export_webhook user_id raw now w)) !! u = Some db'
    /\ (forall k row, health_metrics db !! k = Some row -> health_metrics db' !! k = Some row)
    /\ (forall k row, sleep_metrics db !! k = Some row -> sleep_metrics db' !! k = Some row).
Proof.
  intros Hu.
  destruct (validate_HealthAutoExportPayload raw) as [payload|e] eqn:Hv.
  - destruct (get_db_connection w) as [conn|e] eqn:Hc.
    + rewrite (webhook_accepted user_id raw now w payload conn Hv Hc). cbn [snd servers].
      destruct (decide (url conn = u)) as [<-|Hne].
      * rewrite lookup_insert_eq. eexists. split; [done|].
        apply get_db_connection_lookup in Hc. rewrite Hc in Hu. injection Hu as <-.
        unfold offer_sleep, offer_health. cbn [tables health_metrics sleep_metrics].
        split; intros k row Hk; by apply insert_all_keeps.
      * rewrite lookup_insert_ne by done. eauto.
    + unfold ingest.health_auto_export_webhook. rewrite Hv, Hc. cbn. eauto.
  - destruct (webhook_rejected user_id raw now w e Hv) as [e' ->]. cbn. eauto.
Qed.

End Redelivery.


(** ** Validation *)

Lemma bind_ok {A B : Type} (r : result A) (k : A -> result B) (b : B) :
  bind r k = Ok b -> exists a, r = Ok a /\ k a = Ok b.
Proof. destruct r as [a|e]; [eauto|done]. Qed.

Lemma bind_raise {A B : Type} (r : result A) (k : A -> result B) :
  (forall a, r = Ok a -> exists e, k a = Raise e) -> exists e, bind r k = Raise e.
Proof. destruct r as [a|e]; cbn; eauto. Qed.

Lemma mapM_raise {A B : Type} (f : A -> result B) (l : list A) (a : A) (e : exn) :
  In a l -> f a = Raise e -> exists e', mapM f l = Raise e'.
Proof.
  induction l as [|x l IH]; intros Hin Hf; [destruct Hin|].
  destruct Hin as [->|Hin]; cbn [mapM].
  - rewrite Hf. cbn. eauto.
  - destruct (f x); cbn; [|eauto].
    destruct (IH Hin Hf) as [e' ->]. cbn. eauto.
Qed.

Lemma mapM_Forall2 {A B : Type} (f : A -> result B) (l : list A) (l' : list B) :
  mapM f l = Ok l' -> Forall2 (fun a b => f a = Ok b) l l'.
Proof.
  revert l'. induction l as [|x l IH]; intros l' Hm; cbn in Hm.
  - injection Hm as <-. constructor.
  - apply bind_ok in Hm as (b & Hb & Hm). apply bind_ok in Hm as (bs & Hbs & Hm).
    injection Hm as <-. constructor; auto.
Qed.

Section ValidationFacts.
Context `{Platform}.

Lemma discriminator_sleep v :
  metric_discriminator v = "sleep"
  <-> exists d, v = PDict d /\ dict_get "name" d = Some (PStr "sleep_analysis").
Proof.
  split.
  - destruct v as [| | | | |l|d|]; try done. cbn.
    destruct (dict_get "name" d) as [[| | | |s| | |]|] eqn:E; try done.
    destruct (String.eqb s "sleep_analysis") eqn:Es; [|done].
    apply String.eqb_eq in Es as ->. eauto.
  - intros (d & -> & E). cbn. by rewrite E.
Qed.

Lemma discriminator_tags v :
  metric_discriminator v = "sleep" \/ metric_discriminator v = "common".
Proof.
  destruct v as [| | | | |l|d|]; cbn; auto.
  destruct (dict_get "name" d) as [[| | | |s| | |]|]; auto.
  destruct (String.eqb s "sleep_analysis"); auto.
Qed.

Lemma dict_get_set_ne k k' v d : k <> k' -> dict_get k (dict_set k' v d) = dict_get k d.
Proof.
  intros Hne. unfold dict_get. induction d as [|[k0 v0] d IH]; cbn.
  - destruct (String.eqb k' k) eqn:E; [|done]. apply String.eqb_eq in E. congruence.
  - destruct (String.eqb k0 k') eqn:E0; cbn.
    + apply String.eqb_eq in E0 as ->.
      destruct (String.eqb k' k) eqn:E; [|done]. apply String.eqb_eq in E. congruence.
    + destruct (String.eqb k0 k); [done|]. exact IH.
Qed.

Lemma validate_common_name v cm :
  validate_MetricUnion v = Ok (Common cm) -> CommonMetric.name cm <> "sleep_analysis".
Proof.
  unfold validate_MetricUnion.
  destruct (String.eqb (metric_discriminator v) "sleep") eqn:Ed.
  - intros Hv. apply bind_ok in Hv as (a & _ & Hv). done.
  - intros Hv. apply bind_ok in Hv as (m & Hm & Hv). injection Hv as ->.
    apply String.eqb_neq in Ed. intros Hname. apply Ed.
    unfold validate_CommonMetric in Hm.
    apply bind_ok in Hm as (d & Hd & Hm).
    apply bind_ok in Hm as (nv & Hnv & Hm).
    apply bind_ok in Hm as (name & Hnm & Hm).
    apply bind_ok in Hm as (uv & _ & Hm).
    apply bind_ok in Hm as (units & _ & Hm).
    apply bind_ok in Hm as (dv & _ & Hm).
    apply bind_ok in Hm as (data & _ & Hm).
    injection Hm as <-. cbn in Hname. subst name.
    destruct v; try done. cbn in Hd. injection Hd as ->.
    unfold required, of_option in Hnv.
    destruct (dict_get "name" d) as [nv'|] eqn:En; [|done]. injection Hnv as ->.
    destruct nv; try done. cbn in Hnm. injection Hnm as ->.
    cbn. by rewrite En.
Qed.

Lemma validate_payload_validated raw payload :
  validate_HealthAutoExportPayload raw = Ok payload ->
  validated (DataNode.metrics (HealthAutoExportPayload.data payload)).
Proof.
  unfold validate_HealthAutoExportPayload. destruct raw as [| | | | | |top|]; try done.
  intros Hv.
  apply bind_ok in Hv as (dv & _ & Hv).
  apply bind_ok in Hv as (data & Hdata & Hv).
  apply bind_ok in Hv as (rid & _ & Hv).
  injection Hv as <-. cbn.
  unfold validate_DataNode in Hdata.
  apply bind_ok in Hdata as (dn & _ & Hdata).
  apply bind_ok in Hdata as (ms & Hms & Hdata).
  apply bind_ok in Hdata as (ws & _ & Hdata).
  injection Hdata as <-. cbn.
  unfold list_or_empty in Hms.
  destruct (dict_get "metrics" dn) as [mv|]; [|injection Hms as <-; constructor].
  unfold as_list in Hms. destruct mv; try done.
  apply mapM_Forall2 in Hms. unfold validated.
  induction Hms as [|x m l ms Hx Hl IH]; constructor; [|exact IH].
  destruct m as [cm|sm]; [|done]. by apply validate_common_name with x.
Qed.

(** A block one of whose data points is refused by the validator of
    its shape is refused. *)
Lemma validate_block_raise b pts pt e :
  dict_get "data" b = Some (PList pts) ->
  In pt pts ->
  (if String.eqb (metric_discriminator (PDict b)) "sleep"
   then validate_SleepEntry pt = Raise e
   else validate_CommonPoint pt = Raise e) ->
  exists e', validate_MetricUnion (PDict b) = Raise e'.
Proof.
  intros Hd Hin Hpt. unfold validate_MetricUnion.
  destruct (String.eqb (metric_discriminator (PDict b)) "sleep").
  - apply bind_raise. intros sm Hsm. exfalso.
    unfold validate_SleepMetric in Hsm. cbn [as_dict bind] in Hsm.
    apply bind_ok in Hsm as (nv & _ & Hsm).
    apply bind_ok in Hsm as (u & _ & Hsm).
    apply bind_ok in Hsm as (uv & _ & Hsm).
    apply bind_ok in Hsm as (units & _ & Hsm).
    apply bind_ok in Hsm as (dv & Hdv & Hsm).
    apply bind_ok in Hsm as (data & Hdata & Hsm).
    unfold required in Hdv. rewrite Hd in Hdv. injection Hdv as <-.
    cbn in Hdata. destruct (mapM_raise _ _ _ _ Hin Hpt) as [e' He']. congruence.
  - apply bind_raise. intros cm Hcm. exfalso.
    unfold validate_CommonMetric in Hcm. cbn [as_dict bind] in Hcm.
    apply bind_ok in Hcm as (nv & _ & Hcm).
    apply bind_ok in Hcm as (name & _ & Hcm).
    apply bind_ok in Hcm as (uv & _ & Hcm).
    apply bind_ok in Hcm as (units & _ & Hcm).
    apply bind_ok in Hcm as (dv & Hdv & Hcm).
    apply bind_ok in Hcm as (data & Hdata & Hcm).
    unfold required in Hdv. rewrite Hd in Hdv. injection Hdv as <-.
    cbn in Hdata. destruct (mapM_raise _ _ _ _ Hin Hpt) as [e' He']. congruence.
Qed.

Lemma validate_payload_raise top dn blocks b e :
  dict_get "data" top = Some (PDict dn) ->
  dict_get "metrics" dn = Some (PList blocks) ->
  In b blocks ->
  validate_MetricUnion b = Raise e ->
  exists e', validate_HealthAutoExportPayload (PDict top) = Raise e'.
Proof.
  intros Hd Hm Hin Hb. unfold validate_HealthAutoExportPayload.
  unfold required. rewrite Hd. cbn [of_option bind].
  apply bind_raise. intros data Hdata. exfalso.
  unfold validate_DataNode in Hdata. cbn [as_dict bind] in Hdata.
  unfold list_or_empty in Hdata at 1. rewrite Hm in Hdata. cbn [as_list] in Hdata.
  destruct (mapM_raise _ _ _ _ Hin Hb) as [e' He']. by rewrite He' in Hdata.
Qed.

End ValidationFacts.

(** ** What an accepted call stores and prints for a data point *)

Section StoredPoints.
Context `{Platform}.

Lemma oks_In {A : Type} (l : list (result A)) (a : A) : In a (ingest.oks l) <-> In (Ok a) l.
Proof.
  induction l as [|[b|e] l IH].
  - done.
  - rewrite oks_ok. cbn. rewrite IH. split; intros [Hb|Hl]; auto; left; congruence.
  - rewrite oks_raise. cbn. rewrite IH. split; [auto|]. intros [Hb|Hl]; [done|auto].
Qed.

Lemma omap_id_In {A : Type} (l : list (option A)) (a : A) : In a (omap id l) <-> In (Some a) l.
Proof.
  induction l as [|[b|] l IH].
  - done.
  - change (omap id (Some b :: l)) with (b :: omap id l). cbn. rewrite IH.
    split; intros [Hb|Hl]; auto; left; congruence.
  - change (omap id (None :: l)) with (omap id l). cbn. rewrite IH.
    split; [auto|]. intros [Hb|Hl]; [done|auto].
Qed.

Lemma raised_intro {A : Type} ev e (l : list (result A)) :
  In (Raise e) l -> In (ev e) (ingest.raised ev l).
Proof.
  induction l as [|r l IH]; [done|]. intros [->|Hin].
  - rewrite raised_raise. by left.
  - destruct r; [rewrite raised_ok|rewrite raised_raise; right]; by apply IH.
Qed.

Lemma sleep_row_fields user_id e k row :
  ingest.sleep_row user_id e = Ok (k, row) ->
  k = (user_id, timestamptz (SleepEntry.sleepStart e))
  /\ SleepRow.end_time row = timestamptz (SleepEntry.sleepEnd e)
  /\ ingest.minutes_of_hours (SleepEntry.totalSleep e) = Ok (SleepRow.duration_total_minutes row)
  /\ ingest.minutes_of_hours (SleepEntry.awake e) = Ok (SleepRow.duration_awake_minutes row)
  /\ ingest.minutes_of_hours (SleepEntry.core e) = Ok (SleepRow.duration_light_minutes row)
  /\ ingest.minutes_of_hours (SleepEntry.deep e) = Ok (SleepRow.duration_deep_minutes row)
  /\ ingest.minutes_of_hours (SleepEntry.rem e) = Ok (SleepRow.duration_rem_minutes row)
  /\ ingest.total_time_in_bed e = Ok (SleepRow.duration_in_bed_minutes row)
  /\ ingest.efficiency (SleepRow.duration_total_minutes row)
       (SleepRow.duration_in_bed_minutes row) = Ok (SleepRow.efficiency row).
Proof.
  unfold ingest.sleep_row. intros Hr.
  apply bind_ok in Hr as (total & Htotal & Hr).
  apply bind_ok in Hr as (awake & Hawake & Hr).
  apply bind_ok in Hr as (core & Hcore & Hr).
  apply bind_ok in Hr as (deep & Hdeep & Hr).
  apply bind_ok in Hr as (rem & Hrem & Hr).
  apply bind_ok in Hr as (in_bed & Hbed & Hr).
  apply bind_ok in Hr as (eff & Heff & Hr).
  destruct (sleep_refusal _ _ _ _ _ _ _ _ _ _); [done|].
  injection Hr as <- <-. cbn. repeat split; assumption.
Qed.

Lemma workout_row_key user_id now workout kr :
  ingest.workout_row user_id now workout = Ok (Some kr) ->
  exists calories,
    ingest.total_calories workout = Ok calories
    /\ py_gt_zero calories = Ok true
    /\ kr = ((user_id, "workout",
              timestamptz (match HAEWorkout.start workout with Some s => s | None => now end)),
             HealthRow.mk "cal" calories).
Proof.
  unfold ingest.workout_row. intros Hr.
  apply bind_ok in Hr as (calories & Hc & Hr).
  apply bind_ok in Hr as (minutes & _ & Hr).
  apply bind_ok in Hr as (positive & Hp & Hr).
  destruct positive; [|done].
  destruct (health_refusal _ _ _ _ _); [done|]. injection Hr as <-. eauto.
Qed.

Lemma validated_common_name raw payload cm :
  validate_HealthAutoExportPayload raw = Ok payload ->
  In (Common cm) (DataNode.metrics (HealthAutoExportPayload.data payload)) ->
  String.eqb (CommonMetric.name cm) "sleep_analysis" = false.
Proof.
  intros Hv Hcm.
  pose proof (validate_payload_validated raw payload Hv) as Hval.
  unfold validated in Hval. rewrite Forall_forall in Hval.
  specialize (Hval (Common cm)). cbn in Hval.
  apply String.eqb_neq. apply Hval. by apply list_elem_of_In.
Qed.

Lemma health_row_taken conn user_id cm p :
  ingest.point_taken conn user_id cm p = true ->
  ingest.health_row user_id cm p
  = Ok ((user_id, CommonMetric.name cm, timestamptz (CommonPoint.date p)),
        HealthRow.mk (CommonMetric.units cm) (PFloat (CommonPoint.qty p))).
Proof.
  unfold ingest.point_taken, ingest.execute_insert_health, ingest.health_row.
  by destruct (health_refusal _ _ _ _ _).
Qed.

Lemma health_row_refused conn user_id cm p e :
  ingest.execute_insert_health conn user_id (CommonMetric.name cm) (CommonMetric.units cm)
    (CommonPoint.date p) (PFloat (CommonPoint.qty p)) = Raise e ->
  ingest.health_row user_id cm p = Raise e.
Proof.
  unfold ingest.execute_insert_health, ingest.health_row.
  destruct (health_refusal _ _ _ _ _); [|done]. by intros [= <-].
Qed.

Lemma accepted_call_covers_point (user_id : string) (raw : pyval) (now : Datetime.t)
  (w : World) (payload : HealthAutoExportPayload.t) (conn : Connection)
  (cm : CommonMetric.t) (p : CommonPoint.t) :
  validate_HealthAutoExportPayload raw = Ok payload ->
  get_db_connection w = Ok conn ->
  In (Common cm) (DataNode.metrics (HealthAutoExportPayload.data payload)) ->
  In p (CommonMetric.data cm) ->
  ingest.point_taken conn user_id cm p = true ->
  exists db',
    servers (snd (ingest.health_auto_export_webhook user_id raw now w)) !! url conn = Some db'
    /\ is_Some (health_metrics db'
                !! (user_id, CommonMetric.name cm, timestamptz (CommonPoint.date p))).
Proof.
  intros Hv Hc Hcm Hp Htaken.
  rewrite (webhook_accepted user_id raw now w payload conn Hv Hc). cbn [snd servers].
  rewrite lookup_insert_eq. eexists. split; [reflexivity|].
  unfold offer_sleep, offer_health. cbn [tables health_metrics].
  apply (insert_all_covers _ _
           ((user_id, CommonMetric.name cm, timestamptz (CommonPoint.date p)),
            HealthRow.mk (CommonMetric.units cm) (PFloat (CommonPoint.qty p)))).
  unfold payload_health_rows. apply in_or_app. left. apply in_flat_map.
  exists (Common cm). split; [exact Hcm|]. cbn [ingest.metric_health_rows].
  rewrite (validated_common_name raw payload cm Hv Hcm).
  unfold ingest.health_rows. apply oks_In. rewrite <- (health_row_taken conn _ _ _ Htaken).
  by apply in_map.
Qed.

Lemma accepted_call_prints_refusal (user_id : string) (raw : pyval) (now : Datetime.t)
  (w : World) (payload : HealthAutoExportPayload.t) (conn : Connection)
  (cm : CommonMetric.t) (p : CommonPoint.t) (e : exn) :
  validate_HealthAutoExportPayload raw = Ok payload ->
  get_db_connection w = Ok conn ->
  In (Common cm) (DataNode.metrics (HealthAutoExportPayload.data payload)) ->
  In p (CommonMetric.data cm) ->
  ingest.execute_insert_health conn user_id (CommonMetric.name cm) (CommonMetric.units cm)
    (CommonPoint.date p) (PFloat (CommonPoint.qty p)) = Raise e ->
  In (HealthMetricError (CommonMetric.name cm) user_id e)
    (printed (snd (ingest.health_auto_export_webhook user_id raw now w))).
Proof.
  intros Hv Hc Hcm Hp Hrefused.
  rewrite (webhook_accepted user_id raw now w payload conn Hv Hc). cbn [snd printed].
  apply in_or_app. right. unfold payload_events. apply in_or_app. left. apply in_flat_map.
  exists (Common cm). split; [exact Hcm|]. cbn [ingest.metric_events].
  rewrite (validated_common_name raw payload cm Hv Hcm).
  unfold ingest.health_events. apply raised_intro.
  rewrite <- (health_row_refused conn _ _ _ _ Hrefused). by apply in_map.
Qed.

Lemma accepted_call_covers_entry (user_id : string) (raw : pyval) (now : Datetime.t)
  (w : World) (payload : HealthAutoExportPayload.t) (conn : Connection)
  (sm : SleepMetric.t) (e : SleepEntry.t) :
  validate_HealthAutoExportPayload raw = Ok payload ->
  get_db_connection w = Ok conn ->
  In (Sleep sm) (DataNode.metrics (HealthAutoExportPayload.data payload)) ->
  In e (SleepMetric.data sm) ->
  ingest.entry_taken conn user_id e = true ->
  exists db',
    servers (snd (ingest.health_auto_export_webhook user_id raw now w)) !! url conn = Some db'
    /\ is_Some (sleep_metrics db' !! (user_id, timestamptz (SleepEntry.sleepStart e))).
Proof.
  intros Hv Hc Hsm He Htaken.
  rewrite (webhook_accepted user_id raw now w payload conn Hv Hc). cbn [snd servers].
  rewrite lookup_insert_eq. eexists. split; [reflexivity|].
  unfold ingest.entry_taken in Htaken. rewrite insert_sleep_entry_row in Htaken.
  destruct (ingest.sleep_row user_id e) as [[k row]|err] eqn:Hrow; [|done].
  destruct (sleep_row_fields user_id e k row Hrow) as (-> & _).
  unfold offer_sleep, offer_health. cbn [tables sleep_metrics].
  apply (insert_all_covers _ _ ((user_id, timestamptz (SleepEntry.sleepStart e)), row)).
  unfold payload_sleep_rows. apply in_flat_map.
  exists (Sleep sm). split; [exact Hsm|]. cbn [ingest.metric_sleep_rows].
  apply oks_In. rewrite <- Hrow. by apply in_map.
Qed.

Lemma accepted_call_covers_workout (user_id : string) (raw : pyval) (now : Datetime.t)
  (w : World) (payload : HealthAutoExportPayload.t) (conn : Connection)
  (workout : HAEWorkout.t) :
  validate_HealthAutoExportPayload raw = Ok payload ->
  get_db_connection w = Ok conn ->
  In workout (DataNode.workouts (HealthAutoExportPayload.data payload)) ->
  ingest.workout_taken conn user_id now workout = true ->
  exists db',
    servers (snd (ingest.health_auto_export_webhook user_id raw now w)) !! url conn = Some db'
    /\ is_Some (health_metrics db'
                !! (user_id, "workout",
                    timestamptz (match HAEWorkout.start workout with
                                 | Some s => s
                                 | None => now
                                 end))).
Proof.
  intros Hv Hc Hw Htaken.
  rewrite (webhook_accepted user_id raw now w payload conn Hv Hc). cbn [snd servers].
  rewrite lookup_insert_eq. eexists. split; [reflexivity|].
  unfold ingest.workout_taken in Htaken. rewrite insert_workout_row in Htaken.
  destruct (ingest.workout_row user_id now workout) as [[kr|]|err] eqn:Hrow; try done.
  destruct (workout_row_key user_id now workout kr Hrow) as (calories & _ & _ & ->).
  unfold offer_sleep, offer_health. cbn [tables health_metrics].
  apply (insert_all_covers _ _
           ((user_id, "workout",
             timestamptz (match HAEWorkout.start workout with Some s => s | None => now end)),
            HealthRow.mk "cal" calories)).
  unfold payload_health_rows. apply in_or_app. right.
  unfold ingest.workout_rows. apply omap_id_In, oks_In. rewrite <- Hrow. by apply in_map.
Qed.

End StoredPoints.

(** ** The claims about the ingestion webhook *)

Section IngestClaims.
Context `{Platform}.

(** C1 (as amended).  Validation is of the whole body: when any data
    point of any metric block is refused by the validator of its
    block's shape, the request is answered with [success = false] and
    all counts 0, and no row is written. *)
Theorem malformed_point_rejects_request
  (user_id : string) (now : Datetime.t) (w : World)
  (top dn b : dict) (blocks pts : list pyval) (pt : pyval) (e : exn) :
  dict_get "data" top = Some (PDict dn) ->
  dict_get "metrics" dn = Some (PList blocks) ->
  In (PDict b) blocks ->
  dict_get "data" b = Some (PList pts) ->
  In pt pts ->
  (if String.eqb (metric_discriminator (PDict b)) "sleep"
   then validate_SleepEntry pt = Raise e
   else validate_CommonPoint pt = Raise e) ->
  let r := ingest.health_auto_export_webhook user_id (PDict top) now w in
  ingest.WebhookResponse.success (fst r) = false
  /\ ingest.WebhookResponse.processed (fst r) = ingest.mkProcessed 0 0 0
  /\ servers (snd r) = servers w.
Proof.
  intros Hdata Hmetrics Hb Hpts Hpt Hbad r. subst r.
  destruct (validate_block_raise b pts pt e Hpts Hpt Hbad) as [e1 He1].
  destruct (validate_payload_raise top dn blocks (PDict b) e1 Hdata Hmetrics Hb He1)
    as [e2 He2].
  destruct (webhook_rejected user_id (PDict top) now w e2 He2) as [e3 ->].
  repeat split.
Qed.

(** C2.  Submitting a valid common-metric body a second time leaves
    the servers as the first submission left them: the same rows, the
    same number of rows, and every row that was there before either
    submission still there with its first-written content, because an
    insert that returns on a natural key that is present returns the
    tables unchanged.  A data point whose insert raises is refused
    again: the second run of the insert function counts what the first
    counted, leaves the connection as the first left it and prints the
    errors of the first once more. *)
Theorem resubmission_is_idempotent
  (user_id : string) (raw : pyval) (now1 now2 : Datetime.t) (w : World)
  (payload : HealthAutoExportPayload.t) :
  validate_HealthAutoExportPayload raw = Ok payload ->
  DataNode.workouts (HealthAutoExportPayload.data payload) = [] ->
  let first := ingest.health_auto_export_webhook user_id raw now1 w in
  let second := ingest.health_auto_export_webhook user_id raw now2 (snd first) in
  servers (snd second) = servers (snd first)
  /\ (forall u db, servers (snd first) !! u = Some db ->
        exists db', servers (snd second) !! u = Some db'
                    /\ size (health_metrics db') = size (health_metrics db))
  /\ (forall u db k row, servers w !! u = Some db -> health_metrics db !! k = Some row ->
        exists db', servers (snd second) !! u = Some db'
                    /\ health_metrics db' !! k = Some row)
  /\ (forall conn conn' metric_name metric_unit ts value row,
        health_metrics (tables conn) !! (user_id, metric_name, timestamptz ts) = Some row ->
        ingest.execute_insert_health conn user_id metric_name metric_unit ts value = Ok conn' ->
        conn' = conn)
  /\ (forall conn out metrics,
        let once := ingest.insert_health_metrics (conn, out) user_id metrics in
        let twice := ingest.insert_health_metrics (snd once) user_id metrics in
        fst twice = fst once
        /\ fst (snd twice) = fst (snd once)
        /\ exists errors,
             snd (snd once) = out ++ errors /\ snd (snd twice) = out ++ errors ++ errors).
Proof.
  intros Hv Hws first second.
  assert (Hsame : servers (snd second) = servers (snd first)).
  { subst first second.
    destruct (get_db_connection w) as [conn|e] eqn:Hc.
    - apply (webhook_redelivered user_id raw now1 now2 w payload conn Hv Hc).
      rewrite Hws. constructor.
    - rewrite (webhook_unreachable user_id raw now1 w payload e Hv Hc). cbn [snd].
      by rewrite (webhook_unreachable user_id raw now2 _ payload e Hv). }
  split; [exact Hsame|]. split; [|split; [|split]].
  - intros u db Hu. rewrite Hsame. eauto.
  - intros u db k row Hu Hk. rewrite Hsame. subst first.
    destruct (webhook_keeps_rows user_id raw now1 w u db Hu) as (db' & Hu' & Hh & _).
    eauto.
  - intros [u [h s]] conn' metric_name metric_unit ts value row Hk.
    unfold ingest.execute_insert_health. cbn [tables health_metrics sleep_metrics url] in *.
    destruct (health_refusal _ _ _ _ _); [done|]. intros [= <-].
    rewrite insert_or_ignore_present; [reflexivity|by eexists].
  - intros conn out metrics once twice. subst once twice.
    rewrite !insert_health_metrics_rows. cbn [fst snd].
    rewrite insert_health_metrics_rows. cbn [fst snd].
    split; [reflexivity|]. split.
    + unfold offer_health. cbn [tables url health_metrics sleep_metrics].
      by rewrite insert_all_idempotent.
    + eexists. split; [reflexivity|]. by rewrite <- app_assoc.
Qed.

(** C8.  The discriminator of a metric block reads nothing but its
    [name]: the tag is "sleep" exactly when the block is an object whose
    name is the string [sleep_analysis], whatever its [units], and
    "common" otherwise.  A block that validates is of the model of its
    tag, every one of its data points is validated against the entry
    model of that tag, and the webhook hands the whole block to the
    insert function of that tag. *)
Theorem block_classified_by_name (v : pyval) (m : MetricUnion) :
  validate_MetricUnion v = Ok m ->
  (metric_discriminator v = "sleep"
   <-> exists d, v = PDict d /\ dict_get "name" d = Some (PStr "sleep_analysis"))
  /\ (metric_discriminator v = "sleep" \/ metric_discriminator v = "common")
  /\ (forall d units, v = PDict d ->
        metric_discriminator (PDict (dict_set "units" units d)) = metric_discriminator v)
  /\ exists d points,
       v = PDict d /\ dict_get "data" d = Some (PList points)
       /\ if String.eqb (metric_discriminator v) "sleep"
          then exists sm,
                 m = Sleep sm
                 /\ mapM validate_SleepEntry points = Ok (SleepMetric.data sm)
                 /\ forall user_id counts conn,
                      ingest.process_metric user_id (counts, conn) m
                      = let '(n, conn') :=
                          ingest.insert_sleep_metrics_from_analysis conn user_id sm in
                        (ingest.mkProcessed (ingest.metrics counts) (ingest.sleep counts + n)
                           (ingest.workouts counts), conn')
          else exists cm,
                 m = Common cm
                 /\ mapM validate_CommonPoint points = Ok (CommonMetric.data cm)
                 /\ forall user_id counts conn,
                      ingest.process_metric user_id (counts, conn) m
                      = let '(n, conn') := ingest.insert_health_metrics conn user_id [cm] in
                        (ingest.mkProcessed (ingest.metrics counts + n) (ingest.sleep counts)
                           (ingest.workouts counts), conn').
Proof.
  intros Hv. split; [apply discriminator_sleep|]. split; [apply discriminator_tags|].
  split.
  { intros d units ->. cbn. by rewrite dict_get_set_ne. }
  pose proof Hv as Hv'. unfold validate_MetricUnion in Hv.
  destruct (String.eqb (metric_discriminator v) "sleep") eqn:Ed.
  - apply bind_ok in Hv as (sm & Hsm & Hv). injection Hv as <-.
    unfold validate_SleepMetric in Hsm.
    apply bind_ok in Hsm as (d & Hd & Hsm).
    apply bind_ok in Hsm as (nv & _ & Hsm).
    apply bind_ok in Hsm as (u & _ & Hsm).
    apply bind_ok in Hsm as (uv & _ & Hsm).
    apply bind_ok in Hsm as (units & _ & Hsm).
    apply bind_ok in Hsm as (dv & Hdv & Hsm).
    apply bind_ok in Hsm as (data & Hdata & Hsm).
    injection Hsm as <-.
    destruct v; try done. cbn in Hd. injection Hd as ->.
    unfold required, of_option in Hdv. destruct (dict_get "data" d) as [dv'|] eqn:Edv; [|done].
    injection Hdv as ->. destruct dv; try done. cbn [as_list] in Hdata.
    exists d, l. split; [done|]. split; [done|].
    eexists. split; [done|]. split; [exact Hdata|].
    intros user_id counts conn. reflexivity.
  - apply bind_ok in Hv as (cm & Hcm & Hv). injection Hv as <-.
    pose proof (validate_common_name v cm Hv') as Hname.
    apply String.eqb_neq in Hname.
    unfold validate_CommonMetric in Hcm.
    apply bind_ok in Hcm as (d & Hd & Hcm).
    apply bind_ok in Hcm as (nv & _ & Hcm).
    apply bind_ok in Hcm as (name & _ & Hcm).
    apply bind_ok in Hcm as (uv & _ & Hcm).
    apply bind_ok in Hcm as (units & _ & Hcm).
    apply bind_ok in Hcm as (dv & Hdv & Hcm).
    apply bind_ok in Hcm as (data & Hdata & Hcm).
    injection Hcm as <-.
    destruct v; try done. cbn in Hd. injection Hd as ->.
    unfold required, of_option in Hdv. destruct (dict_get "data" d) as [dv'|] eqn:Edv; [|done].
    injection Hdv as ->. destruct dv; try done. cbn [as_list] in Hdata.
    exists d, l. split; [done|]. split; [done|].
    eexists. split; [done|]. split; [exact Hdata|].
    intros user_id counts conn. unfold ingest.process_metric.
    cbn [metric_name CommonMetric.name] in *. rewrite Hname. by destruct counts, conn.
Qed.

(** C10 (as amended).  The counts of the response count the insert
    calls that returned, whether or not the row was new: a record is
    counted exactly when its insert returns, and a counted record has a
    row at its natural key after the call.  When the workouts of a body
    all carry a start time, its second delivery reports the counts of
    the first although the servers hold after it exactly what they held
    before it. *)
Theorem processed_counts_attempts
  (user_id : string) (raw : pyval) (now1 now2 : Datetime.t) (w : World)
  (payload : HealthAutoExportPayload.t) (conn : Connection) :
  validate_HealthAutoExportPayload raw = Ok payload ->
  get_db_connection w = Ok conn ->
  Forall (fun wk => is_Some (HAEWorkout.start wk))
    (DataNode.workouts (HealthAutoExportPayload.data payload)) ->
  let data := HealthAutoExportPayload.data payload in
  let first := ingest.health_auto_export_webhook user_id raw now1 w in
  let second := ingest.health_auto_export_webhook user_id raw now2 (snd first) in
  ingest.WebhookResponse.processed (fst second) = ingest.WebhookResponse.processed (fst first)
  /\ servers (snd second) = servers (snd first)
  /\ ingest.WebhookResponse.processed (fst first)
     = ingest.mkProcessed
         (length (ingest.taken_points conn user_id (DataNode.metrics data)))
         (length (ingest.taken_entries conn user_id (DataNode.metrics data)))
         (length (List.filter (ingest.workout_taken conn user_id now1)
                    (DataNode.workouts data)))
  /\ (forall cm p,
        In (Common cm) (DataNode.metrics data) ->
        In p (CommonMetric.data cm) ->
        ingest.point_taken conn user_id cm p = true ->
        exists db',
          servers (snd first) !! url conn = Some db'
          /\ is_Some (health_metrics db'
                      !! (user_id, CommonMetric.name cm, timestamptz (CommonPoint.date p))))
  /\ (forall sm e,
        In (Sleep sm) (DataNode.metrics data) ->
        In e (SleepMetric.data sm) ->
        ingest.entry_taken conn user_id e = true ->
        exists db',
          servers (snd first) !! url conn = Some db'
          /\ is_Some (sleep_metrics db' !! (user_id, timestamptz (SleepEntry.sleepStart e))))
  /\ (forall workout start,
        In workout (DataNode.workouts data) ->
        HAEWorkout.start workout = Some start ->
        ingest.workout_taken conn user_id now1 workout = true ->
        exists db',
          servers (snd first) !! url conn = Some db'
          /\ is_Some (health_metrics db' !! (user_id, "workout", timestamptz start))).
Proof.
  intros Hv Hc Hstart data first second.
  destruct (webhook_redelivered user_id raw now1 now2 w payload conn Hv Hc Hstart)
    as (Hcounts & Hfirst & Hservers).
  fold first in Hcounts, Hfirst, Hservers. fold second in Hcounts, Hservers.
  split; [exact Hcounts|]. split; [exact Hservers|]. split.
  - rewrite Hfirst. unfold payload_counts, payload_sleep_rows. fold data. f_equal.
    + apply health_rows_count. by apply validate_payload_validated with raw.
    + apply sleep_rows_count.
    + apply workout_rows_count.
  - split; [|split].
    + intros cm p Hcm Hp Htaken.
      by apply (accepted_call_covers_point user_id raw now1 w payload conn cm p).
    + intros sm e Hsm He Htaken.
      by apply (accepted_call_covers_entry user_id raw now1 w payload conn sm e).
    + intros workout start Hw Hs Htaken.
      destruct (accepted_call_covers_workout user_id raw now1 w payload conn workout
                  Hv Hc Hw Htaken) as (db' & Hdb' & Hrow).
      rewrite Hs in Hrow. eauto.
Qed.

End IngestClaims.

(** ** The timestamp parsers raise nothing but ValueError *)

Lemma only_ValueError_ok {A : Type} (a : A) : only_ValueError (Ok a).
Proof. intros e He. discriminate. Qed.

Lemma only_ValueError_raise {A : Type} : only_ValueError (@Raise A ValueError).
Proof. intros e He. by injection He. Qed.

Lemma only_ValueError_bind {A B : Type} (r : result A) (k : A -> result B) :
  only_ValueError r -> (forall a, only_ValueError (k a)) -> only_ValueError (bind r k).
Proof.
  intros Hr Hk e He. destruct r as [a|e0]; cbn in He.
  - by apply (Hk a).
  - apply Hr. congruence.
Qed.

Lemma int_of_only_ValueError l : only_ValueError (Str.int_of l).
Proof.
  unfold Str.int_of. destruct l; [apply only_ValueError_raise|].
  destruct (forallb _ _); [apply only_ValueError_ok|apply only_ValueError_raise].
Qed.

Lemma timezone_only_ValueError off : only_ValueError (Datetime.timezone off).
Proof.
  unfold Datetime.timezone.
  destruct (_ && _); [apply only_ValueError_ok|apply only_ValueError_raise].
Qed.

Lemma new_only_ValueError y m d hh mi ss us tz :
  only_ValueError (Datetime.new y m d hh mi ss us tz).
Proof.
  unfold Datetime.new.
  match goal with |- only_ValueError (if ?c then _ else _) => destruct c end;
    [apply only_ValueError_ok|apply only_ValueError_raise].
Qed.

Lemma group_int_only_ValueError k default g :
  only_ValueError (Datetime.group_int k default g).
Proof.
  unfold Datetime.group_int.
  destruct (Datetime.group k g); [apply int_of_only_ValueError|apply only_ValueError_ok].
Qed.

Lemma signed_gmtoff_only_ValueError z : only_ValueError (Datetime.signed_gmtoff z).
Proof.
  unfold Datetime.signed_gmtoff. apply only_ValueError_bind.
  - destruct (Ascii.eqb _ _); [|apply only_ValueError_ok].
    cbv zeta. destruct (_ <? _)%nat; [|apply only_ValueError_ok].
    destruct (Ascii.eqb _ _); [apply only_ValueError_ok|apply only_ValueError_raise].
  - intros z1. apply only_ValueError_bind; [apply int_of_only_ValueError|intros hours].
    apply only_ValueError_bind; [apply int_of_only_ValueError|intros minutes].
    apply only_ValueError_bind; [|intros seconds].
    { destruct (Str.slice 5 7 z1); [apply only_ValueError_ok|apply int_of_only_ValueError]. }
    cbv zeta. apply only_ValueError_bind; [apply int_of_only_ValueError|intros fraction].
    apply only_ValueError_ok.
Qed.

Lemma gmtoff_only_ValueError z : only_ValueError (Datetime.gmtoff z).
Proof.
  unfold Datetime.gmtoff.
  destruct (String.eqb _ _); [apply only_ValueError_ok|apply signed_gmtoff_only_ValueError].
Qed.

Lemma strptime_only_ValueError s fmt : only_ValueError (Datetime.strptime s fmt).
Proof.
  unfold Datetime.strptime.
  destruct (_ ≫= _) as [re|]; [|apply only_ValueError_raise].
  destruct (re (Str.chars s)) as [|[g [|c rest]] ms];
    try apply only_ValueError_raise.
  repeat (apply only_ValueError_bind; [|intros ?]);
    try apply group_int_only_ValueError; try apply new_only_ValueError.
  destruct (Datetime.group "z" g) as [z|]; [|apply only_ValueError_ok].
  apply only_ValueError_bind; [apply gmtoff_only_ValueError|]. intros off.
  apply only_ValueError_bind; [apply timezone_only_ValueError|]. intros o.
  apply only_ValueError_ok.
Qed.

(** ** The claims about single functions *)

(** C3 (as amended).  A string is first parsed against the fixed
    format; when that attempt fails, whatever the failure, it is parsed
    as ISO-8601 after every [Z] in it, trailing or not, has been replaced
    by [+00:00].  A value that is not a string is returned unchanged.
    The string [2025-06-25 00:00:00 +0200] and the ISO string
    [2025-06-24T22:00:00Z] normalise to the same instant. *)
Theorem timestamp_normalisation (s : string) (v : pyval) :
  parse_swift_datetime (PStr s)
  = match Datetime.strptime s SWIFT_FORMAT with
    | Ok d => Ok (PDatetime d)
    | Raise _ =>
        let* d := Datetime.fromisoformat (Str.replace "Z" "+00:00" s) in Ok (PDatetime d)
    end
  /\ ((forall s', v <> PStr s') -> parse_swift_datetime v = Ok v)
  /\ exists d1 d2,
       parse_swift_datetime (PStr "2025-06-25 00:00:00 +0200") = Ok (PDatetime d1)
       /\ parse_swift_datetime (PStr "2025-06-24T22:00:00Z") = Ok (PDatetime d2)
       /\ Datetime.utc_micros d1 = Datetime.utc_micros d2
       /\ Datetime.eqb d1 d2 = true.
Proof.
  split; [|split].
  - unfold parse_swift_datetime.
    pose proof (strptime_only_ValueError s SWIFT_FORMAT) as Hs.
    destruct (Datetime.strptime s SWIFT_FORMAT) as [d|e]; [reflexivity|].
    by rewrite (Hs e eq_refl).
  - intros Hv. destruct v; try reflexivity. by destruct (Hv s0).
  - exists (Datetime.mk 2025 6 25 0 0 0 0 (Some 7200000000%Z)),
           (Datetime.mk 2025 6 24 22 0 0 0 (Some 0%Z)).
    repeat split; vm_compute; reflexivity.
Qed.

Section FunctionClaims.
Context `{Platform}.

(** *** Calories *)

Lemma fold_add_qty_raise series e : fold_left add_qty series (Raise e) = Raise e.
Proof. induction series as [|p series IH]; [done|exact IH]. Qed.

Lemma fold_add_qty series total :
  fold_left add_qty series (Ok total) = ingest.sum_qty total series.
Proof.
  revert total. induction series as [|p series IH]; intros total; [done|].
  cbn [fold_left ingest.sum_qty]. unfold add_qty at 2. cbn [bind].
  destruct (dict_get "qty" p) as [q|]; [|apply IH].
  destruct (py_add total q) as [t|e]; cbn [bind]; [apply IH|apply fold_add_qty_raise].
Qed.

Lemma sum_qty_ints series zs t :
  Forall2 (fun p z => dict_get "qty" p = Some (PInt z)) series zs ->
  ingest.sum_qty (PInt t) series = Ok (PInt (t + fold_right Z.add 0%Z zs)).
Proof.
  intros Hall. revert t. induction Hall as [|p z series zs Hp Hall IH]; intros t.
  - cbn. by rewrite Z.add_0_r.
  - cbn [ingest.sum_qty fold_right]. rewrite Hp. cbn [py_add bind].
    rewrite IH. do 2 f_equal. lia.
Qed.

(** C4 (as amended).  The calories of a workout are the [qty] of
    [activeEnergyBurned] (0 when that object has no [qty]) when the
    field is a non-empty object; otherwise the sum of the [qty] of the
    points of [activeEnergy] that have one, when that field is present;
    otherwise 0.  This is the specification's rule except at an empty
    [activeEnergyBurned] object, which does not decide and leaves the
    series to be summed.  A series of integer quantities sums to their
    integer sum. *)
Theorem calories_extraction (workout : HAEWorkout.t) :
  (HAEWorkout.activeEnergyBurned workout <> Some [] ->
   ingest.total_calories workout = ingest.spec_total_calories workout)
  /\ (forall burned, HAEWorkout.activeEnergyBurned workout = Some burned -> burned <> [] ->
        ingest.total_calories workout
        = Ok (match dict_get "qty" burned with Some q => q | None => PInt 0 end))
  /\ (HAEWorkout.activeEnergyBurned workout = None
      \/ HAEWorkout.activeEnergyBurned workout = Some [] ->
      ingest.total_calories workout
      = match HAEWorkout.activeEnergy workout with
        | Some series => ingest.sum_qty (PInt 0) series
        | None => Ok (PInt 0)
        end)
  /\ (forall series zs,
        HAEWorkout.activeEnergyBurned workout = None ->
        HAEWorkout.activeEnergy workout = Some series ->
        Forall2 (fun p z => dict_get "qty" p = Some (PInt z)) series zs ->
        ingest.total_calories workout = Ok (PInt (fold_right Z.add 0%Z zs))).
Proof.
  assert (Hseries :
    match HAEWorkout.activeEnergy workout with
    | Some ((_ :: _) as series) => fold_left add_qty series (Ok (PInt 0))
    | _ => Ok (PInt 0)
    end
    = match HAEWorkout.activeEnergy workout with
      | Some series => ingest.sum_qty (PInt 0) series
      | None => Ok (PInt 0)
      end).
  { destruct (HAEWorkout.activeEnergy workout) as [[|p series]|]; try reflexivity.
    apply fold_add_qty. }
  assert (Hrest :
    HAEWorkout.activeEnergyBurned workout = None
    \/ HAEWorkout.activeEnergyBurned workout = Some [] ->
    ingest.total_calories workout
    = match HAEWorkout.activeEnergy workout with
      | Some series => ingest.sum_qty (PInt 0) series
      | None => Ok (PInt 0)
      end).
  { intros Hb. unfold ingest.total_calories. fold add_qty.
    destruct Hb as [-> | ->]; exact Hseries. }
  split; [|split; [|split]].
  - intros Hne. unfold ingest.total_calories, ingest.spec_total_calories. fold add_qty.
    destruct (HAEWorkout.activeEnergyBurned workout) as [[|kv burned]|]; [done|done|].
    rewrite Hseries.
    destruct (HAEWorkout.activeEnergy workout) as [series|]; [|done].
    symmetry. apply fold_add_qty.
  - intros burned Hb Hne. unfold ingest.total_calories. rewrite Hb.
    by destruct burned.
  - exact Hrest.
  - intros series zs Hb Hs Hall. rewrite Hrest by (by left). rewrite Hs.
    by rewrite (sum_qty_ints series zs 0 Hall).
Qed.

(** *** Workouts without calories *)

(** C5 (as amended).  A workout whose calories compare as not above
    0, and whose duration computes without an exception, changes
    nothing: no row, no count, no printed error. *)
Theorem zero_calorie_workout_skipped
  (user_id : string) (now : Datetime.t) (workout : HAEWorkout.t)
  (n : nat) (conn : ingest.state) (calories minutes : pyval) :
  ingest.total_calories workout = Ok calories ->
  py_gt_zero calories = Ok false ->
  ingest.duration_minutes workout = Ok minutes ->
  ingest.insert_workout_step user_id now (n, conn) workout = (n, conn).
Proof.
  intros Hc Hz Hd. destruct conn as [c out].
  unfold ingest.insert_workout_step, ingest.insert_workout.
  rewrite Hc. cbn [bind]. rewrite Hd. cbn [bind]. rewrite Hz. reflexivity.
Qed.

(** *** Sleep *)

(** The row a sleep entry leaves in a table that had none at its key. *)
Lemma insert_sleep_entry_stored conn conn' user_id e :
  ingest.insert_sleep_entry conn user_id e = Ok conn' ->
  sleep_metrics (tables conn) !! (user_id, timestamptz (SleepEntry.sleepStart e)) = None ->
  exists row,
    ingest.sleep_row user_id e = Ok ((user_id, timestamptz (SleepEntry.sleepStart e)), row)
    /\ sleep_metrics (tables conn') !! (user_id, timestamptz (SleepEntry.sleepStart e))
       = Some row.
Proof.
  rewrite insert_sleep_entry_row. intros Hi Hfresh.
  apply bind_ok in Hi as ([k row] & Hrow & Hi). injection Hi as <-.
  destruct (sleep_row_fields user_id e k row Hrow) as (-> & _).
  exists row. split; [done|].
  unfold offer_sleep, ingest.insert_all. cbn. by apply insert_or_ignore_fresh.
Qed.









(** C7 (as amended).  The stored in-bed minutes are
    [int((sleepEnd - sleepStart).total_seconds() / 60)]: the elapsed
    minutes with the fraction dropped, not rounded to the nearest
    integer. *)
Theorem in_bed_minutes_truncated (conn conn' : Connection) (user_id : string)
  (e : SleepEntry.t) :
  ingest.insert_sleep_entry conn user_id e = Ok conn' ->
  sleep_metrics (tables conn) !! (user_id, timestamptz (SleepEntry.sleepStart e)) = None ->
  exists row td seconds,
    sleep_metrics (tables conn') !! (user_id, timestamptz (SleepEntry.sleepStart e)) = Some row
    /\ Datetime.sub (SleepEntry.sleepEnd e) (SleepEntry.sleepStart e) = Ok td
    /\ Datetime.total_seconds td = Ok seconds
    /\ Float.to_int (Float.div seconds (Float.of_Z 60))
       = Ok (SleepRow.duration_in_bed_minutes row).
Proof.
  intros Hi Hfresh.
  destruct (insert_sleep_entry_stored conn conn' user_id e Hi Hfresh) as (row & Hrow & Hl).
  destruct (sleep_row_fields user_id e _ row Hrow) as (_ & _ & _ & _ & _ & _ & _ & Hbed & _).
  unfold ingest.total_time_in_bed in Hbed.
  apply bind_ok in Hbed as (td & Htd & Hbed).
  apply bind_ok in Hbed as (seconds & Hsec & Hbed).
  apply bind_ok in Hbed as (minutes & Hmin & Hbed).
  unfold Float.truediv in Hmin. cbn in Hmin. injection Hmin as <-.
  by exists row, td, seconds.
Qed.

End FunctionClaims.

(** ** The claim about the range query *)

Section QueryClaims.
Context `{Platform}.

Lemma run_queries_raises metric user_id from_date to_date limit w e :
  metrics.run_queries metric user_id from_date to_date limit w = Raise e ->
  e = HTTPException 500.
Proof.
  unfold metrics.run_queries.
  match goal with |- match ?b with _ => _ end = _ -> _ => destruct b end; [done|].
  intros He. by injection He.
Qed.

Lemma comparable_bounds from_date to_date :
  (is_Some (Datetime.tzinfo from_date) <-> is_Some (Datetime.tzinfo to_date)) ->
  exists b, Datetime.ge from_date to_date = Ok b /\ Datetime.lt from_date to_date = Ok (negb b).
Proof.
  intros Hlike. unfold Datetime.ge, Datetime.lt, Datetime.cmp, Datetime.sub.
  destruct (Datetime.tzinfo from_date) as [o1|], (Datetime.tzinfo to_date) as [o2|]; cbn [bind].
  - match goal with |- context [Z.compare ?d 0] => destruct (Z.compare d 0) end; eauto.
  - exfalso. destruct Hlike as [Hlike _]. by destruct (Hlike (ex_intro _ o1 eq_refl)).
  - exfalso. destruct Hlike as [_ Hlike]. by destruct (Hlike (ex_intro _ o2 eq_refl)).
  - match goal with |- context [Z.compare ?d 0] => destruct (Z.compare d 0) end; eauto.
Qed.

(** C9 (as amended).  With both bounds given, both of them carrying a
    UTC offset or neither of them, the comparison [from >= to] has an
    answer, and [from < to] the opposite one; the request is refused
    with status 400 when [from >= to], and goes on to the querying
    stage, whose only failure is a 500, when [from < to]. *)
Theorem date_range_gate (metric : metrics.MetricType) (user : metrics.AuthorizedUser)
  (from_date to_date : Datetime.t) (limit : Z) (w : World) :
  (is_Some (Datetime.tzinfo from_date) <-> is_Some (Datetime.tzinfo to_date)) ->
  let answer :=
    metrics.get_metrics metric (Some user) (Some from_date) (Some to_date) limit w in
  exists b,
    Datetime.ge from_date to_date = Ok b
    /\ Datetime.lt from_date to_date = Ok (negb b)
    /\ (b = true -> answer = Raise (HTTPException 400))
    /\ (b = false ->
        answer
        = metrics.run_queries metric (metrics.sub user) (Some from_date) (Some to_date) limit w
        /\ forall status, answer = Raise (HTTPException status) -> status = 500%Z).
Proof.
  intros Hlike answer. destruct (comparable_bounds from_date to_date Hlike) as (b & Hge & Hlt).
  exists b. split; [exact Hge|]. split; [exact Hlt|]. subst answer.
  unfold metrics.get_metrics. rewrite Hge. cbn [bind]. split; intros ->; [reflexivity|].
  split; [reflexivity|]. intros status Hs.
  apply run_queries_raises in Hs. by injection Hs.
Qed.

End QueryClaims.

(** * Further properties of the handlers *)

(** ** Sizes and origins of the rows of a table *)

Section InsertAllFacts.
Context {K V : Type} `{Countable K}.
Implicit Types (m : gmap K V) (k : K) (v : V) (rows : list (K * V)).

Lemma insert_or_ignore_size m k v :
  size m <= size (insert_or_ignore k v m) <= S (size m).
Proof.
  unfold insert_or_ignore. destruct (m !! k) eqn:E; [lia|].
  rewrite map_size_insert_None by done. lia.
Qed.

Lemma insert_all_size rows m :
  size m <= size (ingest.insert_all rows m) <= size m + length rows.
Proof.
  revert m. induction rows as [|[k v] rows IH]; intros m; cbn; [lia|].
  specialize (IH (insert_or_ignore k v m)). unfold ingest.insert_all in IH.
  pose proof (insert_or_ignore_size m k v). lia.
Qed.

Lemma insert_or_ignore_origin m k v k' x :
  insert_or_ignore k v m !! k' = Some x -> m !! k' = Some x \/ (k' = k /\ x = v).
Proof.
  unfold insert_or_ignore. destruct (m !! k) eqn:E; [auto|].
  destruct (decide (k = k')) as [<-|Hne].
  - rewrite lookup_insert_eq. intros [= <-]. auto.
  - rewrite lookup_insert_ne by done. auto.
Qed.

Lemma insert_all_origin rows m k x :
  ingest.insert_all rows m !! k = Some x -> m !! k = Some x \/ In (k, x) rows.
Proof.
  revert m. induction rows as [|[k0 v0] rows IH]; intros m Hl; [by left|].
  cbn in Hl. apply IH in Hl as [Hl|Hin]; [|right; by right].
  apply insert_or_ignore_origin in Hl as [Hl|[-> ->]]; [by left|right; by left].
Qed.

End InsertAllFacts.

Section WebhookCalls.
Context `{Platform}.

(** *** Outcome of a call *)

(** X1.  The call succeeds exactly when the body validates and the
    connection opens; a failed call reports all counts 0 under the hash
    "error" and leaves every server as it was; a successful call
    reports under the hash "success". *)
Theorem webhook_outcome (user_id : string) (raw : pyval) (now : Datetime.t) (w : World) :
  let r := ingest.health_auto_export_webhook user_id raw now w in
  (ingest.WebhookResponse.success (fst r) = true
   <-> exists payload conn,
         validate_HealthAutoExportPayload raw = Ok payload /\ get_db_connection w = Ok conn)
  /\ (ingest.WebhookResponse.success (fst r) = false ->
      ingest.WebhookResponse.processed (fst r) = ingest.mkProcessed 0 0 0
      /\ ingest.WebhookResponse.request_hash (fst r) = "error"
      /\ servers (snd r) = servers w)
  /\ (ingest.WebhookResponse.success (fst r) = true ->
      ingest.WebhookResponse.request_hash (fst r) = "success"
      /\ ingest.WebhookResponse.message_ (fst r) = ingest.Successfully_processed user_id).
Proof.
  cbv zeta.
  destruct (validate_HealthAutoExportPayload raw) as [payload|e] eqn:Hv.
  - destruct (get_db_connection w) as [conn|e] eqn:Hc.
    + rewrite (webhook_accepted user_id raw now w payload conn Hv Hc). cbn.
      split; [split; eauto|]. split; [done|]. done.
    + rewrite (webhook_unreachable user_id raw now w payload e Hv Hc). cbn.
      split; [split; [done|]|].
      * intros (p & c & _ & Hc'). discriminate.
      * split; done.
  - destruct (webhook_rejected user_id raw now w e Hv) as [e' ->]. cbn.
    split; [split; [done|]|].
    + intros (p & c & Hv' & _). discriminate.
    + split; done.
Qed.

(** X2.  No call removes or overwrites a row: whatever a server held
    in either table before the call, it holds after it, and no server
    disappears. *)
Theorem webhook_never_overwrites (user_id : string) (raw : pyval) (now : Datetime.t)
  (w : World) (u : string) (db : Database) :
  servers w !! u = Some db ->
  exists db',
    servers (snd (ingest.health_auto_export_webhook user_id raw now w)) !! u = Some db'
    /\ (forall k row, health_metrics db !! k = Some row -> health_metrics db' !! k = Some row)
    /\ (forall k row, sleep_metrics db !! k = Some row -> sleep_metrics db' !! k = Some row).
Proof. apply webhook_keeps_rows. Qed.

(** *** Rows written by a successful call *)

Lemma health_rows_user user_id cm kr :
  In kr (ingest.health_rows user_id cm) ->
  fst (fst (fst kr)) = user_id /\ snd (fst (fst kr)) = CommonMetric.name cm.
Proof.
  unfold ingest.health_rows. rewrite oks_In, in_map_iff. intros (p & Hrow & _).
  unfold ingest.health_row in Hrow. destruct (health_refusal _ _ _ _ _); [done|].
  by injection Hrow as <-.
Qed.

Lemma workout_rows_In user_id now ws kr :
  In kr (ingest.workout_rows user_id now ws) ->
  exists workout, In workout ws /\ ingest.workout_row user_id now workout = Ok (Some kr).
Proof.
  unfold ingest.workout_rows. rewrite omap_id_In, oks_In, in_map_iff.
  intros (workout & Hr & Hin). eauto.
Qed.

Lemma payload_health_rows_user user_id now payload kr :
  In kr (payload_health_rows user_id now payload) -> fst (fst (fst kr)) = user_id.
Proof.
  unfold payload_health_rows. rewrite in_app_iff, in_flat_map.
  intros [(m & _ & Hin)|Hin].
  - destruct m as [cm|sm]; [|done]. cbn in Hin.
    destruct (String.eqb _ _); [done|]. by apply health_rows_user in Hin as [? _].
  - apply workout_rows_In in Hin as (workout & _ & Hr).
    by apply workout_row_key in Hr as (c & _ & _ & ->).
Qed.

Lemma sleep_row_user user_id e kr :
  ingest.sleep_row user_id e = Ok kr -> fst (fst kr) = user_id.
Proof.
  destruct kr as [k row]. intros Hr.
  by destruct (sleep_row_fields user_id e k row Hr) as (-> & _).
Qed.

Lemma payload_sleep_rows_user user_id payload kr :
  In kr (payload_sleep_rows user_id payload) -> fst (fst kr) = user_id.
Proof.
  unfold payload_sleep_rows. rewrite in_flat_map. intros (m & _ & Hin).
  destruct m as [cm|sm]; [done|]. cbn in Hin.
  apply oks_In, in_map_iff in Hin as (e & He & _). by apply sleep_row_user in He.
Qed.

(** X3.  A call writes rows of the user of its URL only: a row that a
    server holds after the call and did not hold before it is keyed by
    that user, in both tables. *)
Theorem webhook_writes_own_rows (user_id : string) (raw : pyval) (now : Datetime.t)
  (w : World) (u : string) (db db' : Database) :
  servers w !! u = Some db ->
  servers (snd (ingest.health_auto_export_webhook user_id raw now w)) !! u = Some db' ->
  (forall k row, health_metrics db' !! k = Some row ->
     health_metrics db !! k = Some row \/ fst (fst k) = user_id)
  /\ (forall k row, sleep_metrics db' !! k = Some row ->
        sleep_metrics db !! k = Some row \/ fst k = user_id).
Proof.
  intros Hu.
  destruct (validate_HealthAutoExportPayload raw) as [payload|e] eqn:Hv.
  - destruct (get_db_connection w) as [conn|e] eqn:Hc.
    + rewrite (webhook_accepted user_id raw now w payload conn Hv Hc). cbn [snd servers].
      destruct (decide (url conn = u)) as [<-|Hne].
      * rewrite lookup_insert_eq. intros [= <-].
        apply get_db_connection_lookup in Hc. rewrite Hc in Hu. injection Hu as <-.
        unfold offer_sleep, offer_health. cbn [tables health_metrics sleep_metrics].
        split; intros k row Hk; apply insert_all_origin in Hk as [Hk|Hin]; auto; right.
        -- by apply payload_health_rows_user in Hin.
        -- by apply payload_sleep_rows_user in Hin.
      * rewrite lookup_insert_ne by done. rewrite Hu. intros [= <-]. auto.
    + rewrite (webhook_unreachable user_id raw now w payload e Hv Hc). cbn.
      rewrite Hu. intros [= <-]. auto.
  - destruct (webhook_rejected user_id raw now w e Hv) as [e' ->]. cbn.
    rewrite Hu. intros [= <-]. auto.
Qed.

(** X4.  The counts of a successful call bound the rows it adds: the
    rows of [health_metrics] grow by at most the metrics count plus the
    workouts count, those of [sleep_metrics] by at most the sleep count,
    and neither table shrinks. *)
Theorem webhook_counts_bound_new_rows (user_id : string) (raw : pyval) (now : Datetime.t)
  (w : World) (payload : HealthAutoExportPayload.t) (conn : Connection) :
  validate_HealthAutoExportPayload raw = Ok payload ->
  get_db_connection w = Ok conn ->
  let r := ingest.health_auto_export_webhook user_id raw now w in
  let counts := ingest.WebhookResponse.processed (fst r) in
  exists db',
    servers (snd r) !! url conn = Some db'
    /\ size (health_metrics (tables conn)) <= size (health_metrics db')
       <= size (health_metrics (tables conn)) + (ingest.metrics counts + ingest.workouts counts)
    /\ size (sleep_metrics (tables conn)) <= size (sleep_metrics db')
       <= size (sleep_metrics (tables conn)) + ingest.sleep counts.
Proof.
  intros Hv Hc. cbv zeta.
  rewrite (webhook_accepted user_id raw now w payload conn Hv Hc).
  cbn [fst snd servers ingest.WebhookResponse.processed].
  rewrite lookup_insert_eq. eexists. split; [reflexivity|].
  unfold offer_sleep, offer_health, payload_counts.
  cbn [tables health_metrics sleep_metrics ingest.metrics ingest.sleep ingest.workouts].
  split.
  - pose proof (insert_all_size (payload_health_rows user_id now payload)
                  (health_metrics (tables conn))) as Hs.
    unfold payload_health_rows in Hs at 3. rewrite length_app in Hs. exact Hs.
  - apply insert_all_size.
Qed.

(** X5.  After a successful call every data point of a common block
    whose insert returns has a row at its natural key, and every data
    point whose insert raises has its error printed. *)
Theorem webhook_stores_every_point (user_id : string) (raw : pyval) (now : Datetime.t)
  (w : World) (payload : HealthAutoExportPayload.t) (conn : Connection)
  (cm : CommonMetric.t) (p : CommonPoint.t) :
  validate_HealthAutoExportPayload raw = Ok payload ->
  get_db_connection w = Ok conn ->
  In (Common cm) (DataNode.metrics (HealthAutoExportPayload.data payload)) ->
  In p (CommonMetric.data cm) ->
  let r := ingest.health_auto_export_webhook user_id raw now w in
  let insert :=
    ingest.execute_insert_health conn user_id (CommonMetric.name cm) (CommonMetric.units cm)
      (CommonPoint.date p) (PFloat (CommonPoint.qty p)) in
  (is_ok insert = true ->
   exists db',
     servers (snd r) !! url conn = Some db'
     /\ is_Some (health_metrics db'
                 !! (user_id, CommonMetric.name cm, timestamptz (CommonPoint.date p))))
  /\ (forall e, insert = Raise e ->
        In (HealthMetricError (CommonMetric.name cm) user_id e) (printed (snd r))).
Proof.
  intros Hv Hc Hcm Hp r insert. split.
  - intros Htaken.
    by apply (accepted_call_covers_point user_id raw now w payload conn cm p).
  - intros e Hrefused.
    by apply (accepted_call_prints_refusal user_id raw now w payload conn cm p e).
Qed.

End WebhookCalls.

Section StoredRecords.
Context `{Platform}.

(** *** Isolation of a record that fails while it is written *)

Lemma insert_sleep_entry_raise conn user_id e err :
  ingest.insert_sleep_entry conn user_id e = Raise err ->
  ingest.sleep_row user_id e = Raise err.
Proof.
  rewrite insert_sleep_entry_row.
  destruct (ingest.sleep_row user_id e) as [kr|err']; [done|]. cbn. congruence.
Qed.

Lemma oks_app {A : Type} (l1 l2 : list (result A)) :
  ingest.oks (l1 ++ l2) = ingest.oks l1 ++ ingest.oks l2.
Proof.
  induction l1 as [|[a|e] l1 IH]; [done| |].
  - cbn [app]. by rewrite !oks_ok, IH.
  - cbn [app]. by rewrite !oks_raise, IH.
Qed.

Lemma raised_In {A : Type} ev (l : list (result A)) (e : exn) :
  In (Raise e) l -> In (ev e) (ingest.raised ev l).
Proof.
  induction l as [|[a|e'] l IH]; [done| |].
  - rewrite raised_ok. intros [Hx|Hl]; [done|auto].
  - rewrite raised_raise. intros [Hx|Hl]; [left; congruence|right; auto].
Qed.

(** X6.  A sleep entry whose values cannot be computed is skipped
    and printed, and stops nothing: the entries before and after it are
    counted and reach the table exactly as if it had not been there. *)
Theorem sleep_entry_failure_is_isolated (conn : Connection) (out : list event)
  (user_id units : string) (before after : list SleepEntry.t) (bad : SleepEntry.t)
  (err : exn) :
  ingest.insert_sleep_entry conn user_id bad = Raise err ->
  let with_bad :=
    ingest.insert_sleep_metrics_from_analysis (conn, out) user_id
      (SleepMetric.mk units (before ++ bad :: after)) in
  let without :=
    ingest.insert_sleep_metrics_from_analysis (conn, out) user_id
      (SleepMetric.mk units (before ++ after)) in
  fst with_bad = fst without
  /\ fst (snd with_bad) = fst (snd without)
  /\ In (SleepError user_id err) (snd (snd with_bad)).
Proof.
  intros Hbad. apply insert_sleep_entry_raise in Hbad. cbv zeta.
  rewrite !insert_sleep_metrics_rows.
  cbn [fst snd ingest.metric_sleep_rows ingest.metric_events SleepMetric.data].
  rewrite !map_app. cbn [map]. rewrite Hbad, !oks_app, oks_raise.
  repeat split. apply in_or_app. right. apply raised_In.
  apply in_or_app. right. by left.
Qed.

Lemma insert_workout_raise conn user_id now workout err :
  ingest.insert_workout conn user_id now workout = Raise err ->
  ingest.workout_row user_id now workout = Raise err.
Proof.
  rewrite insert_workout_row.
  destruct (ingest.workout_row user_id now workout) as [o|err']; [done|]. cbn. congruence.
Qed.

(** X7.  A workout that raises is skipped and printed, and stops
    nothing: the workouts before and after it are counted and written
    exactly as if it had not been there. *)
Theorem workout_failure_is_isolated (conn : Connection) (out : list event)
  (user_id : string) (now : Datetime.t) (before after : list HAEWorkout.t)
  (bad : HAEWorkout.t) (err : exn) :
  ingest.insert_workout conn user_id now bad = Raise err ->
  let with_bad := ingest.insert_workout_metrics (conn, out) user_id now (before ++ bad :: after) in
  let without := ingest.insert_workout_metrics (conn, out) user_id now (before ++ after) in
  fst with_bad = fst without
  /\ fst (snd with_bad) = fst (snd without)
  /\ In (WorkoutError user_id err) (snd (snd with_bad)).
Proof.
  intros Hbad. apply insert_workout_raise in Hbad. cbv zeta.
  rewrite !insert_workout_metrics_rows. cbn [fst snd].
  unfold ingest.workout_rows. rewrite !map_app. cbn [map]. rewrite Hbad, !oks_app, oks_raise.
  repeat split. apply in_or_app. right. apply raised_In.
  apply in_or_app. right. by left.
Qed.

(** *** The columns of a stored sleep session *)

(** X8.  A sleep entry written at a free key is stored with its end
    time, with [int(hours * 60)] for each of its total, awake, deep and
    REM hours, and with the minutes of its core hours in the light
    column; the health table is not touched. *)
Theorem sleep_columns (conn conn' : Connection) (user_id : string) (e : SleepEntry.t) :
  ingest.insert_sleep_entry conn user_id e = Ok conn' ->
  sleep_metrics (tables conn) !! (user_id, timestamptz (SleepEntry.sleepStart e)) = None ->
  exists row,
    sleep_metrics (tables conn') !! (user_id, timestamptz (SleepEntry.sleepStart e)) = Some row
    /\ SleepRow.end_time row = timestamptz (SleepEntry.sleepEnd e)
    /\ Float.to_int (Float.mul (SleepEntry.totalSleep e) (Float.of_Z 60))
       = Ok (SleepRow.duration_total_minutes row)
    /\ Float.to_int (Float.mul (SleepEntry.awake e) (Float.of_Z 60))
       = Ok (SleepRow.duration_awake_minutes row)
    /\ Float.to_int (Float.mul (SleepEntry.core e) (Float.of_Z 60))
       = Ok (SleepRow.duration_light_minutes row)
    /\ Float.to_int (Float.mul (SleepEntry.deep e) (Float.of_Z 60))
       = Ok (SleepRow.duration_deep_minutes row)
    /\ Float.to_int (Float.mul (SleepEntry.rem e) (Float.of_Z 60))
       = Ok (SleepRow.duration_rem_minutes row)
    /\ health_metrics (tables conn') = health_metrics (tables conn)
    /\ url conn' = url conn.
Proof.
  intros Hi Hfresh.
  destruct (insert_sleep_entry_stored conn conn' user_id e Hi Hfresh) as (row & Hrow & Hl).
  destruct (sleep_row_fields user_id e _ row Hrow)
    as (_ & Hend & Htotal & Hawake & Hcore & Hdeep & Hrem & _).
  exists row. repeat split; try assumption.
  - rewrite insert_sleep_entry_row, Hrow in Hi. cbn in Hi. by injection Hi as <-.
  - rewrite insert_sleep_entry_row, Hrow in Hi. cbn in Hi. by injection Hi as <-.
Qed.

(** X9.  A sleep entry whose start is already stored for the user
    changes nothing, though it is counted. *)
Theorem sleep_entry_absorbed (conn : Connection) (out : list event) (n : nat)
  (user_id : string) (e : SleepEntry.t) (conn' : Connection) (row : SleepRow.t) :
  sleep_metrics (tables conn) !! (user_id, timestamptz (SleepEntry.sleepStart e)) = Some row ->
  ingest.insert_sleep_entry conn user_id e = Ok conn' ->
  ingest.insert_sleep_step user_id (n, (conn, out)) e = (S n, (conn, out)).
Proof.
  intros Hk Hi. unfold ingest.insert_sleep_step. rewrite Hi.
  rewrite insert_sleep_entry_row in Hi.
  apply bind_ok in Hi as ([k r] & Hrow & Hi). injection Hi as <-.
  destruct (sleep_row_fields user_id e k r Hrow) as (-> & _).
  do 2 f_equal. destruct conn as [u [h s]]. unfold offer_sleep, ingest.insert_all. cbn in *.
  rewrite insert_or_ignore_present; [reflexivity|by eexists].
Qed.

(** *** The row of a workout *)

Lemma execute_insert_health_taken conn1 conn2 user_id metric_name metric_unit ts value :
  is_ok (ingest.execute_insert_health conn1 user_id metric_name metric_unit ts value) = true ->
  ingest.execute_insert_health conn2 user_id metric_name metric_unit ts value
  = Ok (offer_health [((user_id, metric_name, timestamptz ts), HealthRow.mk metric_unit value)]
          conn2).
Proof.
  unfold ingest.execute_insert_health. by destruct (health_refusal _ _ _ _ _).
Qed.

(** X10.  A workout whose calories compare above 0 and whose
    duration computes is offered to the storage under the metric name
    "workout" with unit "cal", at its start time when it has one and at
    the clock reading of the call when it has none, with the calories
    as its value: when the insert returns, a free key holds that row
    afterwards; when the insert raises, so does the workout. *)
Theorem workout_row_written (conn : Connection) (user_id : string) (now : Datetime.t)
  (workout : HAEWorkout.t) (calories minutes : pyval) :
  ingest.total_calories workout = Ok calories ->
  py_gt_zero calories = Ok true ->
  ingest.duration_minutes workout = Ok minutes ->
  let workout_timestamp :=
    match HAEWorkout.start workout with Some s => s | None => now end in
  let insert :=
    ingest.execute_insert_health conn user_id "workout" "cal" workout_timestamp calories in
  (forall e, insert = Raise e -> ingest.insert_workout conn user_id now workout = Raise e)
  /\ (is_ok insert = true ->
      health_metrics (tables conn) !! (user_id, "workout", timestamptz workout_timestamp)
      = None ->
      exists conn',
        ingest.insert_workout conn user_id now workout = Ok (Some conn')
        /\ health_metrics (tables conn') !! (user_id, "workout", timestamptz workout_timestamp)
           = Some (HealthRow.mk "cal" calories)
        /\ sleep_metrics (tables conn') = sleep_metrics (tables conn)).
Proof.
  intros Hc Hp Hd workout_timestamp insert. subst insert. unfold ingest.insert_workout.
  rewrite Hc. cbn [bind]. rewrite Hd. cbn [bind]. rewrite Hp. cbn [bind].
  fold workout_timestamp. split.
  - intros e ->. reflexivity.
  - intros Htaken Hfresh. rewrite (execute_insert_health_taken conn conn) by exact Htaken.
    cbn [bind]. eexists. split; [reflexivity|].
    unfold offer_health, ingest.insert_all. cbn [fold_left fst snd tables health_metrics
      sleep_metrics].
    split; [by apply insert_or_ignore_fresh|reflexivity].
Qed.

(** X11.  A workout without a start time is not idempotent under
    re-delivery: delivered at two clock readings that the storage tells
    apart, its insert returning at both, it is counted twice and leaves
    two rows. *)
Theorem startless_workout_is_duplicated (conn : Connection) (out : list event)
  (user_id : string) (now1 now2 : Datetime.t) (workout : HAEWorkout.t)
  (calories minutes : pyval) :
  HAEWorkout.start workout = None ->
  ingest.total_calories workout = Ok calories ->
  py_gt_zero calories = Ok true ->
  ingest.duration_minutes workout = Ok minutes ->
  is_ok (ingest.execute_insert_health conn user_id "workout" "cal" now1 calories) = true ->
  is_ok (ingest.execute_insert_health conn user_id "workout" "cal" now2 calories) = true ->
  timestamptz now1 <> timestamptz now2 ->
  health_metrics (tables conn) !! (user_id, "workout", timestamptz now1) = None ->
  health_metrics (tables conn) !! (user_id, "workout", timestamptz now2) = None ->
  let first := ingest.insert_workout_metrics (conn, out) user_id now1 [workout] in
  let second := ingest.insert_workout_metrics (snd first) user_id now2 [workout] in
  fst first = 1%nat /\ fst second = 1%nat
  /\ size (health_metrics (tables (fst (snd second))))
     = S (S (size (health_metrics (tables conn))))
  /\ health_metrics (tables (fst (snd second))) !! (user_id, "workout", timestamptz now1)
     = Some (HealthRow.mk "cal" calories)
  /\ health_metrics (tables (fst (snd second))) !! (user_id, "workout", timestamptz now2)
     = Some (HealthRow.mk "cal" calories).
Proof.
  intros Hs Hc Hp Hd Ht1 Ht2 Hne Hf1 Hf2. cbv zeta.
  unfold ingest.insert_workout_metrics. cbn [fold_left].
  unfold ingest.insert_workout_step, ingest.insert_workout.
  rewrite !Hs, !Hc. cbn [bind]. rewrite !Hd. cbn [bind]. rewrite !Hp. cbn [bind].
  rewrite (execute_insert_health_taken conn conn _ _ _ _ _ Ht1). cbn [bind fst snd].
  rewrite (execute_insert_health_taken conn _ _ _ _ _ _ Ht2). cbn [bind fst snd].
  unfold offer_health, ingest.insert_all.
  cbn [fold_left fst snd tables health_metrics url].
  assert (Hf2' : <[(user_id, "workout", timestamptz now1) := HealthRow.mk "cal" calories]>
                   (health_metrics (tables conn))
                 !! (user_id, "workout", timestamptz now2) = None).
  { rewrite lookup_insert_ne; [done|]. intros [= Heq]. by apply Hne. }
  unfold insert_or_ignore. rewrite !Hf1, !Hf2'.
  split; [done|]. split; [done|]. split; [|split].
  - rewrite map_size_insert_None by exact Hf2'.
    by rewrite map_size_insert_None by exact Hf1.
  - rewrite lookup_insert_ne; [apply lookup_insert_eq|]. intros [= Heq]. by apply Hne.
  - apply lookup_insert_eq.
Qed.

End StoredRecords.

(** ** Exceptions of validation *)

Lemma raises_only_ok {A : Type} x (a : A) : raises_only x (Ok a).
Proof. intros e He. discriminate. Qed.

Lemma raises_only_raise {A : Type} x : raises_only x (@Raise A x).
Proof. intros e He. by injection He. Qed.

Lemma raises_only_bind {A B : Type} x (r : result A) (k : A -> result B) :
  raises_only x r -> (forall a, r = Ok a -> raises_only x (k a)) -> raises_only x (bind r k).
Proof.
  intros Hr Hk e He. destruct r as [a|e0]; cbn in He.
  - by apply (Hk a).
  - apply Hr. congruence.
Qed.

Lemma raises_only_of_option {A : Type} x (o : option A) : raises_only x (of_option x o).
Proof. destruct o; [apply raises_only_ok|apply raises_only_raise]. Qed.

Lemma raises_only_mapM {A B : Type} x (f : A -> result B) (l : list A) :
  (forall a, raises_only x (f a)) -> raises_only x (mapM f l).
Proof.
  intros Hf. induction l as [|a l IH]; [apply raises_only_ok|].
  cbn [mapM]. apply raises_only_bind; [apply Hf|intros b _].
  apply raises_only_bind; [apply IH|intros bs _]. apply raises_only_ok.
Qed.

Lemma parse_hh_mm_ss_only_ValueError n l : only_ValueError (Datetime.parse_hh_mm_ss n l).
Proof.
  revert l. induction n as [|n IH]; intros l; [apply only_ValueError_ok|].
  cbn [Datetime.parse_hh_mm_ss]. destruct l as [|a [|b rest]]; try apply only_ValueError_raise.
  apply only_ValueError_bind; [apply int_of_only_ValueError|intros v].
  destruct rest as [|c rest']; [apply only_ValueError_ok|].
  destruct n as [|n']; [apply only_ValueError_ok|].
  destruct (Ascii.eqb c ":"%char); [|apply only_ValueError_raise].
  apply only_ValueError_bind; [apply IH|intros r]. apply only_ValueError_ok.
Qed.

Lemma parse_hh_mm_ss_ff_only_ValueError l : only_ValueError (Datetime.parse_hh_mm_ss_ff l).
Proof.
  unfold Datetime.parse_hh_mm_ss_ff.
  apply only_ValueError_bind; [apply parse_hh_mm_ss_only_ValueError|intros r].
  cbv zeta. apply only_ValueError_bind; [|intros us; apply only_ValueError_ok].
  destruct (snd r) as [|c frac]; [apply only_ValueError_ok|].
  destruct (Ascii.eqb c "."%char); [|apply only_ValueError_raise].
  destruct (length frac) as [|[|[|[|[|[|[|k]]]]]]];
    try apply only_ValueError_raise; try apply int_of_only_ValueError.
  apply only_ValueError_bind; [apply int_of_only_ValueError|intros v].
  apply only_ValueError_ok.
Qed.

Lemma fromisoformat_only_ValueError s : only_ValueError (Datetime.fromisoformat s).
Proof.
  unfold Datetime.fromisoformat. cbv zeta.
  destruct (_ <? _)%nat; [apply only_ValueError_raise|].
  apply only_ValueError_bind; [|intros [[y m] d]].
  { unfold Datetime.parse_isoformat_date.
    repeat (apply only_ValueError_bind; [apply int_of_only_ValueError|intros ?]).
    destruct (_ && _); [apply only_ValueError_ok|apply only_ValueError_raise]. }
  destruct (skipn 10 (Str.chars s)) as [|sep tstr]; [apply new_only_ValueError|].
  apply only_ValueError_bind; [apply parse_hh_mm_ss_ff_only_ValueError|].
  intros [[[hh mi] ss] us].
  apply only_ValueError_bind; [|intros tz; apply new_only_ValueError].
  destruct (snd (Datetime.split_sign tstr)) as [[sign tzstr]|]; [|apply only_ValueError_ok].
  apply only_ValueError_bind; [|intros off; apply only_ValueError_ok].
  unfold Datetime.parse_isoformat_tz.
  destruct (length tzstr) as [|[|[|[|[|[|[|[|[|[|[|[|[|[|[|[|k]]]]]]]]]]]]]]]];
    try apply only_ValueError_raise;
    (apply only_ValueError_bind; [apply parse_hh_mm_ss_ff_only_ValueError|];
     intros [[[h m'] s'] us']; apply timezone_only_ValueError).
Qed.

Lemma parse_swift_datetime_only_ValueError v : only_ValueError (parse_swift_datetime v).
Proof.
  destruct v; try apply only_ValueError_ok. cbn.
  pose proof (strptime_only_ValueError s SWIFT_FORMAT) as Hs.
  destruct (Datetime.strptime s SWIFT_FORMAT) as [d|e]; [apply only_ValueError_ok|].
  rewrite (Hs e eq_refl).
  apply only_ValueError_bind; [apply fromisoformat_only_ValueError|].
  intros d. apply only_ValueError_ok.
Qed.

Section ValidationFailures.
Context `{Platform}.

Lemma as_datetime_raises v : raises_only ValidationError (as_datetime v).
Proof.
  unfold as_datetime. pose proof (parse_swift_datetime_only_ValueError v) as Hp.
  destruct (parse_swift_datetime v) as [v'|e]; [apply raises_only_of_option|].
  rewrite (Hp e eq_refl). apply raises_only_raise.
Qed.

Lemma as_float_raises v : raises_only ValidationError (as_float v).
Proof. apply raises_only_of_option. Qed.

Lemma as_str_raises v : raises_only ValidationError (as_str v).
Proof. destruct v; first [apply raises_only_ok|apply raises_only_raise]. Qed.

Lemma as_dict_raises v : raises_only ValidationError (as_dict v).
Proof. destruct v; first [apply raises_only_ok|apply raises_only_raise]. Qed.

Lemma required_raises k d : raises_only ValidationError (required k d).
Proof. apply raises_only_of_option. Qed.

Lemma as_list_raises {A : Type} (f : pyval -> result A) v :
  (forall x, raises_only ValidationError (f x)) -> raises_only ValidationError (as_list f v).
Proof.
  intros Hf. destruct v; try apply raises_only_raise. by apply raises_only_mapM.
Qed.

Lemma optional_raises {A : Type} (f : pyval -> result A) k d :
  (forall x, raises_only ValidationError (f x)) -> raises_only ValidationError (optional f k d).
Proof.
  intros Hf. unfold optional. destruct (dict_get k d) as [v|]; [|apply raises_only_ok].
  destruct v; try apply raises_only_ok;
    (apply raises_only_bind; [apply Hf|intros a _; apply raises_only_ok]).
Qed.

Lemma optional_datetime_raises k d : raises_only ValidationError (optional_datetime k d).
Proof.
  unfold optional_datetime. destruct (dict_get k d) as [v|]; [|apply raises_only_ok].
  destruct v; try apply raises_only_ok;
    (apply raises_only_bind; [apply as_datetime_raises|intros a _; apply raises_only_ok]).
Qed.

Lemma list_or_empty_raises {A : Type} (f : pyval -> result A) k d :
  (forall x, raises_only ValidationError (f x)) ->
  raises_only ValidationError (list_or_empty f k d).
Proof.
  intros Hf. unfold list_or_empty. destruct (dict_get k d); [|apply raises_only_ok].
  by apply as_list_raises.
Qed.

Ltac raises_step :=
  first [ apply raises_only_ok
        | apply required_raises | apply as_float_raises | apply as_str_raises
        | apply as_dict_raises | apply as_datetime_raises | apply optional_datetime_raises
        | apply optional_raises; intros ? | apply as_list_raises; intros ?
        | apply list_or_empty_raises; intros ?
        | apply raises_only_bind; [|intros ? _] ].

Lemma validate_CommonPoint_raises v : raises_only ValidationError (validate_CommonPoint v).
Proof. unfold validate_CommonPoint. repeat raises_step. Qed.

Lemma validate_SleepEntry_raises v : raises_only ValidationError (validate_SleepEntry v).
Proof. unfold validate_SleepEntry. repeat raises_step. Qed.

Lemma validate_CommonMetric_raises v : raises_only ValidationError (validate_CommonMetric v).
Proof.
  unfold validate_CommonMetric. repeat raises_step.
Qed.

Lemma validate_SleepMetric_raises v : raises_only ValidationError (validate_SleepMetric v).
Proof.
  unfold validate_SleepMetric.
  apply raises_only_bind; [apply as_dict_raises|intros d _].
  apply raises_only_bind; [apply required_raises|intros name _].
  apply raises_only_bind; [|intros u _].
  { destruct name; try apply raises_only_raise.
    destruct (String.eqb _ _); [apply raises_only_ok|apply raises_only_raise]. }
  repeat raises_step.
Qed.

Lemma validate_HAEWorkout_raises v : raises_only ValidationError (validate_HAEWorkout v).
Proof. unfold validate_HAEWorkout. repeat raises_step. Qed.

Lemma validate_MetricUnion_raises v : raises_only ValidationError (validate_MetricUnion v).
Proof.
  unfold validate_MetricUnion. destruct (String.eqb _ _).
  - apply raises_only_bind; [apply validate_SleepMetric_raises|intros m _].
    apply raises_only_ok.
  - apply raises_only_bind; [apply validate_CommonMetric_raises|intros m _].
    apply raises_only_ok.
Qed.

Lemma validate_DataNode_raises v : raises_only ValidationError (validate_DataNode v).
Proof.
  unfold validate_DataNode.
  apply raises_only_bind; [apply as_dict_raises|intros d _].
  apply raises_only_bind;
    [apply list_or_empty_raises; apply validate_MetricUnion_raises|intros ms _].
  apply raises_only_bind;
    [apply list_or_empty_raises; apply validate_HAEWorkout_raises|intros ws _].
  apply raises_only_ok.
Qed.

(** X12.  Validation fails in one of two ways only: with a
    validation error when the body is a JSON object, and with a
    TypeError when it is not.  A timestamp that neither format parses,
    in particular, is a validation error and nothing else. *)
Theorem validation_failures (raw : pyval) (e : exn) :
  validate_HealthAutoExportPayload raw = Raise e ->
  (e = ValidationError /\ exists d, raw = PDict d)
  \/ (e = TypeError /\ forall d, raw <> PDict d).
Proof.
  destruct raw; try (intros [= <-]; right; by split).
  intros Hv. left. split; [|eauto]. revert e Hv.
  change (raises_only ValidationError (validate_HealthAutoExportPayload (PDict d))).
  cbn [validate_HealthAutoExportPayload].
  apply raises_only_bind; [apply required_raises|intros dv _].
  apply raises_only_bind; [apply validate_DataNode_raises|intros data _].
  apply raises_only_bind; [apply optional_raises; apply as_str_raises|intros rid _].
  apply raises_only_ok.
Qed.

(** *** The inspection of a rejected body *)

Lemma py_contains_raises k v : raises_only TypeError (py_contains k v).
Proof. destruct v; first [apply raises_only_ok|apply raises_only_raise]. Qed.

Lemma py_iter_raises v : raises_only TypeError (py_iter v).
Proof. destruct v; first [apply raises_only_ok|apply raises_only_raise]. Qed.

Lemma py_getitem_found k v :
  py_contains k v = Ok true -> raises_only TypeError (py_getitem v k).
Proof.
  destruct v; try (intros _; apply raises_only_raise).
  cbn. unfold dict_has. destruct (dict_get k d); [intros _; apply raises_only_ok|done].
Qed.

Lemma inspect_rejected_raises raw : raises_only TypeError (ingest.inspect_rejected raw).
Proof.
  unfold ingest.inspect_rejected.
  apply raises_only_bind; [apply py_contains_raises|intros [] Hdata]; [|apply raises_only_ok].
  apply raises_only_bind; [by apply py_getitem_found|intros data_node _].
  apply raises_only_bind; [apply py_contains_raises|intros [] Hws]; [|apply raises_only_ok].
  apply raises_only_bind; [by apply py_getitem_found|intros ws _].
  destruct (truthy ws); [|apply raises_only_ok].
  apply raises_only_bind; [apply py_iter_raises|intros l _].
  apply raises_only_bind; [|intros u _; apply raises_only_ok].
  apply raises_only_mapM. intros workout.
  apply raises_only_bind; [apply py_contains_raises|intros [] Hd]; [|apply raises_only_ok].
  apply raises_only_bind; [by apply py_getitem_found|intros points _].
  apply raises_only_bind; [apply py_iter_raises|intros pts _]. apply raises_only_ok.
Qed.

Lemma get_db_connection_raises w e :
  get_db_connection w = Raise e -> e = HTTPException 500 \/ e = ConnectionFailure.
Proof.
  unfold get_db_connection.
  destruct (match mode w with PROD => _ | DEV => _ end) as [[|a u]|];
    try (intros [= <-]; by left).
  destruct (servers w !! String a u); [done|]. intros [= <-]. by right.
Qed.

Lemma parsed_body_failure_causes (user_id : string) (raw : pyval) (now : Datetime.t)
  (w : World) :
  ingest.WebhookResponse.success (fst (ingest.health_auto_export_webhook user_id raw now w))
  = false ->
  exists e,
    ingest.WebhookResponse.message_ (fst (ingest.health_auto_export_webhook user_id raw now w))
    = ingest.Failed_to_process e
    /\ (e = HTTPException 422 \/ e = TypeError \/ e = HTTPException 500
        \/ e = ConnectionFailure)
    /\ (e = HTTPException 422 \/ e = TypeError
        <-> is_ok (validate_HealthAutoExportPayload raw) = false).
Proof.
  destruct (validate_HealthAutoExportPayload raw) as [payload|ev] eqn:Hv.
  - destruct (get_db_connection w) as [conn|ec] eqn:Hc.
    + by rewrite (webhook_accepted user_id raw now w payload conn Hv Hc).
    + rewrite (webhook_unreachable user_id raw now w payload ec Hv Hc). cbn. intros _.
      exists ec. split; [done|].
      destruct (get_db_connection_raises w ec Hc) as [-> | ->];
        (split; [auto|]); split; try done; intros [|]; done.
  - intros _. unfold ingest.health_auto_export_webhook. rewrite Hv.
    pose proof (inspect_rejected_raises raw) as Hi.
    destruct (ingest.inspect_rejected raw) as [[]|ei]; cbn.
    + exists (HTTPException 422). split; [done|]. split; [auto|]. split; auto.
    + rewrite (Hi ei eq_refl). exists TypeError. split; [done|]. split; [auto|]. split; auto.
Qed.

(** X13.  A failed call names its cause in its message.  When the
    body does not decode or does not parse, the cause is the exception
    of the decoding or of the parsing, whatever it is.  When it parses,
    the cause is one of four: status 422 for a body that does not
    validate, TypeError when inspecting such a body indexes or iterates
    a value of the wrong type, status 500 when no database URL is
    configured, and the failure to connect.  In each case nothing is
    counted. *)
Theorem webhook_failure_causes (user_id : string) (body : result pyval) (now : Datetime.t)
  (w : World) :
  let r := ingest.health_auto_export_request user_id body now w in
  ingest.WebhookResponse.success (fst r) = false ->
  exists e,
    ingest.WebhookResponse.message_ (fst r) = ingest.Failed_to_process e
    /\ ingest.WebhookResponse.processed (fst r) = ingest.mkProcessed 0 0 0
    /\ match body with
       | Raise e' => e = e'
       | Ok raw =>
           (e = HTTPException 422 \/ e = TypeError \/ e = HTTPException 500
            \/ e = ConnectionFailure)
           /\ (e = HTTPException 422 \/ e = TypeError
               <-> is_ok (validate_HealthAutoExportPayload raw) = false)
       end.
Proof.
  destruct body as [raw|e']; cbn [ingest.health_auto_export_request]; cbv zeta.
  - intros Hfail.
    destruct (parsed_body_failure_causes user_id raw now w Hfail) as (e & Hm & Hcause).
    exists e. split; [exact Hm|]. split; [|exact Hcause].
    revert Hfail Hm. unfold ingest.health_auto_export_webhook.
    destruct (validate_HealthAutoExportPayload raw) as [payload|ev].
    + destruct (get_db_connection w) as [conn|ec]; [|done].
      by destruct (ingest.process_payload _ _ _ _) as [counts [conn' out]].
    + by destruct (ingest.inspect_rejected raw).
  - intros _. by exists e'.
Qed.

(** *** Connections and keys *)

(** X14.  Opening a connection reads the secret of the deployment
    mode and no other: it fails with status 500 exactly when that
    secret is absent or empty, and an opened connection is at the
    URL the secret names and sees the tables the server holds. *)
Theorem connection_reads_mode_secret (w : World) :
  let key := match mode w with PROD => "DATABASE_URL_PROD" | DEV => "DATABASE_URL_DEV" end in
  (get_db_connection w = Raise (HTTPException 500)
   <-> secrets w !! key = None \/ secrets w !! key = Some "")
  /\ (forall conn, get_db_connection w = Ok conn ->
        secrets w !! key = Some (url conn) /\ url conn <> ""
        /\ servers w !! url conn = Some (tables conn))
  /\ (get_db_connection w = Raise ConnectionFailure
      <-> exists u, secrets w !! key = Some u /\ u <> "" /\ servers w !! u = None).
Proof.
  cbv zeta. unfold get_db_connection.
  destruct (mode w);
    (destruct (secrets w !! _) as [[|a u]|] eqn:Es;
     [split; [split; [auto|done]|split; [done|]];
      split; [done|intros (u & [= <-] & Hne & _); done]
     |destruct (servers w !! String a u) eqn:Eu;
      [split; [split; [done|intros [|]; done]|split];
       [intros conn [= <-]; cbn; by rewrite Eu
       |split; [done|intros (u' & [= <-] & _ & Hs); congruence]]
      |split; [split; [done|intros [|]; done]|split; [done|]];
       split; [intros _; exists (String a u); by repeat split|done]]
     |split; [split; [auto|done]|split; [done|]];
      split; [done|intros (u & Hu & _); done]]).
Qed.

(** X15.  The API key check answers True only for a non-empty key
    equal to a configured, non-empty secret; with no key, or with no
    secret configured, it answers False. *)
Theorem api_key_check (x_api_key : option string) (w : World) :
  validate_api_key x_api_key w = true
  <-> exists key, x_api_key = Some key /\ key <> ""
                  /\ secrets w !! "HEALTH_AUTO_EXPORT_API_KEY" = Some key.
Proof.
  unfold validate_api_key. split.
  - destruct x_api_key as [[|a key]|]; try done.
    destruct (secrets w !! _) as [[|b expected]|]; try done.
    intros He. apply String.eqb_eq in He as ->. eexists. by repeat split.
  - intros (key & -> & Hne & ->). destruct key as [|a key]; [done|].
    apply String.eqb_refl.
Qed.

End ValidationFailures.

(** ** The range query *)

Section RangeQueries.
Context `{Platform}.

(** X16.  Around the range check: a request without a user is
    refused with status 401 whatever its bounds; bounds of which one
    carries an offset and the other does not make the comparison raise
    TypeError, outside the handler's [try]; and a request that lacks
    one of the bounds is not range-checked. *)
Theorem range_check_edges (metric : metrics.MetricType) (user : metrics.AuthorizedUser)
  (from_date to_date : option Datetime.t) (limit : Z) (w : World) :
  metrics.get_metrics metric None from_date to_date limit w = Raise (HTTPException 401)
  /\ (forall f t,
        from_date = Some f -> to_date = Some t ->
        is_Some (Datetime.tzinfo f) <-> Datetime.tzinfo t = None ->
        metrics.get_metrics metric (Some user) from_date to_date limit w = Raise TypeError)
  /\ (from_date = None \/ to_date = None ->
      metrics.get_metrics metric (Some user) from_date to_date limit w
      = metrics.run_queries metric (metrics.sub user) from_date to_date limit w).
Proof.
  split; [reflexivity|]. split.
  - intros f t -> -> Hmix. unfold metrics.get_metrics, Datetime.ge, Datetime.cmp, Datetime.sub.
    destruct (Datetime.tzinfo f) as [o1|], (Datetime.tzinfo t) as [o2|]; try reflexivity.
    + destruct Hmix as [Hmix _]. by specialize (Hmix (ex_intro _ o1 eq_refl)).
    + destruct Hmix as [_ Hmix]. by destruct (Hmix eq_refl).
  - intros [-> | ->]; unfold metrics.get_metrics; [reflexivity|].
    by destruct from_date.
Qed.

Lemma order_by_time_sorted {A : Type} (rows : list (Z * A)) :
  Sorted (fun a b => (fst a <= fst b)%Z) (metrics.order_by_time rows).
Proof.
  unfold metrics.order_by_time. apply Sorted_merge_sort.
  intros a b. destruct (Z.le_gt_cases (fst a) (fst b)); [by left|right; lia].
Qed.

Lemma order_by_time_perm {A : Type} (rows : list (Z * A)) :
  metrics.order_by_time rows ≡ₚ rows.
Proof. unfold metrics.order_by_time. apply merge_sort_Permutation. Qed.

Lemma Sorted_firstn {A : Type} (R : A -> A -> Prop) (l : list A) (n : nat) :
  Sorted R l -> Sorted R (firstn n l).
Proof.
  intros Hs. revert n. induction Hs as [|a l Hs IH Hhd]; intros n.
  - by rewrite firstn_nil.
  - destruct n as [|n]; [constructor|]. cbn. constructor; [apply IH|].
    destruct Hhd as [|b l Hab]; [by rewrite firstn_nil|].
    destruct n; constructor. exact Hab.
Qed.

Lemma In_firstn {A : Type} (r : A) (n : nat) (l : list A) : In r (firstn n l) -> In r l.
Proof. rewrite <- !list_elem_of_In. apply subseteq_take. Qed.

Lemma Sorted_map_fst {A : Type} (rows : list (Z * A)) :
  Sorted (fun a b => (fst a <= fst b)%Z) rows -> Sorted Z.le (map fst rows).
Proof.
  induction 1 as [|a l Hs IH Hhd]; cbn; constructor; [exact IH|].
  destruct Hhd; cbn; constructor. assumption.
Qed.

Lemma apply_limit_ok {A : Type} (limit : Z) (rows rows' : list A) :
  metrics.apply_limit limit rows = Ok rows' ->
  (0 <= limit)%Z
  /\ rows' = (if (limit =? 0)%Z then rows else firstn (Z.to_nat limit) rows).
Proof.
  unfold metrics.apply_limit. destruct (limit =? 0)%Z eqn:E0.
  - intros [= <-]. apply Z.eqb_eq in E0. split; [lia|done].
  - destruct (limit <? 0)%Z eqn:En; [done|]. intros [= <-].
    apply Z.ltb_ge in En. done.
Qed.

Lemma limited_facts {A : Type} (limit : Z) (rows rows' : list (Z * A)) (P : Z -> Prop) :
  metrics.apply_limit limit (metrics.order_by_time rows) = Ok rows' ->
  Forall (fun r => P (fst r)) rows ->
  Sorted Z.le (map fst rows')
  /\ Forall P (map fst rows')
  /\ length rows' <= length rows
  /\ ((0 < limit)%Z -> length rows' = Nat.min (Z.to_nat limit) (length rows))
  /\ (limit = 0%Z -> length rows' = length rows)
  /\ (forall r, In r rows' -> In r rows)
  /\ (length rows <= Z.to_nat limit \/ limit = 0%Z -> forall r, In r rows -> In r rows').
Proof.
  intros Hl HP. apply apply_limit_ok in Hl as [Hpos ->].
  pose proof (order_by_time_sorted rows) as Hs.
  pose proof (order_by_time_perm rows) as Hp.
  assert (Hlen : length (metrics.order_by_time rows) = length rows)
    by (by apply Permutation_length).
  assert (Hin : forall r, In r (metrics.order_by_time rows) <-> In r rows).
  { intros r. rewrite <- !list_elem_of_In. by rewrite Hp. }
  destruct (limit =? 0)%Z eqn:E0.
  - apply Z.eqb_eq in E0. repeat split.
    + by apply Sorted_map_fst.
    + rewrite Forall_map. rewrite Forall_forall in *. intros r Hr. apply HP.
      rewrite list_elem_of_In in *. by apply Hin.
    + lia.
    + lia.
    + done.
    + intros r. apply Hin.
    + intros _ r. apply Hin.
  - apply Z.eqb_neq in E0. repeat split.
    + apply Sorted_map_fst. by apply Sorted_firstn.
    + rewrite Forall_map. rewrite Forall_forall in *. intros r Hr. apply HP.
      rewrite list_elem_of_In in *. apply Hin. by apply (In_firstn _ _ _ Hr).
    + rewrite length_firstn. lia.
    + intros _. rewrite length_firstn. lia.
    + done.
    + intros r Hr. apply Hin. by apply (In_firstn _ _ _ Hr).
    + intros [Hle|Hz] r Hr; [|done]. rewrite firstn_all2 by lia. by apply Hin.
Qed.

Lemma select_health_in_range conn user_id metric_name from_date to_date :
  Forall (fun r => metrics.in_range from_date to_date (fst r) = true)
    (metrics.select_health conn user_id metric_name from_date to_date).
Proof.
  unfold metrics.select_health. rewrite Forall_forall. intros r Hr.
  apply list_elem_of_omap in Hr as ([[[u n] ts] row] & _ & Hr).
  destruct (_ && _ && _) eqn:E; [|done]. injection Hr as <-. cbn.
  by apply andb_prop in E as [_ E].
Qed.

Lemma select_sleep_in_range conn user_id from_date to_date :
  Forall (fun r => metrics.in_range from_date to_date (fst r) = true)
    (metrics.select_sleep conn user_id from_date to_date).
Proof.
  unfold metrics.select_sleep. rewrite Forall_forall. intros r Hr.
  apply list_elem_of_omap in Hr as ([[u ts] row] & _ & Hr).
  destruct (_ && _) eqn:E; [|done]. injection Hr as <-. cbn.
  by apply andb_prop in E as [_ E].
Qed.

Lemma points_of_rows (rows : list (Z * pyval)) pts :
  mapM (fun r => let* v := metrics.py_float (snd r) in
                 Ok (metrics.MetricDataPoint.mk (fst r) v)) rows = Ok pts ->
  map metrics.MetricDataPoint.timestamp pts = map fst rows.
Proof.
  intros Hm. apply mapM_Forall2 in Hm.
  induction Hm as [|r p rows pts Hr Hm IH]; [done|]. cbn. rewrite IH. f_equal.
  apply bind_ok in Hr as (v & _ & Hr). by injection Hr as <-.
Qed.

Lemma query_health_timestamps conn user_id metric_name from_date to_date limit pts :
  metrics.query_health_metrics conn user_id metric_name from_date to_date limit = Ok pts ->
  exists rows,
    metrics.apply_limit limit
      (metrics.order_by_time (metrics.select_health conn user_id metric_name from_date to_date))
    = Ok rows
    /\ map metrics.MetricDataPoint.timestamp pts = map fst rows.
Proof.
  unfold metrics.query_health_metrics. intros Hq.
  apply bind_ok in Hq as (rows & Hrows & Hq). exists rows. split; [done|].
  by apply points_of_rows.
Qed.

Lemma query_sleep_timestamps conn user_id from_date to_date limit pts :
  metrics.query_sleep_metrics conn user_id from_date to_date limit = Ok pts ->
  exists rows,
    metrics.apply_limit limit
      (metrics.order_by_time (metrics.select_sleep conn user_id from_date to_date))
    = Ok rows
    /\ map metrics.MetricDataPoint.timestamp pts = map fst rows.
Proof.
  unfold metrics.query_sleep_metrics. intros Hq.
  apply bind_ok in Hq as (rows & Hrows & Hq). exists rows. split; [done|].
  injection Hq as <-. by rewrite map_map.
Qed.

(** The rows a query answers from, and its answer in terms of them. *)
Lemma run_queries_ok metric user_id from_date to_date limit w resp :
  metrics.run_queries metric user_id from_date to_date limit w = Ok resp ->
  exists conn (ts : list Z) (n : nat),
    get_db_connection w = Ok conn
    /\ map metrics.MetricDataPoint.timestamp (metrics.MetricsResponse.data resp) = ts
    /\ metrics.MetricsResponse.total_count resp = n
    /\ n = metrics.get_total_count conn user_id metric from_date to_date
    /\ Sorted Z.le ts
    /\ Forall (fun t => metrics.in_range from_date to_date t = true) ts
    /\ length ts <= n
    /\ ((0 < limit)%Z -> length ts = Nat.min (Z.to_nat limit) n)
    /\ (0 <= limit)%Z.
Proof.
  unfold metrics.run_queries. intros Hr.
  destruct (get_db_connection w) as [conn|e]; [|done]. cbn [bind] in Hr.
  match type of Hr with
  | match bind ?q _ with _ => _ end = _ => destruct q as [pts|e] eqn:Hq; [|done]
  end.
  cbn in Hr. injection Hr as <-. cbn.
  exists conn. eexists. eexists. split; [done|]. split; [done|]. split; [done|].
  split; [done|].
  destruct metric.
  - apply query_health_timestamps in Hq as (rows & Hl & ->).
    pose proof (apply_limit_ok _ _ _ Hl) as [Hpos _].
    destruct (limited_facts limit _ rows (fun t => metrics.in_range from_date to_date t = true)
                Hl (select_health_in_range _ _ _ _ _))
      as (Hs & HP & Hle & Hmin & _).
    rewrite length_map. cbn. by repeat split.
  - unfold metrics.query_workout_metrics in Hq.
    apply query_health_timestamps in Hq as (rows & Hl & ->).
    pose proof (apply_limit_ok _ _ _ Hl) as [Hpos _].
    destruct (limited_facts limit _ rows (fun t => metrics.in_range from_date to_date t = true)
                Hl (select_health_in_range _ _ _ _ _))
      as (Hs & HP & Hle & Hmin & _).
    rewrite length_map. cbn. by repeat split.
  - apply query_sleep_timestamps in Hq as (rows & Hl & ->).
    pose proof (apply_limit_ok _ _ _ Hl) as [Hpos _].
    destruct (limited_facts limit _ rows (fun t => metrics.in_range from_date to_date t = true)
                Hl (select_sleep_in_range _ _ _ _))
      as (Hs & HP & Hle & Hmin & _).
    rewrite length_map. cbn. by repeat split.
Qed.

(** X17.  An answered query lists its points by ascending
    timestamp, every one of them within the bounds that were given;
    it lists at most [limit] of them and exactly the smaller of [limit]
    and the total count, and the total count does not depend on
    [limit]. *)
Theorem query_answer_is_ordered_and_bounded (metric : metrics.MetricType)
  (user_id : string) (from_date to_date : option Datetime.t) (limit : Z) (w : World)
  (resp : metrics.MetricsResponse.t) :
  metrics.run_queries metric user_id from_date to_date limit w = Ok resp ->
  (0 < limit)%Z ->
  let ts := map metrics.MetricDataPoint.timestamp (metrics.MetricsResponse.data resp) in
  Sorted Z.le ts
  /\ Forall (fun t => metrics.in_range from_date to_date t = true) ts
  /\ length ts = Nat.min (Z.to_nat limit) (metrics.MetricsResponse.total_count resp)
  /\ (forall limit' resp',
        metrics.run_queries metric user_id from_date to_date limit' w = Ok resp' ->
        metrics.MetricsResponse.total_count resp' = metrics.MetricsResponse.total_count resp).
Proof.
  intros Hr Hpos ts.
  destruct (run_queries_ok _ _ _ _ _ _ _ Hr)
    as (conn & ts' & n & Hc & Hts & Hn & Hcount & Hs & HP & _ & Hmin & _).
  subst ts' n. repeat split; try assumption.
  - unfold ts. by apply Hmin.
  - intros limit' resp' Hr'.
    destruct (run_queries_ok _ _ _ _ _ _ _ Hr')
      as (conn' & ts' & n' & Hc' & _ & Hn' & Hcount' & _).
    rewrite Hc in Hc'. injection Hc' as <-. congruence.
Qed.

(** X18.  Failures of the querying stage: the stage answers with
    status 500 when the connection does not open or when [limit] is
    negative, and with nothing but status 500 in any case. *)
Theorem query_stage_failures (metric : metrics.MetricType) (user_id : string)
  (from_date to_date : option Datetime.t) (limit : Z) (w : World) :
  (is_ok (get_db_connection w) = false \/ (limit < 0)%Z ->
   metrics.run_queries metric user_id from_date to_date limit w = Raise (HTTPException 500))
  /\ (forall e, metrics.run_queries metric user_id from_date to_date limit w = Raise e ->
        e = HTTPException 500).
Proof.
  split; [|intros e; apply run_queries_raises].
  intros [Hc|Hl]; unfold metrics.run_queries.
  - by destruct (get_db_connection w).
  - destruct (get_db_connection w) as [conn|]; [|done]. cbn [bind].
    assert (Hlim : forall A (rows : list A), metrics.apply_limit limit rows = Raise PostgresError).
    { intros A rows. unfold metrics.apply_limit.
      destruct (limit =? 0)%Z eqn:E0; [apply Z.eqb_eq in E0; lia|].
      destruct (limit <? 0)%Z eqn:En; [done|]. apply Z.ltb_ge in En. lia. }
    destruct metric; unfold metrics.query_workout_metrics, metrics.query_health_metrics,
      metrics.query_sleep_metrics; by rewrite Hlim.
Qed.

End RangeQueries.

(** ** From the webhook to the query *)

Section RoundTrip.
Context `{Platform}.

Lemma get_metrics_ok metric user from_date to_date limit w resp :
  metrics.get_metrics metric (Some user) from_date to_date limit w = Ok resp ->
  metrics.run_queries metric (metrics.sub user) from_date to_date limit w = Ok resp.
Proof.
  unfold metrics.get_metrics. intros Hg.
  apply bind_ok in Hg as (reversed & _ & Hg). by destruct reversed.
Qed.

Lemma run_hrv_query_ok user_id from_date to_date limit w resp :
  metrics.run_queries metrics.heart_rate_variability user_id from_date to_date limit w
  = Ok resp ->
  exists conn rows,
    get_db_connection w = Ok conn
    /\ metrics.apply_limit limit
         (metrics.order_by_time
            (metrics.select_health conn user_id "heart_rate_variability" from_date to_date))
       = Ok rows
    /\ map metrics.MetricDataPoint.timestamp (metrics.MetricsResponse.data resp)
       = map fst rows
    /\ metrics.MetricsResponse.total_count resp
       = length (metrics.select_health conn user_id "heart_rate_variability"
                   from_date to_date).
Proof.
  unfold metrics.run_queries. intros Hr.
  destruct (get_db_connection w) as [conn|e]; [|done]. cbn [bind] in Hr.
  match type of Hr with
  | match bind ?q _ with _ => _ end = _ => destruct q as [pts|e] eqn:Hq; [|done]
  end.
  cbn in Hr. injection Hr as <-. cbn.
  apply query_health_timestamps in Hq as (rows & Hl & Hts). by exists conn, rows.
Qed.

Lemma select_health_In conn user_id metric_name from_date to_date ts row :
  health_metrics (tables conn) !! (user_id, metric_name, ts) = Some row ->
  metrics.in_range from_date to_date ts = true ->
  In (ts, HealthRow.value row)
    (metrics.select_health conn user_id metric_name from_date to_date).
Proof.
  intros Hk Hr. unfold metrics.select_health. apply list_elem_of_In, list_elem_of_omap.
  exists ((user_id, metric_name, ts), row). split; [by apply elem_of_map_to_list|].
  cbn. by rewrite !String.eqb_refl, Hr.
Qed.

(** X19.  What the webhook stored the query returns: after a
    successful call, a query of the same user for
    [heart_rate_variability] that is answered, whose bounds admit the
    timestamp of a data point of the call whose insert returns, and
    whose [limit] is not below its total count, lists that timestamp. *)
Theorem ingested_point_is_queryable (user_id : string) (raw : pyval) (now : Datetime.t)
  (w : World) (payload : HealthAutoExportPayload.t) (conn : Connection)
  (cm : CommonMetric.t) (p : CommonPoint.t)
  (from_date to_date : option Datetime.t) (limit : Z) (resp : metrics.MetricsResponse.t) :
  validate_HealthAutoExportPayload raw = Ok payload ->
  get_db_connection w = Ok conn ->
  In (Common cm) (DataNode.metrics (HealthAutoExportPayload.data payload)) ->
  CommonMetric.name cm = "heart_rate_variability" ->
  In p (CommonMetric.data cm) ->
  is_ok (ingest.execute_insert_health conn user_id (CommonMetric.name cm)
           (CommonMetric.units cm) (CommonPoint.date p) (PFloat (CommonPoint.qty p))) = true ->
  metrics.in_range from_date to_date (timestamptz (CommonPoint.date p)) = true ->
  metrics.get_metrics metrics.heart_rate_variability (Some (metrics.mkUser user_id))
    from_date to_date limit (snd (ingest.health_auto_export_webhook user_id raw now w))
  = Ok resp ->
  metrics.MetricsResponse.total_count resp <= Z.to_nat limit ->
  In (timestamptz (CommonPoint.date p))
    (map metrics.MetricDataPoint.timestamp (metrics.MetricsResponse.data resp)).
Proof.
  intros Hv Hc Hcm Hname Hp Htaken Hrange Hq Hlimit.
  destruct (accepted_call_covers_point user_id raw now w payload conn cm p Hv Hc Hcm Hp
              Htaken) as (db' & Hdb' & [row Hrow]).
  apply get_metrics_ok in Hq. cbn [metrics.sub] in Hq.
  apply run_hrv_query_ok in Hq as (conn' & rows & Hc' & Hl & Hts & Hcount).
  apply get_db_connection_lookup in Hc' as Hlook.
  assert (Hurl : url conn' = url conn).
  { rewrite (webhook_accepted user_id raw now w payload conn Hv Hc) in Hc'.
    cbn [snd] in Hc'.
    rewrite (get_db_connection_reopen w conn _ _ Hc) in Hc'. by injection Hc' as <-. }
  rewrite Hurl, Hdb' in Hlook. injection Hlook as ->.
  rewrite Hname in Hrow.
  pose proof (select_health_In conn' user_id "heart_rate_variability" from_date to_date _ row
                Hrow Hrange) as Hin.
  rewrite Hts. apply (in_map fst _ (timestamptz (CommonPoint.date p), HealthRow.value row)).
  destruct (limited_facts limit _ rows (fun _ => True) Hl) as (_ & _ & _ & _ & _ & _ & Hall).
  { by apply Forall_forall. }
  apply Hall; [|exact Hin]. left. lia.
Qed.

End RoundTrip.

(** ** The period comparison *)

(** X20.  The percentage change of the HRV average is the integer 0
    whenever the previous average does not compare above 0, a zero, a
    negative value and a NaN included, and is
    [(current - previous) / previous * 100] otherwise; in neither case
    does the division raise. *)
Theorem hrv_change_never_divides_by_zero (current_avg previous_avg : Float.float) :
  (Float.gt_zero previous_avg = false ->
   insights.hrv_change current_avg previous_avg = Ok (PInt 0))
  /\ (Float.gt_zero previous_avg = true ->
      insights.hrv_change current_avg previous_avg
      = Ok (PFloat (Float.mul (Float.div (insights.fsub current_avg previous_avg) previous_avg)
                      (Float.of_Z 100))))
  /\ is_ok (insights.hrv_change current_avg previous_avg) = true
  /\ insights.hrv_change current_avg Float.zero = Ok (PInt 0)
  /\ insights.hrv_change current_avg S754_nan = Ok (PInt 0).
Proof.
  unfold insights.hrv_change.
  assert (Hz : Float.gt_zero previous_avg = true -> Float.is_zero previous_avg = false).
  { by destruct previous_avg. }
  unfold Float.truediv.
  destruct (Float.gt_zero previous_avg) eqn:Hg.
  - rewrite (Hz eq_refl). cbn. by repeat split.
  - by repeat split.
Qed.

(** ** Timestamps in the fixed format carry an offset *)

Lemma seq_In {A B : Type} (p : Re.t A) (k : A -> Re.t B) s r :
  In r (Re.seq p k s) -> exists a, In a (p s) /\ In r (k (fst a) (snd a)).
Proof. unfold Re.seq. rewrite in_flat_map. intros (a & Ha & Hr). eauto. Qed.

Lemma match_items_groups items re k :
  Datetime.match_items items = Some re ->
  In (Datetime.Dir k) items ->
  forall s g rest, In (g, rest) (re s) -> is_Some (Datetime.group k g).
Proof.
  revert re. induction items as [|it items IH]; intros re Hm Hin; [done|].
  cbn in Hm. destruct (Datetime.match_items items) as [rest_re|]; [|done].
  cbn in Hm. destruct it as [k0|c|].
  - destruct (Datetime.directive k0) as [p|]; [|done]. cbn in Hm. injection Hm as <-.
    intros s g rest Hr.
    apply seq_In in Hr as ([txt s1] & _ & Hr). cbn [fst snd] in Hr.
    apply seq_In in Hr as ([g' s2] & Hg' & Hr). cbn [fst snd] in Hr.
    destruct Hr as [[= <- <-]|[]].
    unfold Datetime.group. cbn [find fst]. destruct (Ascii.eqb k0 k) eqn:Ek; [by eexists|].
    destruct Hin as [[= ->]|Hin]; [by rewrite Ascii.eqb_refl in Ek|].
    by apply (IH rest_re eq_refl Hin s1 g' s2).
  - injection Hm as <-. destruct Hin as [|Hin]; [done|].
    intros s g rest Hr. apply seq_In in Hr as ([txt s1] & _ & Hr).
    by apply (IH rest_re eq_refl Hin s1 g rest).
  - injection Hm as <-. destruct Hin as [|Hin]; [done|].
    intros s g rest Hr. apply seq_In in Hr as ([txt s1] & _ & Hr).
    by apply (IH rest_re eq_refl Hin s1 g rest).
Qed.

Lemma new_tzinfo y m d hh mi ss us tz dt :
  Datetime.new y m d hh mi ss us tz = Ok dt -> Datetime.tzinfo dt = tz.
Proof.
  unfold Datetime.new.
  match goal with |- (if ?c then _ else _) = _ -> _ => destruct c end; [|done].
  by intros [= <-].
Qed.

(** X21.  A timestamp accepted by the first attempt of the
    normaliser carries a UTC offset: the fixed format ends in [%z], so
    an offset-naive instant can only come from the ISO fallback. *)
Theorem swift_timestamps_are_aware (s : string) (d : Datetime.t) :
  parse_swift_datetime (PStr s) = Ok (PDatetime d) ->
  Datetime.tzinfo d = None ->
  Datetime.strptime s SWIFT_FORMAT = Raise ValueError
  /\ Datetime.fromisoformat (Str.replace "Z" "+00:00" s) = Ok d.
Proof.
  intros Hp Hnaive. unfold parse_swift_datetime in Hp.
  pose proof (strptime_only_ValueError s SWIFT_FORMAT) as Honly.
  destruct (Datetime.strptime s SWIFT_FORMAT) as [d'|e] eqn:Hs.
  - exfalso. injection Hp as ->. unfold Datetime.strptime in Hs.
    assert (Hc : Datetime.compile (Str.chars SWIFT_FORMAT)
                 = Some [Datetime.Dir "Y"; Datetime.Lit "-"; Datetime.Dir "m";
                         Datetime.Lit "-"; Datetime.Dir "d"; Datetime.Ws;
                         Datetime.Dir "H"; Datetime.Lit ":"; Datetime.Dir "M";
                         Datetime.Lit ":"; Datetime.Dir "S"; Datetime.Ws;
                         Datetime.Dir "z"]%char) by reflexivity.
    rewrite Hc in Hs. cbn [mbind option_bind] in Hs.
    match type of Hs with
    | match ?t with Some _ => _ | None => _ end = _ => destruct t as [re|] eqn:Hre
    end; [|discriminate Hs].
    assert (Hz : forall s g rest, In (g, rest) (re s) -> is_Some (Datetime.group "z" g)).
    { apply (match_items_groups _ re "z"%char Hre). do 12 right. by left. }
    destruct (re (Str.chars s)) as [|[g [|c rest]] ms] eqn:Hrs;
      [discriminate Hs| |discriminate Hs].
    destruct (Hz (Str.chars s) g []) as [z Hgz]; [rewrite Hrs; by left|].
    apply bind_ok in Hs as (y & _ & Hs). apply bind_ok in Hs as (m & _ & Hs).
    apply bind_ok in Hs as (dd & _ & Hs). apply bind_ok in Hs as (hh & _ & Hs).
    apply bind_ok in Hs as (mi & _ & Hs). apply bind_ok in Hs as (ss & _ & Hs).
    apply bind_ok in Hs as (tz & Htz & Hs).
    rewrite Hgz in Htz. apply bind_ok in Htz as (off & _ & Htz).
    apply bind_ok in Htz as (o & _ & Htz). injection Htz as <-.
    apply new_tzinfo in Hs. congruence.
  - rewrite (Honly e eq_refl) in *. split; [done|].
    apply bind_ok in Hp as (d' & Hd' & Hp). by injection Hp as <-.
Qed.

(** ** In-bed minutes of sessions of whole seconds *)

Lemma whole_minutes_from_spec k lo s :
  whole_minutes_from k lo = true ->
  (lo <= s < lo + 2 ^ Z.of_nat k)%Z ->
  whole_minutes_at s = true.
Proof.
  revert lo. induction k as [|k IH]; intros lo Hall Hs.
  - cbn in Hall. replace s with lo by (cbn in Hs; lia). exact Hall.
  - cbn [whole_minutes_from] in Hall. apply andb_prop in Hall as [Hlo Hhi].
    rewrite Nat2Z.inj_succ, Z.pow_succ_r in Hs by lia.
    destruct (Z.lt_ge_cases s (lo + 2 ^ Z.of_nat k)) as [Hlt|Hge].
    + apply (IH lo Hlo). lia.
    + apply (IH _ Hhi). lia.
Qed.

Lemma whole_minutes_nine_hours : whole_minutes_from 15 0 = true.
Proof. vm_compute. reflexivity. Qed.

Section WholeSeconds.
Context `{Platform}.

(** X22.  For a sleep session that lasts a whole number of seconds,
    up to 32767 of them (a little over 9 hours), the in-bed minutes
    are the seconds divided by 60 with the remainder dropped. *)
Theorem in_bed_minutes_of_whole_seconds (e : SleepEntry.t) (s : Z) :
  Datetime.sub (SleepEntry.sleepEnd e) (SleepEntry.sleepStart e) = Ok (s * 1000000)%Z ->
  (0 <= s < 32768)%Z ->
  ingest.total_time_in_bed e = Ok (s / 60)%Z.
Proof.
  intros Hsub Hs. unfold ingest.total_time_in_bed. rewrite Hsub. cbn [bind].
  pose proof (whole_minutes_from_spec 15 0 s whole_minutes_nine_hours) as Hw.
  unfold whole_minutes_at, minutes_of_seconds in Hw.
  specialize (Hw ltac:(cbn; lia)).
  match type of Hw with
  | match ?t with Ok _ => _ | Raise _ => _ end = true => destruct t as [z|err]
  end; [|discriminate Hw].
  apply Z.eqb_eq in Hw. by rewrite Hw.
Qed.

End WholeSeconds.

(** ** The theorems at sample requests, and where the specification
    and the code part *)

#[local] Existing Instance reference_platform.

Lemma malformed_point_rejects_request_witness :
  let r := ingest.health_auto_export_webhook "u1" one_malformed sample_now sample_world in
  ingest.WebhookResponse.success (fst r) = false
  /\ ingest.WebhookResponse.processed (fst r) = ingest.mkProcessed 0 0 0
  /\ servers (snd r) = servers sample_world.
Proof.
  eapply (malformed_point_rejects_request "u1" sample_now sample_world _ _ _ _ ten_points
            (PDict [("date", PStr "2025-06-25 00:15:00 +0200")]) ValidationError).
  - reflexivity.
  - reflexivity.
  - left. reflexivity.
  - reflexivity.
  - right. right. right. left. reflexivity.
  - vm_compute. reflexivity.
Defined.

(** C1, as the specification states it, fails: of ten data points
    nine validate and one has no [qty]; the call answers
    [success = false] with all counts 0 and stores nothing, where the
    specification promises nine insertions and a success. *)
Lemma one_malformed_point_fails_the_call :
  length (filter (fun p => is_ok (validate_CommonPoint p)) ten_points) = 9%nat
  /\ length ten_points = 10%nat
  /\ let r := ingest.health_auto_export_webhook "u1" one_malformed sample_now sample_world in
     fst r = ingest.WebhookResponse.mk false (ingest.Failed_to_process (HTTPException 422))
               (ingest.mkProcessed 0 0 0) "error"
     /\ servers (snd r) = servers sample_world
     /\ ~ (ingest.WebhookResponse.success (fst r) = true
           /\ ingest.metrics (ingest.WebhookResponse.processed (fst r)) = 9%nat).
Proof.
  split; [vm_compute; reflexivity|]. split; [reflexivity|].
  cbv zeta. split; [vm_compute; reflexivity|]. split; [vm_compute; reflexivity|].
  intros [Hs _]. vm_compute in Hs. discriminate.
Qed.

Lemma resubmission_is_idempotent_witness :
  let first := ingest.health_auto_export_webhook "u1" early_point_body sample_now sample_world in
  let second :=
    ingest.health_auto_export_webhook "u1" early_point_body sample_now (snd first) in
  servers (snd second) = servers (snd first)
  /\ size <$> (health_metrics <$> servers (snd second) !! sample_url) = Some 1%nat
  /\ printed (snd first) = [HealthMetricError "heart_rate_variability" "u1" DataError]
  /\ printed (snd second)
     = [HealthMetricError "heart_rate_variability" "u1" DataError;
        HealthMetricError "heart_rate_variability" "u1" DataError].
Proof.
  assert (Hv : validate_HealthAutoExportPayload early_point_body = Ok early_point_payload)
    by (vm_compute; reflexivity).
  assert (Hws : DataNode.workouts (HealthAutoExportPayload.data early_point_payload) = [])
    by reflexivity.
  split; [|repeat split; vm_compute; reflexivity].
  exact (proj1 (resubmission_is_idempotent "u1" early_point_body sample_now sample_now
                  sample_world early_point_payload Hv Hws)).
Defined.

Lemma block_classified_by_name_witness :
  metric_discriminator (sleep_block "hr") = "sleep"
  \/ metric_discriminator (sleep_block "hr") = "common".
Proof.
  eapply (block_classified_by_name (sleep_block "hr")).
  vm_compute. reflexivity.
Defined.

Lemma processed_counts_attempts_witness :
  let first := ingest.health_auto_export_webhook "u1" counted_body sample_now sample_world in
  let second := ingest.health_auto_export_webhook "u1" counted_body morning (snd first) in
  ingest.WebhookResponse.processed (fst second) = ingest.WebhookResponse.processed (fst first)
  /\ servers (snd second) = servers (snd first)
  /\ ingest.WebhookResponse.processed (fst first) = ingest.mkProcessed 1 1 1.
Proof.
  assert (Hv : validate_HealthAutoExportPayload counted_body = Ok counted_payload)
    by (vm_compute; reflexivity).
  assert (Hc : get_db_connection sample_world = Ok sample_connection)
    by (vm_compute; reflexivity).
  assert (Hstart : Forall (fun wk => is_Some (HAEWorkout.start wk))
                     (DataNode.workouts (HealthAutoExportPayload.data counted_payload))).
  { constructor; [eexists; reflexivity|constructor]. }
  destruct (processed_counts_attempts "u1" counted_body sample_now morning sample_world
              counted_payload sample_connection Hv Hc Hstart)
    as (Hcounts & Hservers & Hfirst & _).
  split; [exact Hcounts|]. split; [exact Hservers|].
  rewrite Hfirst. vm_compute. reflexivity.
Defined.

(** C10, as the specification states it, fails: a body whose workout
    has no start time is keyed by the clock reading of each delivery;
    delivered a second time it is counted as the first time, and a new
    row is stored. *)
Lemma startless_workout_stored_again :
  let first := ingest.health_auto_export_webhook "u1" startless_body morning sample_world in
  let second := ingest.health_auto_export_webhook "u1" startless_body sample_now (snd first) in
  validate_HealthAutoExportPayload startless_body = Ok startless_payload
  /\ ingest.WebhookResponse.processed (fst first) = ingest.mkProcessed 0 0 1
  /\ ingest.WebhookResponse.processed (fst second) = ingest.mkProcessed 0 0 1
  /\ size <$> (health_metrics <$> servers (snd first) !! sample_url) = Some 1%nat
  /\ size <$> (health_metrics <$> servers (snd second) !! sample_url) = Some 2%nat
  /\ servers (snd second) <> servers (snd first).
Proof.
  cbv zeta. repeat split; try (vm_compute; reflexivity).
  intros Heq.
  assert (Hsize : size <$> (health_metrics
                            <$> servers (snd (ingest.health_auto_export_webhook "u1"
                                                startless_body sample_now
                                                (snd (ingest.health_auto_export_webhook "u1"
                                                        startless_body morning sample_world))))
                                !! sample_url) = Some 2%nat) by (vm_compute; reflexivity).
  rewrite Heq in Hsize. vm_compute in Hsize. discriminate.
Qed.

Lemma timestamp_normalisation_witness :
  parse_swift_datetime (PInt 1750802400) = Ok (PInt 1750802400).
Proof.
  apply (timestamp_normalisation "2025-06-24T22:00:00Z" (PInt 1750802400)).
  intros s'. discriminate.
Defined.

(** C3, as the specification states it, fails: the code rewrites
    every [Z], not a trailing one only.  Where a [Z] separates date and
    time the specification's procedure parses the string and the code
    raises; where a second [Z] stands before a trailing one the code
    parses the string and the specification's procedure fails. *)
Lemma every_Z_is_replaced :
  parse_swift_datetime (PStr "2025-06-24Z10:00") = Raise ValueError
  /\ spec_normalize (PStr "2025-06-24Z10:00")
     = Ok (PDatetime (Datetime.mk 2025 6 24 10 0 0 0 None))
  /\ parse_swift_datetime (PStr "2025-06-24ZZ")
     = Ok (PDatetime (Datetime.mk 2025 6 24 0 0 0 0 (Some 0%Z)))
  /\ spec_normalize (PStr "2025-06-24ZZ") = Raise ValueError
  /\ parse_swift_datetime (PStr "2025-06-24Z10:00") <> spec_normalize (PStr "2025-06-24Z10:00").
Proof. repeat split; vm_compute; (reflexivity || discriminate). Qed.

Lemma calories_extraction_witness :
  ingest.total_calories series_workout = Ok (PInt 150).
Proof.
  apply (calories_extraction series_workout) with
    (series := [[("qty", PInt 100)]; [("qty", PInt 50)]]) (zs := [100%Z; 50%Z]).
  - reflexivity.
  - reflexivity.
  - repeat constructor.
Defined.

(** C4, as the specification states it, fails: with an empty
    [activeEnergyBurned] object beside a series, the aggregate is present
    as an object and has no quantity, yet the code sums the series. *)
Lemma empty_aggregate_does_not_decide :
  HAEWorkout.activeEnergyBurned empty_aggregate_workout = Some []
  /\ ingest.total_calories empty_aggregate_workout = Ok (PInt 100)
  /\ ingest.spec_total_calories empty_aggregate_workout = Ok (PInt 0)
  /\ ingest.total_calories empty_aggregate_workout
     <> ingest.spec_total_calories empty_aggregate_workout.
Proof. repeat split; vm_compute; (reflexivity || discriminate). Qed.

Lemma zero_calorie_workout_skipped_witness :
  ingest.insert_workout_step "u1" sample_now (O, (sample_connection, [])) zero_workout
  = (O, (sample_connection, [])).
Proof.
  apply (zero_calorie_workout_skipped "u1" sample_now zero_workout O (sample_connection, [])
           (PInt 0) (PInt 0)); reflexivity.
Defined.

(** C5, as the specification states it, fails: a workout of 0
    calories whose start carries an offset and whose end does not is
    printed as an error, the subtraction of the two raising before the
    calories are looked at. *)
Lemma zero_calorie_workout_reported :
  ingest.total_calories zero_workout_mixed = Ok (PInt 0)
  /\ py_gt_zero (PInt 0) = Ok false
  /\ ingest.insert_workout_step "u1" sample_now (O, (sample_connection, [])) zero_workout_mixed
     = (O, (sample_connection, [WorkoutError "u1" TypeError]))
  /\ ingest.insert_workout_step "u1" sample_now (O, (sample_connection, [])) zero_workout_mixed
     <> (O, (sample_connection, [])).
Proof. repeat split; vm_compute; (reflexivity || discriminate). Qed.


Lemma in_bed_minutes_truncated_witness :
  exists conn' row td seconds,
    ingest.insert_sleep_entry sample_connection "u1" night = Ok conn'
    /\ sleep_metrics (tables conn') !! ("u1", timestamptz (SleepEntry.sleepStart night))
       = Some row
    /\ Datetime.sub (SleepEntry.sleepEnd night) (SleepEntry.sleepStart night) = Ok td
    /\ Datetime.total_seconds td = Ok seconds
    /\ Float.to_int (Float.div seconds (Float.of_Z 60))
       = Ok (SleepRow.duration_in_bed_minutes row).
Proof.
  destruct (ingest.insert_sleep_entry sample_connection "u1" night) as [conn'|e] eqn:Hi;
    [|vm_compute in Hi; discriminate].
  destruct (in_bed_minutes_truncated sample_connection conn' "u1" night Hi)
    as (row & td & seconds & Hrow); [reflexivity|].
  exists conn', row, td, seconds. split; [reflexivity|exact Hrow].
Defined.

(** C7, as the specification states it, fails: a night of 8 hours
    and 59 seconds is stored with 480 in-bed minutes, where rounding
    gives 481. *)
Lemma in_bed_minutes_not_rounded :
  ingest.total_time_in_bed night = Ok 480%Z
  /\ ingest.spec_time_in_bed night = Ok 481%Z
  /\ ingest.total_time_in_bed night <> ingest.spec_time_in_bed night.
Proof. repeat split; vm_compute; (reflexivity || discriminate). Qed.

Lemma date_range_gate_witness :
  metrics.get_metrics metrics.workout (Some (metrics.mkUser "u1")) (Some sample_now)
    (Some morning) 1000 sample_world
  = Raise (HTTPException 400).
Proof.
  assert (Hlike : is_Some (Datetime.tzinfo sample_now) <-> is_Some (Datetime.tzinfo morning)).
  { split; intros _; eexists; reflexivity. }
  destruct (date_range_gate metrics.workout (metrics.mkUser "u1") sample_now morning 1000
              sample_world Hlike) as (b & Hge & _ & Hrefused & _).
  apply Hrefused.
  assert (Hcmp : Datetime.ge sample_now morning = Ok true) by (vm_compute; reflexivity).
  rewrite Hcmp in Hge. by injection Hge.
Defined.

(** C9, as the specification states it, fails: with a lower bound
    that carries no UTC offset and an upper bound that carries one, the
    lower bound earlier than the upper one whatever offset it is read
    with, the comparison raises TypeError before the [try]: the request
    is neither refused with status 400 nor handed to the querying
    stage, which would have answered it. *)
Lemma mixed_bounds_escape_the_gate :
  let answer :=
    metrics.get_metrics metrics.heart_rate_variability (Some (metrics.mkUser "u1"))
      (Some june_first_naive) (Some june_tenth_utc) 1000 sample_world in
  (forall off, (-86400000000 < off < 86400000000)%Z ->
     (Datetime.utc_micros (Datetime.mk 2025 6 1 0 0 0 0 (Some off))
      < Datetime.utc_micros june_tenth_utc)%Z)
  /\ Datetime.ge june_first_naive june_tenth_utc = Raise TypeError
  /\ Datetime.lt june_first_naive june_tenth_utc = Raise TypeError
  /\ answer = Raise TypeError
  /\ answer <> Raise (HTTPException 400)
  /\ is_ok (metrics.run_queries metrics.heart_rate_variability "u1" (Some june_first_naive)
              (Some june_tenth_utc) 1000 sample_world) = true
  /\ answer
     <> metrics.run_queries metrics.heart_rate_variability "u1" (Some june_first_naive)
          (Some june_tenth_utc) 1000 sample_world.
Proof.
  cbv zeta. split.
  { intros off Hoff. unfold june_tenth_utc, Datetime.utc_micros. cbn [Datetime.tzinfo].
    assert (H1 : Datetime.wall_micros (Datetime.mk 2025 6 1 0 0 0 0 (Some off))
                 = 63884419200000000%Z) by (vm_compute; reflexivity).
    assert (H2 : Datetime.wall_micros (Datetime.mk 2025 6 10 0 0 0 0 (Some 0%Z))
                 = 63885196800000000%Z) by (vm_compute; reflexivity).
    rewrite H1, H2. lia. }
  repeat split; vm_compute; (reflexivity || discriminate).
Qed.

(** ** The further properties at sample requests *)

Lemma webhook_never_overwrites_witness :
  health_metrics stored_database
  !! ("u1", "heart_rate_variability", timestamptz (CommonPoint.date hrv_point_1))
  = Some (HealthRow.mk "ms" (PFloat (Float.of_Z 40)))
  /\ exists db',
       servers (snd (ingest.health_auto_export_webhook "u1" two_points_changed sample_now
                       stored_world)) !! sample_url = Some db'
       /\ health_metrics db'
          !! ("u1", "heart_rate_variability", timestamptz (CommonPoint.date hrv_point_1))
          = Some (HealthRow.mk "ms" (PFloat (Float.of_Z 40))).
Proof.
  assert (Hu : servers stored_world !! sample_url = Some stored_database)
    by (vm_compute; reflexivity).
  assert (Hrow : health_metrics stored_database
                 !! ("u1", "heart_rate_variability",
                     timestamptz (CommonPoint.date hrv_point_1))
                 = Some (HealthRow.mk "ms" (PFloat (Float.of_Z 40))))
    by (vm_compute; reflexivity).
  split; [exact Hrow|].
  destruct (webhook_never_overwrites "u1" two_points_changed sample_now stored_world
              sample_url stored_database Hu) as (db' & Hs & Hkept & _).
  exists db'. split; [exact Hs|]. apply Hkept. exact Hrow.
Defined.

Lemma webhook_writes_own_rows_witness :
  (forall k row, health_metrics stored_database !! k = Some row ->
     health_metrics (mkDatabase ∅ ∅) !! k = Some row \/ fst (fst k) = "u1")
  /\ (forall k row, sleep_metrics stored_database !! k = Some row ->
        sleep_metrics (mkDatabase ∅ ∅) !! k = Some row \/ fst k = "u1").
Proof.
  assert (Hu : servers sample_world !! sample_url = Some (mkDatabase ∅ ∅))
    by (vm_compute; reflexivity).
  assert (Hs : servers (snd (ingest.health_auto_export_webhook "u1" two_points sample_now
                               sample_world)) !! sample_url = Some stored_database)
    by (vm_compute; reflexivity).
  exact (webhook_writes_own_rows "u1" two_points sample_now sample_world sample_url
           (mkDatabase ∅ ∅) stored_database Hu Hs).
Defined.

Lemma webhook_counts_bound_new_rows_witness :
  let r := ingest.health_auto_export_webhook "u1" two_points sample_now sample_world in
  let counts := ingest.WebhookResponse.processed (fst r) in
  exists db',
    servers (snd r) !! url sample_connection = Some db'
    /\ size (health_metrics (tables sample_connection)) <= size (health_metrics db')
       <= size (health_metrics (tables sample_connection))
          + (ingest.metrics counts + ingest.workouts counts)
    /\ size (sleep_metrics (tables sample_connection)) <= size (sleep_metrics db')
       <= size (sleep_metrics (tables sample_connection)) + ingest.sleep counts.
Proof.
  assert (Hv : validate_HealthAutoExportPayload two_points = Ok two_points_payload)
    by (vm_compute; reflexivity).
  assert (Hc : get_db_connection sample_world = Ok sample_connection)
    by (vm_compute; reflexivity).
  exact (webhook_counts_bound_new_rows "u1" two_points sample_now sample_world
           two_points_payload sample_connection Hv Hc).
Defined.

Lemma webhook_stores_every_point_witness :
  let r := ingest.health_auto_export_webhook "u1" early_point_body sample_now sample_world in
  (exists db',
     servers (snd r) !! url sample_connection = Some db'
     /\ is_Some (health_metrics db'
                 !! ("u1", CommonMetric.name early_metric,
                     timestamptz (CommonPoint.date hrv_point_1))))
  /\ In (HealthMetricError (CommonMetric.name early_metric) "u1" DataError) (printed (snd r)).
Proof.
  assert (Hv : validate_HealthAutoExportPayload early_point_body = Ok early_point_payload)
    by (vm_compute; reflexivity).
  assert (Hc : get_db_connection sample_world = Ok sample_connection)
    by (vm_compute; reflexivity).
  assert (Hm : In (Common early_metric)
                 (DataNode.metrics (HealthAutoExportPayload.data early_point_payload)))
    by (left; reflexivity).
  assert (Hp1 : In hrv_point_1 (CommonMetric.data early_metric)) by (left; reflexivity).
  assert (Hp2 : In early_point (CommonMetric.data early_metric))
    by (right; left; reflexivity).
  assert (Htaken : is_ok (ingest.execute_insert_health sample_connection "u1"
                            (CommonMetric.name early_metric) (CommonMetric.units early_metric)
                            (CommonPoint.date hrv_point_1)
                            (PFloat (CommonPoint.qty hrv_point_1))) = true)
    by (vm_compute; reflexivity).
  assert (Hrefused : ingest.execute_insert_health sample_connection "u1"
                       (CommonMetric.name early_metric) (CommonMetric.units early_metric)
                       (CommonPoint.date early_point) (PFloat (CommonPoint.qty early_point))
                     = Raise DataError) by (vm_compute; reflexivity).
  split.
  - exact (proj1 (webhook_stores_every_point "u1" early_point_body sample_now sample_world
                    early_point_payload sample_connection early_metric hrv_point_1
                    Hv Hc Hm Hp1) Htaken).
  - exact (proj2 (webhook_stores_every_point "u1" early_point_body sample_now sample_world
                    early_point_payload sample_connection early_metric early_point
                    Hv Hc Hm Hp2) DataError Hrefused).
Defined.

Lemma sleep_entry_failure_is_isolated_witness :
  let with_bad :=
    ingest.insert_sleep_metrics_from_analysis (sample_connection, []) "u1"
      (SleepMetric.mk "hr" ([night] ++ night_nan :: [])) in
  let without :=
    ingest.insert_sleep_metrics_from_analysis (sample_connection, []) "u1"
      (SleepMetric.mk "hr" ([night] ++ [])) in
  fst with_bad = fst without
  /\ fst (snd with_bad) = fst (snd without)
  /\ In (SleepError "u1" ValueError) (snd (snd with_bad)).
Proof.
  assert (Hbad : ingest.insert_sleep_entry sample_connection "u1" night_nan = Raise ValueError)
    by (vm_compute; reflexivity).
  exact (sleep_entry_failure_is_isolated sample_connection [] "u1" "hr" [night] [] night_nan
           ValueError Hbad).
Defined.

Lemma workout_failure_is_isolated_witness :
  let with_bad :=
    ingest.insert_workout_metrics (sample_connection, []) "u1" sample_now
      ([series_workout] ++ zero_workout_mixed :: []) in
  let without :=
    ingest.insert_workout_metrics (sample_connection, []) "u1" sample_now
      ([series_workout] ++ []) in
  fst with_bad = fst without
  /\ fst (snd with_bad) = fst (snd without)
  /\ In (WorkoutError "u1" TypeError) (snd (snd with_bad)).
Proof.
  assert (Hbad : ingest.insert_workout sample_connection "u1" sample_now zero_workout_mixed
                 = Raise TypeError) by (vm_compute; reflexivity).
  exact (workout_failure_is_isolated sample_connection [] "u1" sample_now [series_workout] []
           zero_workout_mixed TypeError Hbad).
Defined.

Lemma sleep_columns_witness :
  exists row,
    sleep_metrics (tables night_connection) !! ("u1", timestamptz (SleepEntry.sleepStart night))
    = Some row
    /\ SleepRow.end_time row = timestamptz (SleepEntry.sleepEnd night)
    /\ Float.to_int (Float.mul (SleepEntry.totalSleep night) (Float.of_Z 60))
       = Ok (SleepRow.duration_total_minutes row)
    /\ Float.to_int (Float.mul (SleepEntry.awake night) (Float.of_Z 60))
       = Ok (SleepRow.duration_awake_minutes row)
    /\ Float.to_int (Float.mul (SleepEntry.core night) (Float.of_Z 60))
       = Ok (SleepRow.duration_light_minutes row)
    /\ Float.to_int (Float.mul (SleepEntry.deep night) (Float.of_Z 60))
       = Ok (SleepRow.duration_deep_minutes row)
    /\ Float.to_int (Float.mul (SleepEntry.rem night) (Float.of_Z 60))
       = Ok (SleepRow.duration_rem_minutes row)
    /\ health_metrics (tables night_connection) = health_metrics (tables sample_connection)
    /\ url night_connection = url sample_connection.
Proof.
  assert (Hi : ingest.insert_sleep_entry sample_connection "u1" night = Ok night_connection)
    by (vm_compute; reflexivity).
  assert (Hfree : sleep_metrics (tables sample_connection)
                  !! ("u1", timestamptz (SleepEntry.sleepStart night)) = None)
    by (vm_compute; reflexivity).
  exact (sleep_columns sample_connection night_connection "u1" night Hi Hfree).
Defined.

Lemma sleep_entry_absorbed_witness :
  ingest.insert_sleep_step "u1" (1%nat, (night_connection, [])) night
  = (2%nat, (night_connection, [])).
Proof.
  assert (Hrow : sleep_metrics (tables night_connection)
                 !! ("u1", timestamptz (SleepEntry.sleepStart night)) = Some night_row)
    by (vm_compute; reflexivity).
  assert (Hi : ingest.insert_sleep_entry night_connection "u1" night = Ok night_connection)
    by (vm_compute; reflexivity).
  exact (sleep_entry_absorbed night_connection [] 1 "u1" night night_connection night_row
           Hrow Hi).
Defined.

Lemma workout_row_written_witness :
  exists conn',
    ingest.insert_workout sample_connection "u1" sample_now series_workout = Ok (Some conn')
    /\ health_metrics (tables conn') !! ("u1", "workout", timestamptz morning)
       = Some (HealthRow.mk "cal" (PInt 150))
    /\ sleep_metrics (tables conn') = sleep_metrics (tables sample_connection).
Proof.
  assert (Hc : ingest.total_calories series_workout = Ok (PInt 150))
    by (vm_compute; reflexivity).
  assert (Hp : py_gt_zero (PInt 150) = Ok true) by reflexivity.
  assert (Hd : ingest.duration_minutes series_workout = Ok (PInt 0))
    by (vm_compute; reflexivity).
  assert (Htaken : is_ok (ingest.execute_insert_health sample_connection "u1" "workout" "cal"
                            morning (PInt 150)) = true) by (vm_compute; reflexivity).
  assert (Hfree : health_metrics (tables sample_connection)
                  !! ("u1", "workout", timestamptz morning) = None)
    by (vm_compute; reflexivity).
  exact (proj2 (workout_row_written sample_connection "u1" sample_now series_workout (PInt 150)
                  (PInt 0) Hc Hp Hd) Htaken Hfree).
Defined.

Lemma startless_workout_is_duplicated_witness :
  let first :=
    ingest.insert_workout_metrics (sample_connection, []) "u1" sample_now [startless_workout] in
  let second := ingest.insert_workout_metrics (snd first) "u1" morning [startless_workout] in
  fst first = 1%nat /\ fst second = 1%nat
  /\ size (health_metrics (tables (fst (snd second))))
     = S (S (size (health_metrics (tables sample_connection))))
  /\ health_metrics (tables (fst (snd second))) !! ("u1", "workout", timestamptz sample_now)
     = Some (HealthRow.mk "cal" (PInt 100))
  /\ health_metrics (tables (fst (snd second))) !! ("u1", "workout", timestamptz morning)
     = Some (HealthRow.mk "cal" (PInt 100)).
Proof.
  assert (Hs : HAEWorkout.start startless_workout = None) by reflexivity.
  assert (Hc : ingest.total_calories startless_workout = Ok (PInt 100))
    by (vm_compute; reflexivity).
  assert (Hp : py_gt_zero (PInt 100) = Ok true) by reflexivity.
  assert (Hd : ingest.duration_minutes startless_workout = Ok (PInt 0))
    by (vm_compute; reflexivity).
  assert (Ht1 : is_ok (ingest.execute_insert_health sample_connection "u1" "workout" "cal"
                         sample_now (PInt 100)) = true) by (vm_compute; reflexivity).
  assert (Ht2 : is_ok (ingest.execute_insert_health sample_connection "u1" "workout" "cal"
                         morning (PInt 100)) = true) by (vm_compute; reflexivity).
  assert (Hn : timestamptz sample_now <> timestamptz morning) by (vm_compute; discriminate).
  assert (H1 : health_metrics (tables sample_connection)
               !! ("u1", "workout", timestamptz sample_now) = None)
    by (vm_compute; reflexivity).
  assert (H2 : health_metrics (tables sample_connection)
               !! ("u1", "workout", timestamptz morning) = None)
    by (vm_compute; reflexivity).
  exact (startless_workout_is_duplicated sample_connection [] "u1" sample_now morning
           startless_workout (PInt 100) (PInt 0) Hs Hc Hp Hd Ht1 Ht2 Hn H1 H2).
Defined.

Lemma validation_failures_witness :
  (ValidationError = ValidationError /\ exists d, one_malformed = PDict d)
  \/ (ValidationError = TypeError /\ forall d, one_malformed <> PDict d).
Proof.
  assert (Hv : validate_HealthAutoExportPayload one_malformed = Raise ValidationError)
    by (vm_compute; reflexivity).
  exact (validation_failures one_malformed ValidationError Hv).
Defined.

Lemma webhook_failure_causes_witness :
  exists e,
    ingest.WebhookResponse.message_
      (fst (ingest.health_auto_export_request "u1" (Raise JSONDecodeError) sample_now
              sample_world))
    = ingest.Failed_to_process e
    /\ ingest.WebhookResponse.processed
         (fst (ingest.health_auto_export_request "u1" (Raise JSONDecodeError) sample_now
                 sample_world))
       = ingest.mkProcessed 0 0 0
    /\ e = JSONDecodeError.
Proof.
  assert (Hf : ingest.WebhookResponse.success
                 (fst (ingest.health_auto_export_request "u1" (Raise JSONDecodeError)
                         sample_now sample_world)) = false) by reflexivity.
  exact (webhook_failure_causes "u1" (Raise JSONDecodeError) sample_now sample_world Hf).
Defined.

Lemma query_answer_is_ordered_and_bounded_witness :
  let ts :=
    map metrics.MetricDataPoint.timestamp (metrics.MetricsResponse.data first_point_response) in
  Sorted Z.le ts
  /\ Forall (fun t => metrics.in_range None None t = true) ts
  /\ length ts
     = Nat.min (Z.to_nat 1) (metrics.MetricsResponse.total_count first_point_response)
  /\ (forall limit' resp',
        metrics.run_queries metrics.heart_rate_variability "u1" None None limit' stored_world
        = Ok resp' ->
        metrics.MetricsResponse.total_count resp'
        = metrics.MetricsResponse.total_count first_point_response).
Proof.
  assert (Hr : metrics.run_queries metrics.heart_rate_variability "u1" None None 1 stored_world
               = Ok first_point_response) by (vm_compute; reflexivity).
  assert (Hl : (0 < 1)%Z) by lia.
  exact (query_answer_is_ordered_and_bounded metrics.heart_rate_variability "u1" None None 1
           stored_world first_point_response Hr Hl).
Defined.

Lemma ingested_point_is_queryable_witness :
  In (timestamptz (CommonPoint.date hrv_point_2))
    (map metrics.MetricDataPoint.timestamp (metrics.MetricsResponse.data all_points_response)).
Proof.
  assert (Hv : validate_HealthAutoExportPayload two_points = Ok two_points_payload)
    by (vm_compute; reflexivity).
  assert (Hc : get_db_connection sample_world = Ok sample_connection)
    by (vm_compute; reflexivity).
  assert (Hm : In (Common hrv_metric)
                 (DataNode.metrics (HealthAutoExportPayload.data two_points_payload)))
    by (left; reflexivity).
  assert (Hn : CommonMetric.name hrv_metric = "heart_rate_variability") by reflexivity.
  assert (Hp : In hrv_point_2 (CommonMetric.data hrv_metric)) by (right; left; reflexivity).
  assert (Htaken : is_ok (ingest.execute_insert_health sample_connection "u1"
                            (CommonMetric.name hrv_metric) (CommonMetric.units hrv_metric)
                            (CommonPoint.date hrv_point_2)
                            (PFloat (CommonPoint.qty hrv_point_2))) = true)
    by (vm_compute; reflexivity).
  assert (Hin : metrics.in_range None None (timestamptz (CommonPoint.date hrv_point_2)) = true)
    by reflexivity.
  assert (Hg : metrics.get_metrics metrics.heart_rate_variability (Some (metrics.mkUser "u1"))
                 None None 1000
                 (snd (ingest.health_auto_export_webhook "u1" two_points sample_now
                         sample_world))
               = Ok all_points_response) by (vm_compute; reflexivity).
  assert (Hl : metrics.MetricsResponse.total_count all_points_response <= Z.to_nat 1000)
    by (vm_compute; lia).
  exact (ingested_point_is_queryable "u1" two_points sample_now sample_world two_points_payload
           sample_connection hrv_metric hrv_point_2 None None 1000 all_points_response
           Hv Hc Hm Hn Hp Htaken Hin Hg Hl).
Defined.

Lemma swift_timestamps_are_aware_witness :
  Datetime.strptime "2025-06-24T22:00:00" SWIFT_FORMAT = Raise ValueError
  /\ Datetime.fromisoformat (Str.replace "Z" "+00:00" "2025-06-24T22:00:00")
     = Ok (Datetime.mk 2025 6 24 22 0 0 0 None).
Proof.
  assert (Hp : parse_swift_datetime (PStr "2025-06-24T22:00:00")
               = Ok (PDatetime (Datetime.mk 2025 6 24 22 0 0 0 None)))
    by (vm_compute; reflexivity).
  assert (Hn : Datetime.tzinfo (Datetime.mk 2025 6 24 22 0 0 0 None) = None) by reflexivity.
  exact (swift_timestamps_are_aware "2025-06-24T22:00:00" (Datetime.mk 2025 6 24 22 0 0 0 None)
           Hp Hn).
Defined.

Lemma in_bed_minutes_of_whole_seconds_witness :
  ingest.total_time_in_bed night = Ok (28859 / 60)%Z.
Proof.
  assert (Hsub : Datetime.sub (SleepEntry.sleepEnd night) (SleepEntry.sleepStart night)
                 = Ok (28859 * 1000000)%Z) by (vm_compute; reflexivity).
  assert (Hs : (0 <= 28859 < 32768)%Z) by lia.
  exact (in_bed_minutes_of_whole_seconds night 28859 Hsub Hs).
Defined.

Lemma webhook_outcome_witness :
  let r := ingest.health_auto_export_webhook "u1" one_malformed sample_now sample_world in
  ingest.WebhookResponse.processed (fst r) = ingest.mkProcessed 0 0 0
  /\ ingest.WebhookResponse.request_hash (fst r) = "error"
  /\ servers (snd r) = servers sample_world.
Proof.
  assert (Hf : ingest.WebhookResponse.success
                 (fst (ingest.health_auto_export_webhook "u1" one_malformed sample_now
                         sample_world)) = false) by (vm_compute; reflexivity).
  exact (proj1 (proj2 (webhook_outcome "u1" one_malformed sample_now sample_world)) Hf).
Defined.

Lemma connection_reads_mode_secret_witness :
  secrets sample_world !! "DATABASE_URL_DEV" = Some (url sample_connection)
  /\ url sample_connection <> ""
  /\ servers sample_world !! url sample_connection = Some (tables sample_connection).
Proof.
  assert (Hc : get_db_connection sample_world = Ok sample_connection)
    by (vm_compute; reflexivity).
  exact (proj1 (proj2 (connection_reads_mode_secret sample_world)) sample_connection Hc).
Defined.

Lemma api_key_check_witness :
  validate_api_key (Some "k3y")
    (mkWorld DEV {["HEALTH_AUTO_EXPORT_API_KEY" := "k3y"]} ∅ []) = true.
Proof.
  assert (Hk : exists key,
             Some "k3y" = Some key /\ key <> ""
             /\ secrets (mkWorld DEV {["HEALTH_AUTO_EXPORT_API_KEY" := "k3y"]} ∅ [])
                !! "HEALTH_AUTO_EXPORT_API_KEY" = Some key).
  { exists "k3y". split; [reflexivity|]. split; [discriminate|]. vm_compute. reflexivity. }
  exact (proj2 (api_key_check (Some "k3y")
                  (mkWorld DEV {["HEALTH_AUTO_EXPORT_API_KEY" := "k3y"]} ∅ [])) Hk).
Defined.

Lemma range_check_edges_witness :
  metrics.get_metrics metrics.sleep (Some (metrics.mkUser "u1"))
    (Some (Datetime.mk 2025 6 1 0 0 0 0 None)) (Some sample_now) 10 sample_world
  = Raise TypeError.
Proof.
  assert (Hmix : is_Some (Datetime.tzinfo (Datetime.mk 2025 6 1 0 0 0 0 None))
                 <-> Datetime.tzinfo sample_now = None).
  { split; [intros [o Ho]; discriminate Ho|intros Ho; discriminate Ho]. }
  exact (proj1 (proj2 (range_check_edges metrics.sleep (metrics.mkUser "u1")
                         (Some (Datetime.mk 2025 6 1 0 0 0 0 None)) (Some sample_now) 10
                         sample_world))
           (Datetime.mk 2025 6 1 0 0 0 0 None) sample_now eq_refl eq_refl Hmix).
Defined.

Lemma query_stage_failures_witness :
  metrics.run_queries metrics.workout "u1" None None 10 (mkWorld PROD ∅ ∅ [])
  = Raise (HTTPException 500).
Proof.
  assert (Hc : is_ok (get_db_connection (mkWorld PROD ∅ ∅ [])) = false \/ (10 < 0)%Z)
    by (left; vm_compute; reflexivity).
  exact (proj1 (query_stage_failures metrics.workout "u1" None None 10 (mkWorld PROD ∅ ∅ []))
           Hc).
Defined.

Lemma hrv_change_never_divides_by_zero_witness :
  insights.hrv_change (Float.of_Z 55) (Float.of_Z (-50)) = Ok (PInt 0).
Proof.
  assert (Hn : Float.gt_zero (Float.of_Z (-50)) = false) by (vm_compute; reflexivity).
  exact (proj1 (hrv_change_never_divides_by_zero (Float.of_Z 55) (Float.of_Z (-50))) Hn).
Defined.
